(** * Teacher registry (app.py): registration, deletion and the photo store

    A shallow embedding of the Flask application [app.py]: the static
    school table, [get_info_escola], the route [processar_cadastro]
    (POST /cadastro) and the route [excluir_professor] (GET /excluir/<id>),
    over an explicit state made of the upload tree on disk and the
    [professor] table.

    Conventions of the model.
    - A Python [str] is a [string] whose characters are code points
      U+0000..U+00FF (one [ascii] per code point).  Code points above
      U+00FF are outside the model.  All character tables below
      ([chr_isdigit], [chr_lower], [chr_isspace], [nfkd_ascii]) are the
      Unicode data restricted to that range.
    - The operating system is POSIX ([os.sep] is "/", [os.path.altsep] is
      [None], [os.name] is not "nt").
    - An exception is [None] in an [option], or [false] beside the state
      it left behind; state is passed explicitly. *)

From Stdlib Require Import ZArith NArith Ascii String List Bool Lia.
From stdpp Require Import base option list strings pretty gmap fin_maps.

Local Open Scope string_scope.
Local Open Scope Z_scope.

(** ** Python strings *)

Module Py.

Definition ord (c : ascii) : N := N_of_ascii c.

(** Source literals are written as in the UTF-8 source file and decoded to
    code points: the two-byte sequences C2 xx and C3 xx are U+0080..U+00FF. *)
Fixpoint lit (s : string) : string :=
  match s with
  | EmptyString => EmptyString
  | String c r =>
      match r with
      | String c2 r2 =>
          if (ord c =? 194)%N then String c2 (lit r2)
          else if (ord c =? 195)%N then String (ascii_of_N (ord c2 + 64)) (lit r2)
          else String c (lit r)
      | EmptyString => String c EmptyString
      end
  end.

Definition in_range (lo hi : N) (c : ascii) : bool :=
  ((lo <=? ord c) && (ord c <=? hi))%N.

Definition is_ascii_digit (c : ascii) : bool := in_range 48 57 c.

(** [str.isdigit] per character: Numeric_Type Decimal or Digit.  Below
    U+0100 these are 0-9 and the superscripts U+00B2, U+00B3, U+00B9. *)
Definition chr_isdigit (c : ascii) : bool :=
  is_ascii_digit c || (ord c =? 178)%N || (ord c =? 179)%N || (ord c =? 185)%N.

Fixpoint str_all (f : ascii → bool) (s : string) : bool :=
  match s with
  | EmptyString => true
  | String c r => f c && str_all f r
  end.

Fixpoint str_filter (f : ascii → bool) (s : string) : string :=
  match s with
  | EmptyString => EmptyString
  | String c r => if f c then String c (str_filter f r) else str_filter f r
  end.

Fixpoint str_map (f : ascii → ascii) (s : string) : string :=
  match s with
  | EmptyString => EmptyString
  | String c r => String (f c) (str_map f r)
  end.

Fixpoint str_flat_map (f : ascii → string) (s : string) : string :=
  match s with
  | EmptyString => EmptyString
  | String c r => f c +:+ str_flat_map f r
  end.

(** Truth value of a [str]: non-empty. *)
Definition truthy (s : string) : bool :=
  match s with EmptyString => false | _ => true end.

(** [s.isdigit()]: at least one character and all of them digits. *)
Definition str_isdigit (s : string) : bool := truthy s && str_all chr_isdigit s.

(** [str.lower] per character below U+0100: A-Z, and U+00C0..U+00DE
    except the multiplication sign U+00D7. *)
Definition chr_lower (c : ascii) : ascii :=
  if in_range 65 90 c then ascii_of_N (ord c + 32)
  else if in_range 192 222 c && negb (ord c =? 215)%N then ascii_of_N (ord c + 32)
  else c.

Definition str_lower (s : string) : string := str_map chr_lower s.

(** [Py_UNICODE_ISSPACE] below U+0100. *)
Definition chr_isspace (c : ascii) : bool :=
  in_range 9 13 c || in_range 28 32 c || (ord c =? 133)%N || (ord c =? 160)%N.

(** The C-level [Py_ISSPACE] of [PyLong_FromString]. *)
Definition c_isspace (c : ascii) : bool := in_range 9 13 c || (ord c =? 32)%N.

(** *** [int(str)] in base 10 *)

(** [_PyUnicode_TransformDecimalAndSpaceToASCII]: code points below 127
    are kept, other white space becomes a blank, other decimal digits
    their ASCII digit (there are none below U+0100), and anything else
    ends the buffer with a question mark. *)
Fixpoint transform_decimal_and_space (s : string) : string :=
  match s with
  | EmptyString => EmptyString
  | String c r =>
      if (ord c <? 127)%N then String c (transform_decimal_and_space r)
      else if chr_isspace c then String " " (transform_decimal_and_space r)
      else "?"
  end.

Fixpoint skip_spaces (s : string) : string :=
  match s with
  | String c r => if c_isspace c then skip_spaces r else s
  | EmptyString => EmptyString
  end.

(** The digit scan of [long_from_string_base]: digits and single
    underscores between them; [prev] tells whether the previous character
    was an underscore.  Returns the digit values (most significant first)
    and the unread rest, or [None] on a doubled or trailing underscore. *)
Fixpoint scan_digits (s : string) (prev : bool) (acc : list Z)
    : option (list Z * string) :=
  match s with
  | String c r =>
      if is_ascii_digit c then scan_digits r false (acc ++ [Z.of_N (ord c) - 48])
      else if Ascii.eqb c "_" then
        if prev then None else scan_digits r true acc
      else if prev then None else Some (acc, s)
  | EmptyString => if prev then None else Some (acc, s)
  end.

(** [sys.int_info.default_max_str_digits], the limit on the digits of an
    integer read from or written to a [str]. *)
Definition max_str_digits : nat := 4300.

Definition digits_value (ds : list Z) : Z := fold_left (λ a d, 10 * a + d) ds 0.

(** [int(s)] for a [str] [s]; [None] is [ValueError]. *)
Definition int_of_str (s : string) : option Z :=
  let t := skip_spaces (transform_decimal_and_space s) in
  let '(neg, t) :=
    match t with
    | String "+" r => (false, r)
    | String "-" r => (true, r)
    | _ => (false, t)
    end in
  match t with
  | String "_" _ => None
  | _ =>
      match scan_digits t false [] with
      | None => None
      | Some (ds, rest) =>
          if bool_decide (ds = []) then None
          else if (max_str_digits <? length ds)%nat then None
          else
            match skip_spaces rest with
            | EmptyString => Some (if neg then - digits_value ds else digits_value ds)
            | _ => None
            end
      end
  end.

(** [str(n)] of an [int], as used by an f-string; [None] is the
    [ValueError] of an integer with more than [max_str_digits] digits. *)
Definition str_of_int (n : Z) : option string :=
  if (max_str_digits <? String.length (pretty (Z.abs n)))%nat then None
  else Some (pretty n).

(** *** [split], [join], [strip], [rfind], slices *)

(** The maximal runs of characters of [s] that are not separators;
    [cur] is the run being read. *)
Fixpoint split_runs (sep : ascii → bool) (s : string) (cur : string) : list string :=
  match s with
  | EmptyString => if truthy cur then [cur] else []
  | String c r =>
      if sep c then
        (if truthy cur then [cur] else []) ++ split_runs sep r EmptyString
      else split_runs sep r (cur +:+ String c EmptyString)
  end.

(** [s.split()]: the runs between white space. *)
Definition str_split (s : string) : list string := split_runs chr_isspace s EmptyString.

Fixpoint str_join (sep : string) (l : list string) : string :=
  match l with
  | [] => EmptyString
  | [x] => x
  | x :: r => x +:+ sep +:+ str_join sep r
  end.

Definition chr_in (chars : string) (c : ascii) : bool :=
  negb (str_all (λ d, negb (Ascii.eqb c d)) chars).

Fixpoint str_lstrip (chars : string) (s : string) : string :=
  match s with
  | String c r => if chr_in chars c then str_lstrip chars r else s
  | EmptyString => EmptyString
  end.

Fixpoint str_rstrip (chars : string) (s : string) : string :=
  match s with
  | String c r =>
      match str_rstrip chars r with
      | EmptyString => if chr_in chars c then EmptyString else String c EmptyString
      | r' => String c r'
      end
  | EmptyString => EmptyString
  end.

Definition str_strip (chars : string) (s : string) : string :=
  str_rstrip chars (str_lstrip chars s).

(** [s.rfind(c)] for a one-character [c]: the highest index, or -1. *)
Fixpoint rfind_from (c : ascii) (s : string) (i : Z) (found : Z) : Z :=
  match s with
  | EmptyString => found
  | String a r => rfind_from c r (i + 1) (if Ascii.eqb a c then i else found)
  end.

Definition str_rfind (c : ascii) (s : string) : Z := rfind_from c s 0 (-1).

(** [s[:n]] and [s[n:]] for [0 <= n]. *)
Fixpoint str_take (n : nat) (s : string) : string :=
  match n, s with
  | S n', String c r => String c (str_take n' r)
  | _, _ => EmptyString
  end.

Fixpoint str_drop (n : nat) (s : string) : string :=
  match n, s with
  | S n', String _ r => str_drop n' r
  | _, _ => s
  end.

Definition str_startswith (c : ascii) (s : string) : bool :=
  match s with String a _ => Ascii.eqb a c | EmptyString => false end.

Fixpoint str_endswith (c : ascii) (s : string) : bool :=
  match s with
  | EmptyString => false
  | String a EmptyString => Ascii.eqb a c
  | String _ r => str_endswith c r
  end.

End Py.


(** ** [os.path] (posixpath) *)

Module OsPath.
Import Py.

(** [os.path.splitext]: the extension begins at the last dot of the last
    path component, unless that component has only leading dots before it. *)
Fixpoint has_non_dot (p : string) (from count : nat) : bool :=
  match count with
  | O => false
  | S k =>
      match str_take 1 (str_drop from p) with
      | "." => has_non_dot p (S from) k
      | _ => true
      end
  end.

Definition splitext (p : string) : string * string :=
  let sepIndex := str_rfind "/" p in
  let dotIndex := str_rfind "." p in
  if (sepIndex <? dotIndex) then
    let filenameIndex := Z.to_nat (sepIndex + 1) in
    if has_non_dot p filenameIndex (Z.to_nat dotIndex - filenameIndex) then
      (str_take (Z.to_nat dotIndex) p, str_drop (Z.to_nat dotIndex) p)
    else (p, EmptyString)
  else (p, EmptyString).

(** [os.path.join(a, b)] with two arguments. *)
Definition join (a b : string) : string :=
  if str_startswith "/" b then b
  else if negb (truthy a) || str_endswith "/" a then a +:+ b
  else a +:+ "/" +:+ b.

(** [os.path.dirname]. *)
Definition dirname (p : string) : string :=
  let i := Z.to_nat (str_rfind "/" p + 1) in
  let head := str_take i p in
  if truthy head && negb (str_all (Ascii.eqb "/") head)
  then str_rstrip "/" head
  else head.

End OsPath.

(** ** [werkzeug.utils.secure_filename] *)

Module Werkzeug.
Import Py.

(** [unicodedata.normalize("NFKD", s).encode("ascii", "ignore")] for one
    code point below U+0100: the ASCII characters of its compatibility
    decomposition.  (The canonical reordering of NFKD only moves combining
    marks, none of which is ASCII.) *)
Definition nfkd_ascii (c : ascii) : string :=
  let n := ord c in
  if (n <? 128)%N then String c EmptyString
  else if (n =? 160)%N || (n =? 168)%N || (n =? 175)%N || (n =? 180)%N
          || (n =? 184)%N then " "
  else if (n =? 170)%N then "a"
  else if (n =? 178)%N then "2"
  else if (n =? 179)%N then "3"
  else if (n =? 185)%N then "1"
  else if (n =? 186)%N then "o"
  else if (n =? 188)%N then "14"
  else if (n =? 189)%N then "12"
  else if (n =? 190)%N then "34"
  else if in_range 192 197 c then "A"
  else if (n =? 199)%N then "C"
  else if in_range 200 203 c then "E"
  else if in_range 204 207 c then "I"
  else if (n =? 209)%N then "N"
  else if in_range 210 214 c then "O"
  else if in_range 217 220 c then "U"
  else if (n =? 221)%N then "Y"
  else if in_range 224 229 c then "a"
  else if (n =? 231)%N then "c"
  else if in_range 232 235 c then "e"
  else if in_range 236 239 c then "i"
  else if (n =? 241)%N then "n"
  else if in_range 242 246 c then "o"
  else if in_range 249 252 c then "u"
  else if (n =? 253)%N || (n =? 255)%N then "y"
  else EmptyString.

(** The complement of the class of [_filename_ascii_strip_re]
    ([^A-Za-z0-9_.-]): the characters that are kept. *)
Definition filename_char (c : ascii) : bool :=
  in_range 65 90 c || in_range 97 122 c || in_range 48 57 c
  || Ascii.eqb c "_" || Ascii.eqb c "." || Ascii.eqb c "-".

(** [secure_filename(filename)].  The final branch of the library
    function, which guards Windows device names, is taken only when
    [os.name == "nt"]. *)
Definition secure_filename (filename : string) : string :=
  let filename := str_flat_map nfkd_ascii filename in
  let filename := str_map (λ c, if Ascii.eqb c "/" then " "%char else c) filename in
  str_strip "._" (str_filter filename_char (str_join "_" (str_split filename))).

End Werkzeug.


(** ** The file system under the working directory *)

Module Os.
Import Py.

(** A path is resolved to its components; an entry of the disk is a
    regular file with its bytes or a directory.  The empty component list
    is the working directory.  Paths here are relative and have no "." or
    ".." component, which is all the application ever forms. *)
Inductive node := File (data : string) | Dir.

#[global] Instance node_eq_dec : EqDecision node.
Proof. solve_decision. Defined.

Abbreviation disk := (gmap (list string) node).

Definition components (p : string) : list string :=
  split_runs (Ascii.eqb "/") p EmptyString.

Definition node_at (d : disk) (k : list string) : option node :=
  match k with [] => Some Dir | _ => d !! k end.

Definition is_file (d : disk) (k : list string) : bool :=
  match node_at d k with Some (File _) => true | _ => false end.

Definition is_dir (d : disk) (k : list string) : bool :=
  match node_at d k with Some Dir => true | _ => false end.

Definition parent (k : list string) : list string := removelast k.

(** The names in directory [k]. *)
Definition entries (d : disk) (k : list string) : list string :=
  omap (λ kn : list string * node,
          if bool_decide (kn.1 ≠ [] ∧ parent kn.1 = k) then last kn.1 else None)
       (map_to_list d).

(** [os.path.exists(p)]. *)
Definition path_exists (d : disk) (p : string) : bool :=
  truthy p && bool_decide (is_Some (node_at d (components p))).

(** [os.makedirs(p)]: every missing directory along [p], leaf included;
    fails when the leaf exists or a component is a regular file. *)
Fixpoint mkdirs (d : disk) (made rest : list string) : option disk :=
  match rest with
  | [] => Some d
  | c :: r =>
      let k := (made ++ [c])%list in
      match d !! k with
      | Some (File _) => None
      | Some Dir => mkdirs d k r
      | None => mkdirs (<[k := Dir]> d) k r
      end
  end.

Definition makedirs (d : disk) (p : string) : option disk :=
  if negb (truthy p) || path_exists d p then None
  else mkdirs d [] (components p).

(** [open(p, "wb")] followed by writing [data]: the parent must be a
    directory and [p] must not be one. *)
Definition write_file (d : disk) (p : string) (data : string) : option disk :=
  let k := components p in
  match k with
  | [] => None
  | _ =>
      if is_dir d (parent k) && negb (is_dir d k)
      then Some (<[k := File data]> d)
      else None
  end.

(** [os.remove(p)]: [p] must be a regular file. *)
Definition remove (d : disk) (p : string) : option disk :=
  let k := components p in
  if truthy p && is_file d k then Some (delete k d) else None.

(** [os.listdir(p)]: [p] must be a directory. *)
Definition listdir (d : disk) (p : string) : option (list string) :=
  let k := components p in
  if truthy p && is_dir d k then Some (entries d k) else None.

(** [os.rmdir(p)]: [p] must be an empty directory other than the
    working directory. *)
Definition rmdir (d : disk) (p : string) : option disk :=
  let k := components p in
  match k with
  | [] => None
  | _ =>
      if is_dir d k && bool_decide (entries d k = [])
      then Some (delete k d)
      else None
  end.

End Os.


(** ** The application *)

(** [app.config['UPLOAD_FOLDER']]. *)
Definition UPLOAD_FOLDER : string := "uploads/".

(** *** The [professor] table *)

Module Professor.

Record t := mk {
  id : Z;
  nome : string;
  cpf : string;
  escola_id : Z;
  caminho_foto : string
}.

#[global] Instance eq_dec : EqDecision t.
Proof. solve_decision. Defined.

(** [Professor.query.filter_by(cpf=cpf).first()]. *)
Definition filter_by_cpf_first (tbl : list t) (c : string) : option t :=
  List.find (λ r, String.eqb (cpf r) c) tbl.

(** [Professor.query.get(professor_id)]. *)
Definition get (tbl : list t) (i : Z) : option t :=
  List.find (λ r, id r =? i) tbl.

(** The key given to a new row: one more than the largest key in the
    table (the row id of SQLite, the backend chosen when DATABASE_URL is
    not set). *)
Definition next_id (tbl : list t) : Z :=
  1 + fold_right Z.max 0 (map id tbl).

(** [db.session.delete(professor)]: the row with that primary key. *)
Definition delete (tbl : list t) (r : t) : list t :=
  List.filter (λ r', negb (id r' =? id r)) tbl.

End Professor.

(** *** The school directory *)

(** A value of [ESCOLA_MAPA]: the dict with keys "nome" and "municipio". *)
Record Escola := { nome : string; municipio : string }.

Definition ESCOLA_MAPA : list (Z * Escola) :=
  [ (101, {| nome := "EE Governador Modelo I"; municipio := "Boa Vista" |});
    (102, {| nome := Py.lit "CE Professora Antônia Santos"; municipio := "Boa Vista" |});
    (103, {| nome := Py.lit "Colégio Municipal Doutor Silva";
             municipio := Py.lit "Caracaraí" |});
    (104, {| nome := "Escola Estadual Simplificada A";
             municipio := Py.lit "Rorainópolis" |});
    (105, {| nome := "Escola Municipal Teste B"; municipio := Py.lit "Cantá" |});
    (106, {| nome := Py.lit "Centro de Educação Integral C"; municipio := "Boa Vista" |});
    (107, {| nome := "Escola de Fronteira XYZ"; municipio := "Pacaraima" |}) ].

(** [ESCOLA_MAPA[k]], [None] when [k not in ESCOLA_MAPA]. *)
Fixpoint dict_get {V} (m : list (Z * V)) (k : Z) : option V :=
  match m with
  | [] => None
  | (k', v) :: r => if k' =? k then Some v else dict_get r k
  end.

(** What [get_info_escola] is called with: the form field (a [str]) in
    [processar_cadastro], the integer column in [listar_professores]. *)
Inductive id_escola := IdStr (s : string) | IdInt (n : Z).

(** The builtin [int] on such a value; [None] is [ValueError]. *)
Definition int (v : id_escola) : option Z :=
  match v with
  | IdStr s => Py.int_of_str s
  | IdInt n => Some n
  end.

Definition get_info_escola (escola_id : id_escola) : Escola :=
  match int escola_id with
  | Some escola_id =>
      match dict_get ESCOLA_MAPA escola_id with
      | Some info => info
      | None =>
          match Py.str_of_int escola_id with
          | Some s =>
              {| nome := "ID " +:+ s +:+ Py.lit " (Não encontrada)";
                 municipio := "Desconhecido" |}
          | None => {| nome := Py.lit "ID Inválido"; municipio := "Desconhecido" |}
          end
      end
  | None => {| nome := Py.lit "ID Inválido"; municipio := "Desconhecido" |}
  end.

Definition get_nome_escola (escola_id : id_escola) : string :=
  nome (get_info_escola escola_id).

(** *** Requests, responses and the state *)

(** A [werkzeug] [FileStorage]: the client's file name and the bytes. *)
Record FileStorage := { filename : string; stream : string }.

(** [request.form] and [request.files]. *)
Record Request := {
  form : list (string * string);
  files : list (string * FileStorage)
}.

(** [MultiDict.get(key)]: the first value of [key], or [None]. *)
Fixpoint multidict_get {V} (m : list (string * V)) (key : string) : option V :=
  match m with
  | [] => None
  | (k, v) :: r => if String.eqb k key then Some v else multidict_get r key
  end.

Inductive json := JStr (s : string) | JNull.

Definition json_of (o : option string) : json :=
  match o with Some s => JStr s | None => JNull end.

(** What a view returns: [jsonify(...), status], a text with a status, a
    redirect to an endpoint, the 404 of [get_or_404], or an exception
    that leaves the view. *)
Inductive Response :=
  | Jsonify (body : list (string * json)) (status : Z)
  | Text (body : string) (status : Z)
  | Redirect (endpoint : string)
  | Abort (status : Z)
  | Unhandled.

Definition status_of (r : Response) : Z :=
  match r with
  | Jsonify _ st | Text _ st | Abort st => st
  | Redirect _ => 302
  | Unhandled => 500
  end.

(** The state the routes act on. *)
Record World := {
  disk : gmap (list string) Os.node;
  professores : list Professor.t
}.

(** What the environment decides for one request: whether the operating
    system refuses the photo write (rights, space, name limits), how far a
    refused write got, and whether the database refuses the commit.
    [upload_written] is read only when [upload_fails] holds: it is [None]
    when [open(dst, "wb")] itself was refused, so that nothing was touched,
    and [Some n] when the destination was opened, which creates it or
    empties it, and the error came after the first [n] bytes of the stream
    (all of them when there are fewer) had been copied.  Creating a folder
    and removing a file succeed whenever the disk allows them. *)
Record Faults := {
  upload_fails : bool;
  upload_written : option nat;
  commit_fails : bool
}.

Definition no_faults : Faults :=
  {| upload_fails := false; upload_written := None; commit_fails := false |}.

(** Truth value of [request.form.get(...)] and of a [FileStorage]
    ([bool(foto)] is [bool(foto.filename)]). *)
Definition truthy_str (o : option string) : bool :=
  match o with Some s => Py.truthy s | None => false end.

Definition truthy_file (o : option FileStorage) : bool :=
  match o with Some f => Py.truthy (filename f) | None => false end.

(** [foto.save(dst)]: [open(dst, "wb")], then the copy of the stream into
    the open file.  The result is the disk and whether the call returned;
    an exception raised after the file was opened leaves the file with the
    bytes copied so far. *)
Definition save (f : Faults) (foto : FileStorage) (d : gmap (list string) Os.node)
    (dst : string) : gmap (list string) Os.node * bool :=
  if upload_fails f then
    match upload_written f with
    | None => (d, false)
    | Some n =>
        match Os.write_file d dst (Py.str_take n (stream foto)) with
        | Some d' => (d', false)
        | None => (d, false)
        end
    end
  else
    match Os.write_file d dst (stream foto) with
    | Some d' => (d', true)
    | None => (d, false)
    end.

Definition msg_campos : string := Py.lit "Erro: Todos os campos são obrigatórios.".
Definition msg_cpf : string :=
  Py.lit "Erro: O CPF deve conter exatamente 11 dígitos numéricos.".
Definition msg_upload : string := "Erro no upload do arquivo. Tente novamente.".
Definition msg_duplicado : string :=
  Py.lit "Erro: Professor com este CPF já está cadastrado. Cadastro duplicado não permitido.".
Definition msg_sucesso : string := "Cadastro realizado com sucesso!".
Definition msg_interno : string := "Erro interno ao finalizar o cadastro. Tente novamente.".

(** *** POST /cadastro *)

(** Lines 125-143: the extension, the folder of the municipality and the
    destination of the photo. *)
Definition extensao_de (foto : FileStorage) : string :=
  Py.str_lower (OsPath.splitext (filename foto)).2.

Definition pasta_municipio_de (municipio : string) : string :=
  let nome_municipio := Werkzeug.secure_filename municipio in
  OsPath.join UPLOAD_FOLDER nome_municipio.

Definition caminho_salvamento_de (municipio cpf extensao : string) : string :=
  let novo_nome_arquivo := cpf +:+ extensao in
  OsPath.join (pasta_municipio_de municipio) novo_nome_arquivo.

(** The first [try] block (lines 124-150): create the folder if it is
    missing and save the photo.  Returns the disk and the destination, or
    the disk as the exception left it and [None] when one was raised. *)
Definition salvar_arquivo (f : Faults) (escola_id cpf : string) (foto : FileStorage)
    (d : gmap (list string) Os.node) : gmap (list string) Os.node * option string :=
  let extensao := extensao_de foto in
  let info_escola := get_info_escola (IdStr escola_id) in
  let pasta_municipio := pasta_municipio_de (municipio info_escola) in
  let made :=
    if negb (Os.path_exists d pasta_municipio)
    then Os.makedirs d pasta_municipio
    else Some d in
  match made with
  | None => (d, None)
  | Some d1 =>
      let caminho_salvamento :=
        caminho_salvamento_de (municipio info_escola) cpf extensao in
      match save f foto d1 caminho_salvamento with
      | (d2, false) => (d2, None)
      | (d2, true) => (d2, Some caminho_salvamento)
      end
  end.

(** The second [except] block (lines 177-183): roll back, remove the saved
    photo if it is there, answer 500.  The table is the one before the
    request. *)
Definition erro_bd (d : gmap (list string) Os.node) (tbl : list Professor.t)
    (caminho_salvamento : string) : Response * World :=
  let removed :=
    if Py.truthy caminho_salvamento && Os.path_exists d caminho_salvamento
    then Os.remove d caminho_salvamento
    else Some d in
  match removed with
  | Some d' =>
      (Jsonify [("message", JStr msg_interno)] 500, {| disk := d'; professores := tbl |})
  | None => (Unhandled, {| disk := d; professores := tbl |})
  end.

(** The second [try] block (lines 153-175): the duplicate check, then the
    insert and the commit. *)
Definition armazenar (f : Faults) (nome cpf escola_id : string)
    (nome_escola : option string) (caminho_salvamento : string)
    (d : gmap (list string) Os.node) (tbl : list Professor.t) : Response * World :=
  match Professor.filter_by_cpf_first tbl cpf with
  | Some _ =>
      let removed :=
        if Os.path_exists d caminho_salvamento
        then Os.remove d caminho_salvamento
        else Some d in
      match removed with
      | Some d' =>
          (Jsonify [("message", JStr msg_duplicado)] 409,
           {| disk := d'; professores := tbl |})
      | None => erro_bd d tbl caminho_salvamento
      end
  | None =>
      match Py.int_of_str escola_id with
      | None => erro_bd d tbl caminho_salvamento
      | Some escola_id_int =>
          if commit_fails f then erro_bd d tbl caminho_salvamento
          else
            let novo_professor :=
              Professor.mk (Professor.next_id tbl) nome cpf escola_id_int
                           caminho_salvamento in
            (Jsonify [("message", JStr msg_sucesso);
                      ("cpf", JStr cpf);
                      ("nome", JStr nome);
                      ("nome_escola", json_of nome_escola)] 200,
             {| disk := d; professores := (tbl ++ [novo_professor])%list |})
      end
  end.

(** [all([nome, cpf, escola_id, foto])]. *)
Definition campos_presentes (nome cpf escola_id : option string)
    (foto : option FileStorage) : bool :=
  truthy_str nome && truthy_str cpf && truthy_str escola_id && truthy_file foto.

(** [len(cpf) == 11 and cpf.isdigit()]. *)
Definition cpf_valido (cpf : string) : bool :=
  (String.length cpf =? 11)%nat && Py.str_isdigit cpf.

Definition processar_cadastro (f : Faults) (request : Request) (w : World)
    : Response * World :=
  let nome := multidict_get (form request) "nome" in
  let cpf := multidict_get (form request) "cpf" in
  let escola_id := multidict_get (form request) "escola_id" in
  let nome_escola := multidict_get (form request) "nome_escola" in
  let foto := multidict_get (files request) "foto" in
  if negb (campos_presentes nome cpf escola_id foto)
  then (Jsonify [("message", JStr msg_campos)] 400, w)
  else
    match nome, cpf, escola_id, foto with
    | Some nome, Some cpf, Some escola_id, Some foto =>
        if negb (cpf_valido cpf)
        then (Jsonify [("message", JStr msg_cpf)] 400, w)
        else
          match salvar_arquivo f escola_id cpf foto (disk w) with
          | (d, None) =>
              (Jsonify [("message", JStr msg_upload)] 500,
               {| disk := d; professores := professores w |})
          | (d, Some caminho_salvamento) =>
              armazenar f nome cpf escola_id nome_escola caminho_salvamento
                        d (professores w)
          end
    | _, _, _, _ => (Jsonify [("message", JStr msg_campos)] 400, w)
    end.

(** *** GET /excluir/<int:professor_id> *)

(** Lines 218-228: remove the photo and, if that leaves its folder
    empty, the folder.  Any exception ends the block and is only printed. *)
Definition apagar_foto (d : gmap (list string) Os.node) (caminho_foto : string)
    : gmap (list string) Os.node :=
  if Os.path_exists d caminho_foto then
    match Os.remove d caminho_foto with
    | None => d
    | Some d1 =>
        let diretorio_pai := OsPath.dirname caminho_foto in
        match Os.listdir d1 diretorio_pai with
        | None => d1
        | Some [] =>
            match Os.rmdir d1 diretorio_pai with
            | None => d1
            | Some d2 => d2
            end
        | Some _ => d1
        end
    end
  else d.

Definition excluir_professor (f : Faults) (professor_id : Z) (w : World)
    : Response * World :=
  match Professor.get (professores w) professor_id with
  | None => (Abort 404, w)
  | Some professor =>
      let caminho_foto := Professor.caminho_foto professor in
      let d := apagar_foto (disk w) caminho_foto in
      if commit_fails f
      then (Text "Erro interno ao deletar o cadastro." 500,
            {| disk := d; professores := professores w |})
      else (Redirect "listar_professores",
            {| disk := d; professores := Professor.delete (professores w) professor |})
  end.


(** ** Runs of the two routes, and the properties of a state *)

Inductive Op :=
  | Register (f : Faults) (request : Request)
  | Delete (f : Faults) (professor_id : Z).

Definition run_op (w : World) (op : Op) : World :=
  match op with
  | Register f request => (processar_cadastro f request w).2
  | Delete f professor_id => (excluir_professor f professor_id w).2
  end.

Definition run (ops : list Op) (w : World) : World := fold_left run_op ops w.

(** The state before the first request: nothing on disk, no row. *)
Definition mundo_vazio : World := {| disk := ∅; professores := [] |}.

(** Every row's photo is a regular file on disk. *)
Definition fotos_existem (w : World) : Prop :=
  ∀ r, r ∈ professores w →
       Os.is_file (disk w) (Os.components (Professor.caminho_foto r)) = true.

Definition sem_barra (s : string) : bool :=
  Py.str_all (λ c, negb (Ascii.eqb c "/")) s.

(** A name usable as one path component. *)
Definition segmento (s : string) : Prop := s ≠ EmptyString ∧ sem_barra s = true.

(** The upload tree has the shape uploads/<folder>/<file>. *)
Definition arvore (d : gmap (list string) Os.node) : Prop :=
  ∀ k n, d !! k = Some n →
    match k with
    | [u] => u = "uploads" ∧ n = Os.Dir
    | [u; m] => u = "uploads" ∧ n = Os.Dir ∧ d !! [u] = Some Os.Dir
    | [u; m; a] => u = "uploads" ∧ (∃ x, n = Os.File x) ∧ d !! [u; m] = Some Os.Dir
    | _ => False
    end.

(** A row stores the path uploads/<folder>/<cpf><extension>. *)
Definition linha_ok (r : Professor.t) : Prop :=
  ∃ m ext,
    Professor.caminho_foto r = "uploads/" +:+ m +:+ "/" +:+ Professor.cpf r +:+ ext
    ∧ segmento m ∧ sem_barra ext = true
    ∧ sem_barra (Professor.cpf r) = true
    ∧ String.length (Professor.cpf r) = 11%nat.

(** What every request preserves: the shape of the tree, the shape of the
    stored paths, and one row per cpf. *)
Record estrutura (w : World) : Prop := {
  est_arvore : arvore (disk w);
  est_linhas : ∀ r, r ∈ professores w → linha_ok r;
  est_cpfs : NoDup (map Professor.cpf (professores w))
}.

(** The folder name of the school of a request, the disk once that folder
    exists, and the place of the photo in it. *)
Definition nome_municipio_de (escola_id : string) : string :=
  Werkzeug.secure_filename (municipio (get_info_escola (IdStr escola_id))).

Definition com_pasta (d : gmap (list string) Os.node) (m : string)
    : gmap (list string) Os.node :=
  <[["uploads"; m] := Os.Dir]> (<[["uploads"] := Os.Dir]> d).

Definition chave_foto (escola_id cpf : string) (foto : FileStorage) : list string :=
  ["uploads"; nome_municipio_de escola_id; cpf +:+ extensao_de foto].

Definition destino (escola_id cpf : string) (foto : FileStorage) : string :=
  caminho_salvamento_de (municipio (get_info_escola (IdStr escola_id)))
                        cpf (extensao_de foto).

(** The request would save its photo over the photo of a stored row. *)
Definition sobrescreve (request : Request) (w : World) : bool :=
  match multidict_get (form request) "cpf",
        multidict_get (form request) "escola_id",
        multidict_get (files request) "foto" with
  | Some cpf, Some escola_id, Some foto =>
      existsb (λ r, bool_decide (Os.components (Professor.caminho_foto r)
                                 = Os.components (destino escola_id cpf foto)))
              (professores w)
  | _, _, _ => false
  end.

(** A request that is neither a deletion whose commit fails nor a
    registration over a stored photo. *)
Definition op_regular (w : World) (op : Op) : bool :=
  match op with
  | Register _ request => negb (sobrescreve request w)
  | Delete f _ => negb (commit_fails f)
  end.

Fixpoint run_regular (ops : list Op) (w : World) : bool :=
  match ops with
  | [] => true
  | op :: r => op_regular w op && run_regular r (run_op w op)
  end.

(** The four required fields are there and the cpf passes the check. *)
Definition pedido_valido (request : Request) (nome cpf escola_id : string)
    (foto : FileStorage) : Prop :=
  multidict_get (form request) "nome" = Some nome
  ∧ multidict_get (form request) "cpf" = Some cpf
  ∧ multidict_get (form request) "escola_id" = Some escola_id
  ∧ multidict_get (files request) "foto" = Some foto
  ∧ Py.truthy nome = true ∧ Py.truthy escola_id = true
  ∧ Py.truthy (filename foto) = true
  ∧ cpf_valido cpf = true.

(** The municipalities the directory can answer with. *)
Definition municipios : list string :=
  ["Boa Vista"; Py.lit "Caracaraí"; Py.lit "Rorainópolis"; Py.lit "Cantá";
   "Pacaraima"; "Desconhecido"].

(** The requests used in the examples. *)
Definition pedido (nome cpf escola_id : string) (nome_escola : option string)
    (arquivo : string) : Request :=
  {| form := [("nome", nome); ("cpf", cpf); ("escola_id", escola_id)]
             ++ match nome_escola with Some s => [("nome_escola", s)] | None => [] end;
     files := [("foto", {| filename := arquivo; stream := "JFIF" |})] |}.

Definition pedido_ana (arquivo : string) : Request :=
  pedido "Ana Silva" "12345678901" "101" None arquivo.

(** The state after Ana Silva registered with school 101. *)
Definition mundo_ana : World :=
  (processar_cadastro no_faults (pedido_ana "foto.jpg") mundo_vazio).2.

(** The state after Rui Costa registered with school 104. *)
Definition mundo_rui : World :=
  run [Register no_faults (pedido "Rui Costa" "10987654321" "104" None "r.jpg")]
      mundo_vazio.

(** The state after Ana Silva and then Bia Lima registered, both with
    schools of Boa Vista. *)
Definition mundo_ana_bia : World :=
  run [Register no_faults (pedido_ana "foto.jpg");
       Register no_faults (pedido "Bia Lima" "11122233344" "106" None "bia.png")]
      mundo_vazio.

(** The request with its school-name field replaced by [x], or removed
    when [x] is [None]; and a field of a JSON response. *)
Definition sem_campo (key : string) (m : list (string * string))
    : list (string * string) :=
  List.filter (λ kv, negb (String.eqb kv.1 key)) m.

Definition com_nome_escola (x : option string) (request : Request) : Request :=
  {| form := match x with
             | Some s => ("nome_escola", s) :: sem_campo "nome_escola" (form request)
             | None => sem_campo "nome_escola" (form request)
             end;
     files := files request |}.

Definition campo (r : Response) (key : string) : option json :=
  match r with
  | Jsonify body _ => multidict_get body key
  | _ => None
  end.

Definition commit_falha : Faults :=
  {| upload_fails := false; upload_written := None; commit_fails := true |}.


(** ** The other routes and the configuration *)

Module PyStr.
Import Py.

(** [s.startswith(prefix)]. *)
Fixpoint str_prefix (prefix s : string) : bool :=
  match prefix, s with
  | EmptyString, _ => true
  | String a p, String b r => Ascii.eqb a b && str_prefix p r
  | String _ _, EmptyString => false
  end.

(** [needle in hay]. *)
Fixpoint str_contains (needle hay : string) : bool :=
  str_prefix needle hay
  || match hay with
     | EmptyString => false
     | String _ r => str_contains needle r
     end.

(** [s.replace(old, new, 1)]: the leftmost occurrence of [old]. *)
Fixpoint str_replace_first (old new s : string) : string :=
  if str_prefix old s then new +:+ str_drop (String.length old) s
  else match s with
       | EmptyString => EmptyString
       | String c r => String c (str_replace_first old new r)
       end.

End PyStr.

(** *** The database URI (lines 15-23) *)

(** The value of [app.config['SQLALCHEMY_DATABASE_URI']] for a value of
    [os.environ.get('DATABASE_URL')]. *)
Definition SQLALCHEMY_DATABASE_URI (DATABASE_URL : option string) : string :=
  if truthy_str DATABASE_URL then
    let uri := default EmptyString DATABASE_URL in
    if PyStr.str_prefix "postgres://" uri
    then PyStr.str_replace_first "postgres://" "postgresql+psycopg2://" uri
    else uri
  else "sqlite:///professores.db".

(** *** GET /api/escolas *)

(** An element of [ESCOLA_DATA] and of the results: the dict with keys
    "id", "text" and "municipio". *)
Module EscolaData.
Record t := mk { id : Z; text : string; municipio : string }.
End EscolaData.

Definition ESCOLA_DATA : list EscolaData.t :=
  map (λ item : Z * Escola,
         EscolaData.mk item.1 (nome item.2) (municipio item.2))
      ESCOLA_MAPA.

(** The loop of [buscar_escolas] over the schools that are left, with
    the results so far. *)
Fixpoint buscar_loop (busca : string) (escolas resultados : list EscolaData.t)
    : list EscolaData.t :=
  match escolas with
  | [] => resultados
  | escola :: resto =>
      if PyStr.str_contains busca (Py.str_lower (EscolaData.text escola))
      then buscar_loop busca resto
             (resultados ++ [EscolaData.mk (EscolaData.id escola)
                                           (EscolaData.text escola)
                                           (EscolaData.municipio escola)])%list
      else buscar_loop busca resto resultados
  end.

(** [buscar_escolas] for the query string [args]; the value is the list
    given to [jsonify] as [results]. *)
Definition buscar_escolas (args : list (string * string)) : list EscolaData.t :=
  let busca := Py.str_lower (default EmptyString (multidict_get args "busca")) in
  buscar_loop busca ESCOLA_DATA [].

(** *** GET /lista *)

(** [url_for(endpoint, filename=...)], kept as the call. *)
Inductive Url := UrlFor (endpoint : string) (filename : string).

(** An element of [dados_lista]. *)
Module Listagem.
Record t := mk {
  id : Z;
  nome : string;
  cpf : string;
  escola_nome : string;
  url_foto : Url
}.
End Listagem.

(** [listar_professores]; the value is the list given to the template as
    [professores], in the order of the table. *)
Definition listar_professores (w : World) : list Listagem.t :=
  map (λ prof,
         let caminho_relativo_foto :=
           PyStr.str_replace_first UPLOAD_FOLDER EmptyString
                                   (Professor.caminho_foto prof) in
         Listagem.mk (Professor.id prof) (Professor.nome prof) (Professor.cpf prof)
                     (get_nome_escola (IdInt (Professor.escola_id prof)))
                     (UrlFor "uploaded_file" caminho_relativo_foto))
      (professores w).

(** *** Properties of a request and of a state used below *)

(** The check of lines 115-119 as one test: the four fields are there and
    the cpf has 11 digits. *)
Definition pedido_aceito (request : Request) : bool :=
  campos_presentes (multidict_get (form request) "nome")
                   (multidict_get (form request) "cpf")
                   (multidict_get (form request) "escola_id")
                   (multidict_get (files request) "foto")
  && match multidict_get (form request) "cpf" with
     | Some cpf => cpf_valido cpf
     | None => false
     end.

(** The folder names of the municipalities. *)
Definition pastas : list string := map Werkzeug.secure_filename municipios.

(** Keys are distinct and positive. *)
Definition ids_ok (w : World) : Prop :=
  NoDup (map Professor.id (professores w))
  ∧ ∀ r, r ∈ professores w → 1 ≤ Professor.id r.

(** Every row has a cpf that passes the check and the path that a
    registration computes for some school id and photo. *)
Definition linhas_validas (w : World) : Prop :=
  ∀ r, r ∈ professores w →
       cpf_valido (Professor.cpf r) = true
       ∧ ∃ escola_id foto,
           Professor.caminho_foto r = destino escola_id (Professor.cpf r) foto.

(** Every folder under the upload folder is the folder of a municipality. *)
Definition pastas_conhecidas (d : gmap (list string) Os.node) : Prop :=
  ∀ m n, d !! ["uploads"; m] = Some n → m ∈ pastas.

(** What a refused photo write leaves of disk [d], where the folder of
    the destination [k] exists. *)
Definition resto_upload (f : Faults) (k : list string) (foto : FileStorage)
    (d : gmap (list string) Os.node) : gmap (list string) Os.node :=
  match upload_written f with
  | None => d
  | Some n => <[k := Os.File (Py.str_take n (stream foto))]> d
  end.

(** The place where a request left a file behind, if it did: the
    destination of a registration that passed the checks and whose photo
    write was refused after the destination had been opened. *)
Definition resto_de (op : Op) : option (list string) :=
  match op with
  | Register f request =>
      if pedido_aceito request && upload_fails f
         && bool_decide (is_Some (upload_written f))
      then
        match multidict_get (form request) "cpf",
              multidict_get (form request) "escola_id",
              multidict_get (files request) "foto" with
        | Some cpf, Some escola_id, Some foto => Some (chave_foto escola_id cpf foto)
        | _, _, _ => None
        end
      else None
  | Delete _ _ => None
  end.

(** Every regular file on disk is the stored photo of a row or was left
    behind by a request of [ops]. *)
Definition sem_orfaos (ops : list Op) (w : World) : Prop :=
  ∀ k x, disk w !! k = Some (Os.File x) →
         (∃ r, r ∈ professores w ∧ Os.components (Professor.caminho_foto r) = k)
         ∨ (∃ op, op ∈ ops ∧ resto_de op = Some k).

(** The write is refused after two bytes; [open] is refused. *)
Definition upload_falha : Faults :=
  {| upload_fails := true; upload_written := Some 2%nat; commit_fails := false |}.

Definition open_falha : Faults :=
  {| upload_fails := true; upload_written := None; commit_fails := false |}.


(** * Properties *)

(** ** Strings *)

Module PyFacts.
Import Py.

Lemma append_nil_l (s : string) : EmptyString +:+ s = s.
Proof. reflexivity. Qed.

Lemma append_cons (c : ascii) (a b : string) : String c a +:+ b = String c (a +:+ b).
Proof. reflexivity. Qed.

Ltac str_simpl := rewrite ?append_nil_l, ?append_cons; simpl.

Lemma append_nil_r (s : string) : s +:+ EmptyString = s.
Proof. induction s as [|c s IH]; str_simpl; [reflexivity | by rewrite IH]. Qed.

Lemma append_assoc (a b c : string) : (a +:+ b) +:+ c = a +:+ (b +:+ c).
Proof. induction a as [|x a IH]; str_simpl; [reflexivity | by rewrite IH]. Qed.

Lemma length_append (a b : string) :
  String.length (a +:+ b) = (String.length a + String.length b)%nat.
Proof. induction a as [|x a IH]; str_simpl; [reflexivity | by rewrite IH]. Qed.

Lemma truthy_true (s : string) : truthy s = true ↔ s ≠ EmptyString.
Proof. destruct s; simpl; split; intros; congruence. Qed.

Lemma truthy_append_r (a b : string) : truthy b = true → truthy (a +:+ b) = true.
Proof. destruct a; str_simpl; auto. Qed.

Lemma str_all_impl (f g : ascii → bool) (s : string) :
  (∀ c, f c = true → g c = true) → str_all f s = true → str_all g s = true.
Proof.
  intros Hfg. induction s as [|c s IH]; simpl; [done|].
  rewrite !andb_true_iff. intros [Hc Hs]. split; auto.
Qed.

Lemma str_all_append (f : ascii → bool) (a b : string) :
  str_all f (a +:+ b) = str_all f a && str_all f b.
Proof. induction a as [|c a IH]; str_simpl; [done|]. by rewrite IH, andb_assoc. Qed.

Lemma str_all_filter (f : ascii → bool) (s : string) :
  str_all f (str_filter f s) = true.
Proof.
  induction s as [|c s IH]; simpl; [done|].
  destruct (f c) eqn:Hc; simpl; [by rewrite Hc|done].
Qed.

Lemma str_all_map (f : ascii → bool) (g : ascii → ascii) (s : string) :
  str_all f (str_map g s) = str_all (λ c, f (g c)) s.
Proof. induction s as [|c s IH]; simpl; [done|]. by rewrite IH. Qed.

Lemma str_all_lstrip (f : ascii → bool) (chars s : string) :
  str_all f s = true → str_all f (str_lstrip chars s) = true.
Proof.
  induction s as [|c s IH]; simpl; [done|].
  rewrite andb_true_iff. intros [Hc Hs].
  destruct (chr_in chars c); [auto|]. simpl. by rewrite Hc, Hs.
Qed.

Lemma str_all_rstrip (f : ascii → bool) (chars s : string) :
  str_all f s = true → str_all f (str_rstrip chars s) = true.
Proof.
  induction s as [|c s IH]; simpl; [done|].
  rewrite andb_true_iff. intros [Hc Hs]. specialize (IH Hs).
  destruct (str_rstrip chars s) as [|c' r'].
  - destruct (chr_in chars c); simpl; [done|]. by rewrite Hc.
  - simpl in *. by rewrite Hc, IH.
Qed.

Lemma str_all_drop (f : ascii → bool) (n : nat) (s : string) :
  str_all f s = true → str_all f (str_drop n s) = true.
Proof.
  revert s. induction n as [|n IH]; intros [|c s]; simpl; try done.
  rewrite andb_true_iff. intros [_ Hs]. auto.
Qed.

(** A run without separators is one piece. *)
Lemma split_runs_one (sep : ascii → bool) (s cur : string) :
  str_all (λ c, negb (sep c)) s = true →
  split_runs sep s cur = if truthy (cur +:+ s) then [cur +:+ s] else [].
Proof.
  revert cur. induction s as [|c s IH]; intros cur.
  - by rewrite append_nil_r.
  - simpl. rewrite andb_true_iff, negb_true_iff. intros [Hc Hs]. rewrite Hc.
    rewrite IH by done. by rewrite append_assoc.
Qed.

(** Splitting at a separator. *)
Lemma split_runs_sep (sep : ascii → bool) (a b cur : string) (c : ascii) :
  sep c = true →
  split_runs sep (a +:+ String c b) cur
  = (split_runs sep a cur ++ split_runs sep b EmptyString)%list.
Proof.
  intros Hc. revert cur. induction a as [|x a IH]; intros cur; str_simpl.
  - by rewrite Hc.
  - destruct (sep x); [|apply IH]. by rewrite IH, app_assoc.
Qed.

(** [rfind] returns the default or an index at or after the start. *)
Lemma rfind_from_range (c : ascii) (s : string) (i found : Z) :
  rfind_from c s i found = found ∨ i ≤ rfind_from c s i found.
Proof.
  revert i found. induction s as [|a s IH]; intros i found; simpl; [by left|].
  destruct (IH (i + 1) (if Ascii.eqb a c then i else found)) as [H|H].
  - rewrite H. destruct (Ascii.eqb a c); [right; lia | by left].
  - right. lia.
Qed.

(** Past the index found there is no further occurrence. *)
Lemma rfind_from_drop (c : ascii) (s : string) (i found : Z) (n : nat) :
  rfind_from c s i found < i + Z.of_nat n →
  str_all (λ a, negb (Ascii.eqb a c)) (str_drop n s) = true.
Proof.
  revert i found n. induction s as [|a s IH]; intros i found n Hlt.
  - by destruct n.
  - destruct n as [|n]; simpl in *.
    + destruct (rfind_from_range c s (i + 1) (if Ascii.eqb a c then i else found))
        as [H|H]; [|lia].
      destruct (Ascii.eqb a c) eqn:Hac; [lia|]. simpl.
      apply (IH (i + 1) found 0%nat). rewrite H in Hlt. rewrite H. lia.
    + apply (IH (i + 1) (if Ascii.eqb a c then i else found) n). lia.
Qed.

Lemma rfind_from_absent (c : ascii) (s : string) (i found : Z) :
  str_all (λ a, negb (Ascii.eqb a c)) s = true → rfind_from c s i found = found.
Proof.
  revert i found. induction s as [|a s IH]; intros i found; simpl; [done|].
  rewrite andb_true_iff, negb_true_iff. intros [Ha Hs]. rewrite Ha. auto.
Qed.

(** The last occurrence, when the tail has none. *)
Lemma rfind_from_last (c : ascii) (a b : string) (i found : Z) :
  str_all (λ x, negb (Ascii.eqb x c)) b = true →
  rfind_from c (a +:+ String c b) i found = i + Z.of_nat (String.length a).
Proof.
  intros Hb. revert i found. induction a as [|x a IH]; intros i found; str_simpl.
  - rewrite Ascii.eqb_refl. rewrite rfind_from_absent by done. lia.
  - rewrite IH. lia.
Qed.

Lemma str_take_append (a b : string) : str_take (String.length a) (a +:+ b) = a.
Proof. induction a as [|x a IH]; str_simpl; [by destruct b | by rewrite IH]. Qed.

Lemma str_take_drop (n : nat) (s : string) : str_take n s +:+ str_drop n s = s.
Proof.
  revert s. induction n as [|n IH]; intros [|c s]; simpl; str_simpl; try done.
  by rewrite IH.
Qed.

Lemma str_rstrip_keep (chars s : string) (c : ascii) :
  chr_in chars c = false →
  str_rstrip chars (s +:+ String c EmptyString) = s +:+ String c EmptyString.
Proof.
  intros Hc. induction s as [|x s IH]; str_simpl.
  - by rewrite Hc.
  - rewrite IH. by destruct s.
Qed.

Lemma str_rstrip_one (chars s : string) (c : ascii) :
  chr_in chars c = true →
  str_rstrip chars (s +:+ String c EmptyString) = str_rstrip chars s.
Proof.
  intros Hc. induction s as [|x s IH]; str_simpl.
  - by rewrite Hc.
  - by rewrite IH.
Qed.

(** A non-empty string ends in its last character. *)
Lemma str_snoc (s : string) :
  s ≠ EmptyString → ∃ r c, s = r +:+ String c EmptyString.
Proof.
  induction s as [|x s IH]; [done|]. intros _.
  destruct s as [|y s].
  - by exists EmptyString, x.
  - destruct IH as (r & c & Hr); [done|]. exists (String x r), c.
    by rewrite append_cons, Hr.
Qed.

Lemma str_endswith_append (c : ascii) (a b : string) :
  b ≠ EmptyString → str_endswith c (a +:+ b) = str_endswith c b.
Proof.
  intros Hb. induction a as [|x a IH]; str_simpl; [done|].
  rewrite IH. destruct (a +:+ b) eqn:E; [|done].
  destruct a; [done | discriminate].
Qed.

Lemma str_endswith_all (c : ascii) (s : string) :
  str_all (λ a, negb (Ascii.eqb a c)) s = true → str_endswith c s = false.
Proof.
  induction s as [|x s IH]; simpl; [done|].
  rewrite andb_true_iff, negb_true_iff. intros [Hx Hs].
  destruct s; [done | auto].
Qed.

(** Character tables, by enumeration of the 256 code points. *)
Lemma chr_lower_slash (c : ascii) : Ascii.eqb (chr_lower c) "/" = Ascii.eqb c "/".
Proof. destruct c as [[] [] [] [] [] [] [] []]; reflexivity. Qed.

Lemma chr_isdigit_not_slash (c : ascii) :
  chr_isdigit c = true → negb (Ascii.eqb c "/") = true.
Proof. destruct c as [[] [] [] [] [] [] [] []]; vm_compute; intros; congruence. Qed.

End PyFacts.

(** ** Paths *)

Module PathFacts.
Import Py PyFacts.

Lemma segmento_truthy (s : string) : segmento s → truthy s = true.
Proof. intros [H _]. by apply truthy_true. Qed.

Lemma components_segmento (s : string) : segmento s → Os.components s = [s].
Proof.
  intros [Hne Hs]. unfold Os.components.
  rewrite split_runs_one by exact Hs.
  rewrite append_nil_l. by apply truthy_true in Hne as ->.
Qed.

Lemma components_sep (a b : string) :
  Os.components (a +:+ String "/" b) = (Os.components a ++ Os.components b)%list.
Proof. unfold Os.components. by rewrite split_runs_sep. Qed.

Lemma components_pasta (m : string) :
  segmento m → Os.components ("uploads/" +:+ m) = ["uploads"; m].
Proof.
  intros Hm. change ("uploads/" +:+ m) with ("uploads" +:+ String "/" m).
  rewrite components_sep, (components_segmento m Hm). reflexivity.
Qed.

Lemma components_caminho (m a : string) :
  segmento m → segmento a →
  Os.components ("uploads/" +:+ m +:+ "/" +:+ a) = ["uploads"; m; a].
Proof.
  intros Hm Ha.
  change ("uploads/" +:+ m +:+ "/" +:+ a)
    with ("uploads" +:+ String "/" (m +:+ String "/" a)).
  rewrite !components_sep, (components_segmento m Hm), (components_segmento a Ha).
  reflexivity.
Qed.

Lemma sem_barra_startswith (s : string) :
  sem_barra s = true → str_startswith "/" s = false.
Proof.
  destruct s as [|c s]; [done|]. unfold sem_barra. simpl.
  rewrite andb_true_iff, negb_true_iff. by intros [-> _].
Qed.

Lemma sem_barra_endswith (s : string) :
  sem_barra s = true → str_endswith "/" s = false.
Proof. apply str_endswith_all. Qed.

Lemma join_pasta (m : string) :
  sem_barra m = true → OsPath.join UPLOAD_FOLDER m = "uploads/" +:+ m.
Proof.
  intros Hm. unfold OsPath.join. by rewrite (sem_barra_startswith m Hm).
Qed.

Lemma join_caminho (m a : string) :
  segmento m → sem_barra a = true →
  OsPath.join ("uploads/" +:+ m) a = "uploads/" +:+ m +:+ "/" +:+ a.
Proof.
  intros [Hne Hm] Ha. unfold OsPath.join.
  rewrite (sem_barra_startswith a Ha).
  rewrite str_endswith_append by done.
  rewrite (sem_barra_endswith m Hm).
  rewrite truthy_append_r by (by apply truthy_true).
  simpl. by rewrite append_assoc.
Qed.

Lemma dirname_caminho (m a : string) :
  segmento m → sem_barra a = true →
  OsPath.dirname ("uploads/" +:+ m +:+ "/" +:+ a) = "uploads/" +:+ m.
Proof.
  intros [Hne Hm] Ha. unfold OsPath.dirname, str_rfind.
  change ("uploads/" +:+ m +:+ "/" +:+ a)
    with (("uploads/" +:+ m) +:+ String "/" a).
  rewrite rfind_from_last by exact Ha.
  replace (Z.to_nat (0 + Z.of_nat (String.length ("uploads/" +:+ m)) + 1))
    with (String.length (("uploads/" +:+ m) +:+ "/")).
  2:{ rewrite length_append. simpl. lia. }
  change (("uploads/" +:+ m) +:+ String "/" a)
    with (("uploads/" +:+ m) +:+ ("/" +:+ a)).
  rewrite <- append_assoc, str_take_append.
  destruct (str_snoc m Hne) as (r & c & ->).
  assert (Hc : Ascii.eqb c "/" = false).
  { unfold sem_barra in Hm. rewrite str_all_append in Hm. simpl in Hm.
    apply andb_true_iff in Hm as [_ Hm]. rewrite andb_true_r in Hm.
    by apply negb_true_iff. }
  rewrite str_rstrip_one by reflexivity.
  change ("uploads/" +:+ r +:+ String c "")
    with (("uploads/" +:+ r) +:+ String c "").
  rewrite str_rstrip_keep.
  2:{ unfold chr_in. simpl. by rewrite Hc. }
  reflexivity.
Qed.

(** The extension never crosses a separator. *)
Lemma splitext_sem_barra (p : string) : sem_barra (OsPath.splitext p).2 = true.
Proof.
  unfold OsPath.splitext.
  destruct (str_rfind "/" p <? str_rfind "." p) eqn:Hlt; [|reflexivity].
  destruct (OsPath.has_non_dot _ _ _); [|reflexivity].
  apply Z.ltb_lt in Hlt. simpl. unfold sem_barra.
  apply (rfind_from_drop "/" p 0 (-1)). fold (str_rfind "/" p).
  pose proof (rfind_from_range "/" p 0 (-1)) as Hr. fold (str_rfind "/" p) in Hr.
  lia.
Qed.

Lemma extensao_sem_barra (foto : FileStorage) : sem_barra (extensao_de foto) = true.
Proof.
  unfold extensao_de, str_lower, sem_barra. rewrite str_all_map.
  pose proof (splitext_sem_barra (filename foto)) as H. unfold sem_barra in H.
  eapply str_all_impl; [|exact H]. intros c Hc. simpl in Hc. by rewrite chr_lower_slash.
Qed.

Lemma cpf_valido_length (cpf : string) :
  cpf_valido cpf = true → String.length cpf = 11%nat.
Proof.
  unfold cpf_valido. rewrite andb_true_iff. intros [H _]. by apply Nat.eqb_eq.
Qed.

Lemma cpf_valido_segmento (cpf : string) : cpf_valido cpf = true → segmento cpf.
Proof.
  unfold cpf_valido, str_isdigit. rewrite !andb_true_iff. intros [_ [Ht Hd]].
  split; [by apply truthy_true|].
  eapply str_all_impl; [|exact Hd]. apply chr_isdigit_not_slash.
Qed.

Lemma segmento_append (a b : string) :
  segmento a → sem_barra b = true → segmento (a +:+ b).
Proof.
  intros [Hne Ha] Hb. split.
  - destruct a; [done|]. by rewrite append_cons.
  - unfold sem_barra in *. by rewrite str_all_append, Ha, Hb.
Qed.

(** Two file names that begin with 11-character cpfs. *)
Lemma nome_arquivo_inj (c1 c2 e1 e2 : string) :
  String.length c1 = String.length c2 → c1 +:+ e1 = c2 +:+ e2 → c1 = c2.
Proof.
  revert c2. induction c1 as [|x c1 IH]; intros [|y c2] Hl; try done.
  rewrite !append_cons. intros [= -> H]. f_equal. eapply IH; [|exact H].
  simpl in Hl. lia.
Qed.

(** What [secure_filename] lets through. *)
Lemma secure_filename_chars (s : string) :
  str_all Werkzeug.filename_char (Werkzeug.secure_filename s) = true.
Proof.
  unfold Werkzeug.secure_filename, str_strip.
  apply str_all_rstrip, str_all_lstrip, str_all_filter.
Qed.

Lemma filename_char_not_slash (c : ascii) :
  Werkzeug.filename_char c = true → negb (Ascii.eqb c "/") = true.
Proof. destruct c as [[] [] [] [] [] [] [] []]; vm_compute; intros; congruence. Qed.

Lemma secure_filename_sem_barra (s : string) :
  sem_barra (Werkzeug.secure_filename s) = true.
Proof.
  eapply str_all_impl; [|apply secure_filename_chars]. apply filename_char_not_slash.
Qed.

Lemma dict_get_municipio (k : Z) (info : Escola) :
  dict_get ESCOLA_MAPA k = Some info → municipio info ∈ municipios.
Proof.
  unfold ESCOLA_MAPA. cbn [dict_get].
  repeat (destruct (_ =? k); [intros [= <-]; apply list_elem_of_In; vm_compute; tauto|]).
  discriminate.
Qed.

Lemma get_info_escola_municipio (v : id_escola) :
  municipio (get_info_escola v) ∈ municipios.
Proof.
  unfold get_info_escola. destruct (int v) as [n|].
  - destruct (dict_get ESCOLA_MAPA n) as [info|] eqn:E.
    + by apply dict_get_municipio in E.
    + destruct (str_of_int n); apply list_elem_of_In; vm_compute; tauto.
  - apply list_elem_of_In; vm_compute; tauto.
Qed.

Lemma municipios_segmento (m : string) :
  m ∈ municipios → Werkzeug.secure_filename m ≠ EmptyString.
Proof.
  unfold municipios. rewrite !elem_of_cons, elem_of_nil.
  intros [->|[->|[->|[->|[->|[->|[]]]]]]]; by vm_compute.
Qed.

Lemma pasta_segmento (v : id_escola) :
  segmento (Werkzeug.secure_filename (municipio (get_info_escola v))).
Proof.
  split; [apply municipios_segmento, get_info_escola_municipio|].
  apply secure_filename_sem_barra.
Qed.

End PathFacts.

(** ** The disk *)

Module DiskFacts.
Import Py PyFacts PathFacts.

Ltac by_depth k :=
  destruct k as [|? [|? [|? [|? ?]]]].

Lemma arvore_empty : arvore ∅.
Proof. intros k n H. by rewrite lookup_empty in H. Qed.

Lemma arvore_insert_uploads (d : gmap (list string) Os.node) :
  arvore d → arvore (<[["uploads"] := Os.Dir]> d).
Proof.
  intros Hd k n. rewrite lookup_insert. case_decide as Hk.
  - intros [= <-]. by subst k.
  - intros H. specialize (Hd k n H). by_depth k; try done.
    + destruct Hd as (-> & -> & _). by rewrite lookup_insert_eq.
    + destruct Hd as (-> & Hx & Hp). by rewrite lookup_insert_ne.
Qed.

Lemma arvore_insert_pasta (d : gmap (list string) Os.node) (m : string) :
  arvore d → d !! ["uploads"] = Some Os.Dir →
  arvore (<[["uploads"; m] := Os.Dir]> d).
Proof.
  intros Hd Hu k n. rewrite lookup_insert. case_decide as Hk.
  - intros [= <-]. subst k. by rewrite lookup_insert_ne.
  - intros H. specialize (Hd k n H). by_depth k; try done.
    + destruct Hd as (-> & -> & Hp). by rewrite lookup_insert_ne.
    + destruct Hd as (-> & Hx & Hp). split_and!; [done..|].
      rewrite lookup_insert. case_decide; [done | exact Hp].
Qed.

Lemma arvore_insert_file (d : gmap (list string) Os.node) (m a x : string) :
  arvore d → d !! ["uploads"; m] = Some Os.Dir →
  arvore (<[["uploads"; m; a] := Os.File x]> d).
Proof.
  intros Hd Hm k n. rewrite lookup_insert. case_decide as Hk.
  - intros [= <-]. subst k. split_and!; [done|by eexists|by rewrite lookup_insert_ne].
  - intros H. specialize (Hd k n H). by_depth k; try done.
    + destruct Hd as (-> & -> & Hp). by rewrite lookup_insert_ne.
    + destruct Hd as (-> & Hx & Hp). by rewrite lookup_insert_ne.
Qed.

Lemma arvore_delete_file (d : gmap (list string) Os.node) (m a : string) :
  arvore d → arvore (delete ["uploads"; m; a] d).
Proof.
  intros Hd k n. rewrite lookup_delete. case_decide as Hk; [done|].
  intros H. specialize (Hd k n H). by_depth k; try done.
  - destruct Hd as (-> & -> & Hp). by rewrite lookup_delete_ne.
  - destruct Hd as (-> & Hx & Hp). by rewrite lookup_delete_ne.
Qed.

Lemma arvore_delete_pasta (d : gmap (list string) Os.node) (m : string) :
  arvore d → (∀ a, d !! ["uploads"; m; a] = None) →
  arvore (delete ["uploads"; m] d).
Proof.
  intros Hd Hno k n. rewrite lookup_delete. case_decide as Hk; [done|].
  intros H. pose proof (Hd k n H) as Hk'. by_depth k; try done.
  - destruct Hk' as (-> & -> & Hp). by rewrite lookup_delete_ne.
  - destruct Hk' as (-> & Hx & Hp). split_and!; [done..|].
    rewrite lookup_delete_ne; [done|]. intros [= <-]. by rewrite Hno in H.
Qed.

(** A directory lists nothing exactly when no entry has it as parent. *)
Lemma entries_nil (d : gmap (list string) Os.node) (k : list string) :
  Os.entries d k = [] ↔ ∀ k' n, d !! k' = Some n → k' ≠ [] → Os.parent k' ≠ k.
Proof.
  unfold Os.entries. split.
  - intros Hnil k' n Hk' Hne Hp.
    apply elem_of_map_to_list in Hk'.
    destruct (last k') as [x|] eqn:Hl; [|by apply last_None in Hl].
    apply (not_elem_of_nil x). rewrite <- Hnil.
    apply list_elem_of_omap. exists (k', n). split; [done|].
    simpl. by rewrite bool_decide_eq_true_2.
  - intros Hall.
    destruct (omap _ (map_to_list d)) as [|x l] eqn:E; [done|]. exfalso.
    assert (Hx : x ∈ x :: l) by left. rewrite <- E in Hx.
    apply list_elem_of_omap in Hx as ([k' n] & Hin & Hf). simpl in Hf.
    case_bool_decide as Hc; [|done]. destruct Hc as [Hne Hp].
    apply elem_of_map_to_list in Hin. by apply (Hall k' n).
Qed.

Lemma path_exists_pasta (d : gmap (list string) Os.node) (m : string) :
  segmento m →
  Os.path_exists d ("uploads/" +:+ m)
  = bool_decide (is_Some (d !! ["uploads"; m])).
Proof. intros Hm. unfold Os.path_exists. by rewrite components_pasta. Qed.

Lemma path_exists_caminho (d : gmap (list string) Os.node) (m a : string) :
  segmento m → segmento a →
  Os.path_exists d ("uploads/" +:+ m +:+ "/" +:+ a)
  = bool_decide (is_Some (d !! ["uploads"; m; a])).
Proof. intros Hm Ha. unfold Os.path_exists. by rewrite components_caminho. Qed.

(** Creating the folder of a municipality when it is missing. *)
Lemma garantir_pasta (d : gmap (list string) Os.node) (m : string) :
  arvore d → segmento m →
  (if negb (Os.path_exists d ("uploads/" +:+ m))
   then Os.makedirs d ("uploads/" +:+ m) else Some d)
  = Some (<[["uploads"; m] := Os.Dir]> (<[["uploads"] := Os.Dir]> d)).
Proof.
  intros Hd Hm. rewrite path_exists_pasta by done.
  case_bool_decide as He; cbn [negb].
  - destruct He as [n Hn]. pose proof (Hd _ _ Hn) as (_ & -> & Hu).
    f_equal. rewrite (insert_id d ["uploads"]) by done. by rewrite insert_id.
  - unfold Os.makedirs. rewrite path_exists_pasta by done.
    rewrite bool_decide_eq_false_2 by done.
    rewrite components_pasta by done. rewrite append_cons. simpl.
    apply eq_None_not_Some in He.
    destruct (d !! ["uploads"]) as [n|] eqn:Hu.
    + pose proof (Hd _ _ Hu) as (_ & ->). rewrite He.
      by rewrite (insert_id d ["uploads"]).
    + by rewrite lookup_insert_ne, He.
Qed.

Lemma arvore_garantir_pasta (d : gmap (list string) Os.node) (m : string) :
  arvore d → arvore (<[["uploads"; m] := Os.Dir]> (<[["uploads"] := Os.Dir]> d)).
Proof.
  intros Hd. apply arvore_insert_pasta; [by apply arvore_insert_uploads|].
  by rewrite lookup_insert_eq.
Qed.

(** Writing a photo into an existing folder. *)
Lemma write_file_caminho (d : gmap (list string) Os.node) (m a data : string) :
  arvore d → segmento m → segmento a → d !! ["uploads"; m] = Some Os.Dir →
  Os.write_file d ("uploads/" +:+ m +:+ "/" +:+ a) data
  = Some (<[["uploads"; m; a] := Os.File data]> d).
Proof.
  intros Hd Hm Ha Hp. unfold Os.write_file. rewrite components_caminho by done.
  unfold Os.is_dir. simpl. rewrite Hp.
  destruct (d !! ["uploads"; m; a]) as [n|] eqn:Hn; [|done].
  by pose proof (Hd _ _ Hn) as (_ & [x ->] & _).
Qed.

Lemma remove_caminho (d : gmap (list string) Os.node) (m a : string) :
  segmento m → segmento a →
  Os.is_file d ["uploads"; m; a] = true →
  Os.remove d ("uploads/" +:+ m +:+ "/" +:+ a) = Some (delete ["uploads"; m; a] d).
Proof.
  intros Hm Ha Hf. unfold Os.remove. rewrite components_caminho by done.
  rewrite Hf. by rewrite !append_cons.
Qed.

End DiskFacts.

(** ** The two routes *)

Module RouteFacts.
Import Py PyFacts PathFacts DiskFacts.

Lemma destino_forma (escola_id cpf : string) (foto : FileStorage) :
  cpf_valido cpf = true →
  destino escola_id cpf foto
  = "uploads/" +:+ nome_municipio_de escola_id +:+ "/" +:+ cpf +:+ extensao_de foto.
Proof.
  intros Hcpf. unfold destino, caminho_salvamento_de, pasta_municipio_de.
  fold (nome_municipio_de escola_id).
  pose proof (pasta_segmento (IdStr escola_id)) as Hm.
  fold (nome_municipio_de escola_id) in Hm.
  rewrite join_pasta by apply Hm.
  rewrite join_caminho; [done|done|].
  apply segmento_append; [by apply cpf_valido_segmento | apply extensao_sem_barra].
Qed.

Lemma nome_arquivo_segmento (cpf : string) (foto : FileStorage) :
  cpf_valido cpf = true → segmento (cpf +:+ extensao_de foto).
Proof.
  intros H. apply segmento_append;
    [by apply cpf_valido_segmento | apply extensao_sem_barra].
Qed.

Lemma components_destino (escola_id cpf : string) (foto : FileStorage) :
  cpf_valido cpf = true →
  Os.components (destino escola_id cpf foto) = chave_foto escola_id cpf foto.
Proof.
  intros Hcpf. rewrite destino_forma by done.
  apply components_caminho; [apply pasta_segmento | by apply nome_arquivo_segmento].
Qed.

Lemma destino_truthy (escola_id cpf : string) (foto : FileStorage) :
  cpf_valido cpf = true → truthy (destino escola_id cpf foto) = true.
Proof. intros H. by rewrite destino_forma. Qed.

(** The first [try] block on a well-shaped disk. *)
Lemma salvar_arquivo_spec (f : Faults) (escola_id cpf : string) (foto : FileStorage)
    (d : gmap (list string) Os.node) :
  arvore d → cpf_valido cpf = true →
  salvar_arquivo f escola_id cpf foto d
  = let d1 := com_pasta d (nome_municipio_de escola_id) in
    if upload_fails f
    then (resto_upload f (chave_foto escola_id cpf foto) foto d1, None)
    else (<[chave_foto escola_id cpf foto := Os.File (stream foto)]> d1,
          Some (destino escola_id cpf foto)).
Proof.
  intros Hd Hcpf. unfold salvar_arquivo.
  fold (destino escola_id cpf foto).
  pose proof (pasta_segmento (IdStr escola_id)) as Hm.
  unfold pasta_municipio_de. fold (nome_municipio_de escola_id) in Hm |- *.
  rewrite join_pasta by apply Hm.
  rewrite garantir_pasta by done. fold (com_pasta d (nome_municipio_de escola_id)).
  cbv zeta. unfold save, resto_upload.
  rewrite destino_forma by done.
  assert (Hwrite : ∀ data,
            Os.write_file (com_pasta d (nome_municipio_de escola_id))
              ("uploads/" +:+ nome_municipio_de escola_id +:+ "/"
               +:+ cpf +:+ extensao_de foto) data
            = Some (<[chave_foto escola_id cpf foto := Os.File data]>
                      (com_pasta d (nome_municipio_de escola_id)))).
  { intros data. rewrite write_file_caminho; [done| |done| |].
    - by apply arvore_garantir_pasta.
    - by apply nome_arquivo_segmento.
    - unfold com_pasta. by rewrite lookup_insert_eq. }
  destruct (upload_fails f).
  - destruct (upload_written f) as [n|]; [|done]. by rewrite Hwrite.
  - by rewrite Hwrite.
Qed.

Lemma path_exists_destino (d : gmap (list string) Os.node)
    (escola_id cpf : string) (foto : FileStorage) :
  cpf_valido cpf = true →
  Os.path_exists d (destino escola_id cpf foto)
  = bool_decide (is_Some (d !! chave_foto escola_id cpf foto)).
Proof.
  intros H. unfold Os.path_exists.
  by rewrite destino_truthy, components_destino.
Qed.

(** Removing the photo that was just saved. *)
Lemma remove_destino (d : gmap (list string) Os.node)
    (escola_id cpf : string) (foto : FileStorage) (data : string) :
  cpf_valido cpf = true →
  let k := chave_foto escola_id cpf foto in
  let p := destino escola_id cpf foto in
  (if Os.path_exists (<[k := Os.File data]> d) p
   then Os.remove (<[k := Os.File data]> d) p
   else Some (<[k := Os.File data]> d))
  = Some (delete k d).
Proof.
  intros H k p. subst k p. rewrite path_exists_destino by done.
  rewrite lookup_insert_eq. rewrite bool_decide_eq_true_2 by eauto.
  unfold Os.remove. rewrite destino_truthy, components_destino by done.
  unfold Os.is_file, Os.node_at. unfold chave_foto at 1.
  fold (chave_foto escola_id cpf foto).
  rewrite lookup_insert_eq. simpl. by rewrite delete_insert_eq.
Qed.

Lemma erro_bd_destino (d : gmap (list string) Os.node) (tbl : list Professor.t)
    (escola_id cpf : string) (foto : FileStorage) (data : string) :
  cpf_valido cpf = true →
  erro_bd (<[chave_foto escola_id cpf foto := Os.File data]> d) tbl
          (destino escola_id cpf foto)
  = (Jsonify [("message", JStr msg_interno)] 500,
     {| disk := delete (chave_foto escola_id cpf foto) d; professores := tbl |}).
Proof.
  intros H. unfold erro_bd. rewrite destino_truthy by done. cbn [andb].
  by rewrite remove_destino.
Qed.

(** The second [try] block after a successful save. *)
Lemma armazenar_spec (f : Faults) (nome cpf escola_id : string)
    (nome_escola : option string) (foto : FileStorage)
    (d : gmap (list string) Os.node) (tbl : list Professor.t) :
  cpf_valido cpf = true →
  let k := chave_foto escola_id cpf foto in
  let p := destino escola_id cpf foto in
  armazenar f nome cpf escola_id nome_escola p (<[k := Os.File (stream foto)]> d) tbl
  = match Professor.filter_by_cpf_first tbl cpf with
    | Some _ =>
        (Jsonify [("message", JStr msg_duplicado)] 409,
         {| disk := delete k d; professores := tbl |})
    | None =>
        match int_of_str escola_id with
        | Some n =>
            if commit_fails f
            then (Jsonify [("message", JStr msg_interno)] 500,
                  {| disk := delete k d; professores := tbl |})
            else (Jsonify [("message", JStr msg_sucesso); ("cpf", JStr cpf);
                           ("nome", JStr nome);
                           ("nome_escola", json_of nome_escola)] 200,
                  {| disk := <[k := Os.File (stream foto)]> d;
                     professores :=
                       (tbl ++ [Professor.mk (Professor.next_id tbl) nome cpf n p])%list |})
        | None =>
            (Jsonify [("message", JStr msg_interno)] 500,
             {| disk := delete k d; professores := tbl |})
        end
    end.
Proof.
  intros H k p. subst k p. unfold armazenar.
  rewrite remove_destino by done. rewrite erro_bd_destino by done.
  destruct (Professor.filter_by_cpf_first tbl cpf); [done|].
  destruct (int_of_str escola_id); [|done]. by destruct (commit_fails f).
Qed.

Lemma campos_presentes_valido (request : Request) (nome cpf escola_id : string)
    (foto : FileStorage) :
  pedido_valido request nome cpf escola_id foto →
  campos_presentes (multidict_get (form request) "nome")
                   (multidict_get (form request) "cpf")
                   (multidict_get (form request) "escola_id")
                   (multidict_get (files request) "foto") = true.
Proof.
  intros (-> & -> & -> & -> & Hn & He & Hf & Hc). unfold campos_presentes. simpl.
  rewrite Hn, He, Hf. pose proof (cpf_valido_segmento cpf Hc) as Hs.
  by rewrite (segmento_truthy cpf Hs).
Qed.

(** The whole route on a valid request and a well-shaped disk. *)
Lemma processar_cadastro_valido (f : Faults) (request : Request) (w : World)
    (nome cpf escola_id : string) (foto : FileStorage) :
  pedido_valido request nome cpf escola_id foto → arvore (disk w) →
  let k := chave_foto escola_id cpf foto in
  let d1 := com_pasta (disk w) (nome_municipio_de escola_id) in
  processar_cadastro f request w
  = if upload_fails f
    then (Jsonify [("message", JStr msg_upload)] 500,
          {| disk := resto_upload f k foto d1; professores := professores w |})
    else armazenar f nome cpf escola_id (multidict_get (form request) "nome_escola")
                   (destino escola_id cpf foto)
                   (<[k := Os.File (stream foto)]> d1) (professores w).
Proof.
  intros Hv Hd k d1. unfold processar_cadastro.
  rewrite (campos_presentes_valido _ _ _ _ _ Hv).
  destruct Hv as (-> & -> & -> & -> & Hn & He & Hf & Hc). cbn [negb].
  rewrite Hc. cbn [negb]. rewrite salvar_arquivo_spec by done. cbv zeta.
  by destruct (upload_fails f).
Qed.

(** A request that is not valid is answered 400 and changes nothing. *)
Lemma processar_cadastro_invalido (f : Faults) (request : Request) (w : World) :
  (∀ nome cpf escola_id foto, ¬ pedido_valido request nome cpf escola_id foto) →
  status_of (processar_cadastro f request w).1 = 400
  ∧ (processar_cadastro f request w).2 = w.
Proof.
  intros Hno. unfold processar_cadastro.
  destruct (campos_presentes _ _ _ _) eqn:Hc; [|done]. cbn [negb].
  destruct (multidict_get (form request) "nome") as [nome|] eqn:E1; [|done].
  destruct (multidict_get (form request) "cpf") as [cpf|] eqn:E2; [|done].
  destruct (multidict_get (form request) "escola_id") as [escola_id|] eqn:E3; [|done].
  destruct (multidict_get (files request) "foto") as [foto|] eqn:E4; [|done].
  destruct (cpf_valido cpf) eqn:Hcpf; [|done]. exfalso.
  apply (Hno nome cpf escola_id foto). unfold pedido_valido.
  unfold campos_presentes in Hc. simpl in Hc. rewrite !andb_true_iff in Hc.
  by destruct Hc as [[[? ?] ?] ?].
Qed.

(** Every request is valid or not. *)
Lemma pedido_valido_dec (request : Request) :
  (∃ nome cpf escola_id foto, pedido_valido request nome cpf escola_id foto)
  ∨ (∀ nome cpf escola_id foto, ¬ pedido_valido request nome cpf escola_id foto).
Proof.
  unfold pedido_valido.
  destruct (multidict_get (form request) "nome") as [nome|];
    [|right; intros ???? (?&?&?&?&?&?&?&?); congruence].
  destruct (multidict_get (form request) "cpf") as [cpf|];
    [|right; intros ???? (?&?&?&?&?&?&?&?); congruence].
  destruct (multidict_get (form request) "escola_id") as [esc|];
    [|right; intros ???? (?&?&?&?&?&?&?&?); congruence].
  destruct (multidict_get (files request) "foto") as [foto|];
    [|right; intros ???? (?&?&?&?&?&?&?&?); congruence].
  destruct (truthy nome) eqn:?;
    [|right; intros ???? (?&?&?&?&?&?&?&?); congruence].
  destruct (truthy esc) eqn:?;
    [|right; intros ???? (?&?&?&?&?&?&?&?); congruence].
  destruct (truthy (filename foto)) eqn:?;
    [|right; intros ???? (?&?&?&?&?&?&?&?); congruence].
  destruct (cpf_valido cpf) eqn:?;
    [|right; intros ???? (?&?&?&?&?&?&?&?); congruence].
  left. by exists nome, cpf, esc, foto.
Qed.

(** The deletion of a photo stored as uploads/<m>/<a>. *)
Lemma apagar_foto_spec (d : gmap (list string) Os.node) (m a : string) :
  arvore d → segmento m → segmento a →
  apagar_foto d ("uploads/" +:+ m +:+ "/" +:+ a)
  = if bool_decide (is_Some (d !! ["uploads"; m; a])) then
      let d1 := delete ["uploads"; m; a] d in
      if bool_decide (Os.entries d1 ["uploads"; m] = [])
      then delete ["uploads"; m] d1 else d1
    else d.
Proof.
  intros Hd Hm Ha. unfold apagar_foto.
  rewrite path_exists_caminho by done.
  case_bool_decide as He; [|done]. destruct He as [n Hn].
  pose proof (Hd _ _ Hn) as (_ & [x ->] & Hp).
  rewrite remove_caminho; [|done|done|by unfold Os.is_file; simpl; rewrite Hn].
  rewrite dirname_caminho by (done || apply Ha).
  unfold Os.listdir. rewrite components_pasta by done.
  change (truthy ("uploads/" +:+ m)) with true. cbn [andb].
  assert (Hp' : delete ["uploads"; m; a] d !! ["uploads"; m] = Some Os.Dir)
    by by rewrite lookup_delete_ne.
  unfold Os.is_dir at 1. cbn [Os.node_at]. rewrite Hp'. cbv zeta.
  destruct (Os.entries _ ["uploads"; m]) as [|e es] eqn:E.
  - unfold Os.rmdir. rewrite components_pasta by done.
    unfold Os.is_dir. cbn [Os.node_at]. rewrite Hp', E.
    by rewrite !bool_decide_eq_true_2.
  - by rewrite bool_decide_eq_false_2.
Qed.

Lemma arvore_apagar_foto (d : gmap (list string) Os.node) (m a : string) :
  arvore d → segmento m → segmento a →
  arvore (apagar_foto d ("uploads/" +:+ m +:+ "/" +:+ a)).
Proof.
  intros Hd Hm Ha. rewrite apagar_foto_spec by done.
  case_bool_decide; [|done]. cbv zeta.
  case_bool_decide as He; [|by apply arvore_delete_file].
  apply arvore_delete_pasta; [by apply arvore_delete_file|].
  intros a'. destruct (delete _ d !! ["uploads"; m; a']) as [n|] eqn:Hn; [|done].
  exfalso. by apply (proj1 (entries_nil _ _) He _ _ Hn).
Qed.

(** Rows and their keys. *)
Lemma filter_by_cpf_first_None (tbl : list Professor.t) (c : string) :
  Professor.filter_by_cpf_first tbl c = None ↔ c ∉ map Professor.cpf tbl.
Proof.
  unfold Professor.filter_by_cpf_first.
  induction tbl as [|r tbl IH]; simpl;
    [split; [intros _; apply not_elem_of_nil | done]|].
  rewrite not_elem_of_cons. destruct (String.eqb_spec (Professor.cpf r) c) as [->|Hne].
  - split; [done | by intros [? _]].
  - rewrite IH. split; [intros; split; congruence | by intros [_ ?]].
Qed.

Lemma get_Some (tbl : list Professor.t) (i : Z) (r : Professor.t) :
  Professor.get tbl i = Some r → r ∈ tbl ∧ Professor.id r = i.
Proof.
  unfold Professor.get. intros H. apply find_some in H as [Hin Hid].
  split; [by apply list_elem_of_In | by apply Z.eqb_eq].
Qed.

Lemma elem_of_delete (tbl : list Professor.t) (r r' : Professor.t) :
  r' ∈ Professor.delete tbl r ↔ r' ∈ tbl ∧ Professor.id r' ≠ Professor.id r.
Proof.
  unfold Professor.delete. rewrite !list_elem_of_In, filter_In.
  by rewrite negb_true_iff, Z.eqb_neq.
Qed.

Lemma NoDup_map_filter {A B} (g : A → B) (p : A → bool) (l : list A) :
  NoDup (map g l) → NoDup (map g (List.filter p l)).
Proof.
  induction l as [|x l IH]; simpl; [done|].
  rewrite NoDup_cons. intros [Hx Hl]. destruct (p x); simpl; [|auto].
  apply NoDup_cons. split; [|auto].
  intros Hin. apply Hx. apply list_elem_of_In, in_map_iff in Hin as (y & <- & Hy).
  apply filter_In in Hy as [Hy _]. apply list_elem_of_In, in_map_iff. eauto.
Qed.

Lemma NoDup_map_inj {A B} (g : A → B) (l : list A) (x y : A) :
  NoDup (map g l) → x ∈ l → y ∈ l → g x = g y → x = y.
Proof.
  induction l as [|z l IH]; simpl; [by rewrite elem_of_nil|].
  rewrite NoDup_cons, !elem_of_cons. intros [Hz Hl] [->|Hx] [->|Hy] Hg; auto.
  - exfalso. apply Hz. rewrite Hg. apply list_elem_of_In, in_map.
    by apply list_elem_of_In.
  - exfalso. apply Hz. rewrite <- Hg. apply list_elem_of_In, in_map.
    by apply list_elem_of_In.
Qed.

(** The key of a stored photo, from the shape of its row. *)
Lemma linha_ok_chave (r : Professor.t) :
  linha_ok r →
  ∃ m a ext, Professor.caminho_foto r = "uploads/" +:+ m +:+ "/" +:+ a
             ∧ a = Professor.cpf r +:+ ext
             ∧ segmento m ∧ segmento a
             ∧ Os.components (Professor.caminho_foto r) = ["uploads"; m; a].
Proof.
  intros (m & ext & Hp & Hm & Hext & Hcpf & Hlen).
  assert (Ha : segmento (Professor.cpf r +:+ ext)).
  { apply segmento_append; [|done]. split; [|done].
    intros E. by rewrite E in Hlen. }
  exists m, (Professor.cpf r +:+ ext), ext.
  split_and!; [done..|]. rewrite Hp. by apply components_caminho.
Qed.

(** Rows with different cpfs store their photos at different places. *)
Lemma chaves_distintas (r r' : Professor.t) :
  linha_ok r → linha_ok r' → Professor.cpf r ≠ Professor.cpf r' →
  Os.components (Professor.caminho_foto r)
  ≠ Os.components (Professor.caminho_foto r').
Proof.
  intros Hr Hr' Hne.
  pose proof Hr as (_ & _ & _ & _ & _ & _ & Hl).
  pose proof Hr' as (_ & _ & _ & _ & _ & _ & Hl').
  destruct (linha_ok_chave r Hr) as (m & a & ext & _ & -> & _ & _ & ->).
  destruct (linha_ok_chave r' Hr') as (m' & a' & ext' & _ & -> & _ & _ & ->).
  intros [= _ E]. apply Hne. eapply nome_arquivo_inj; [|exact E]. congruence.
Qed.

End RouteFacts.

(** ** What every request preserves *)

Module Invariants.
Import Py PyFacts PathFacts DiskFacts RouteFacts.

Lemma arvore_com_pasta (d : gmap (list string) Os.node) (m : string) :
  arvore d → arvore (com_pasta d m).
Proof. apply arvore_garantir_pasta. Qed.

(** A regular file stays one when the folder is created. *)
Lemma is_file_com_pasta (d : gmap (list string) Os.node) (m : string)
    (k : list string) :
  arvore d → Os.is_file d k = true → Os.is_file (com_pasta d m) k = true.
Proof.
  intros Hd. unfold Os.is_file, Os.node_at, com_pasta.
  destruct k as [|c k]; [done|].
  destruct (d !! (c :: k)) as [[x|]|] eqn:Hk; try done. intros _.
  pose proof (Hd _ _ Hk) as Hs.
  destruct k as [|? [|? [|? ?]]]; try done;
    [by destruct Hs | by destruct Hs as (_ & ? & _)|].
  by rewrite !lookup_insert_ne, Hk.
Qed.

(** What a refused write leaves has the shape of the tree, and keeps the
    files there were. *)
Lemma arvore_resto_upload (f : Faults) (d : gmap (list string) Os.node)
    (m a : string) (foto : FileStorage) :
  arvore d → d !! ["uploads"; m] = Some Os.Dir →
  arvore (resto_upload f ["uploads"; m; a] foto d).
Proof.
  intros Hd Hm. unfold resto_upload. destruct (upload_written f); [|done].
  by apply arvore_insert_file.
Qed.

Lemma arvore_resto_com_pasta (f : Faults) (d : gmap (list string) Os.node)
    (escola_id cpf : string) (foto : FileStorage) :
  arvore d →
  arvore (resto_upload f (chave_foto escola_id cpf foto) foto
            (com_pasta d (nome_municipio_de escola_id))).
Proof.
  intros Hd. apply arvore_resto_upload; [by apply arvore_com_pasta|].
  unfold com_pasta. by rewrite lookup_insert_eq.
Qed.

Lemma estrutura_vazio : estrutura mundo_vazio.
Proof.
  split; simpl.
  - apply arvore_empty.
  - intros r Hr. by apply elem_of_nil in Hr.
  - constructor.
Qed.

Lemma linha_ok_novo (i n : Z) (nome cpf escola_id : string) (foto : FileStorage) :
  cpf_valido cpf = true →
  linha_ok (Professor.mk i nome cpf n (destino escola_id cpf foto)).
Proof.
  intros Hc. exists (nome_municipio_de escola_id), (extensao_de foto). simpl.
  split_and!.
  - by apply destino_forma.
  - apply pasta_segmento.
  - apply extensao_sem_barra.
  - by apply cpf_valido_segmento.
  - by apply cpf_valido_length.
Qed.

(** Registration keeps the structure, whatever fails. *)
Lemma estrutura_processar (f : Faults) (request : Request) (w : World) :
  estrutura w → estrutura (processar_cadastro f request w).2.
Proof.
  intros [Hd Hl Hc].
  destruct (pedido_valido_dec request) as [(nome & cpf & esc & foto & Hv)|Hno].
  2:{ by rewrite (proj2 (processar_cadastro_invalido f request w Hno)). }
  rewrite (processar_cadastro_valido f request w _ _ _ _ Hv Hd). cbv zeta.
  pose proof Hv as (_ & _ & _ & _ & _ & _ & _ & Hcpf).
  destruct (upload_fails f).
  { split; simpl; [by apply arvore_resto_com_pasta | done | done]. }
  rewrite armazenar_spec by done. cbv zeta.
  assert (Hdel : arvore (delete (chave_foto esc cpf foto)
                                (com_pasta (disk w) (nome_municipio_de esc)))).
  { apply arvore_delete_file. by apply arvore_com_pasta. }
  destruct (Professor.filter_by_cpf_first (professores w) cpf) eqn:Hdup.
  { by split. }
  destruct (int_of_str esc) as [n|]; [|by split].
  destruct (commit_fails f); [by split|].
  split; simpl.
  - apply arvore_insert_file; [by apply arvore_com_pasta|].
    unfold com_pasta. by rewrite lookup_insert_eq.
  - intros r. rewrite elem_of_app, list_elem_of_singleton. intros [Hr| ->]; [auto|].
    by apply linha_ok_novo.
  - rewrite map_app. simpl. apply NoDup_app. split_and!; [done| |apply NoDup_singleton].
    intros c Hin. rewrite list_elem_of_singleton. intros ->.
    by apply filter_by_cpf_first_None in Hdup.
Qed.

(** Deletion keeps the structure, whatever fails. *)
Lemma estrutura_excluir (f : Faults) (professor_id : Z) (w : World) :
  estrutura w → estrutura (excluir_professor f professor_id w).2.
Proof.
  intros [Hd Hl Hc]. unfold excluir_professor.
  destruct (Professor.get (professores w) professor_id) as [r|] eqn:Hg; [|by split].
  apply get_Some in Hg as [Hin _].
  destruct (linha_ok_chave r (Hl r Hin)) as (m & a & ext & Hp & _ & Hm & Ha & _).
  assert (Hd' : arvore (apagar_foto (disk w) (Professor.caminho_foto r))).
  { rewrite Hp. by apply arvore_apagar_foto. }
  destruct (commit_fails f); split; simpl; try done.
  - intros r'. rewrite elem_of_delete. intros [Hr' _]. auto.
  - by apply NoDup_map_filter.
Qed.

Lemma estrutura_run_op (w : World) (op : Op) : estrutura w → estrutura (run_op w op).
Proof.
  destruct op; simpl; [apply estrutura_processar | apply estrutura_excluir].
Qed.

Lemma estrutura_run (ops : list Op) (w : World) : estrutura w → estrutura (run ops w).
Proof.
  revert w. induction ops as [|op ops IH]; intros w Hw; simpl; [done|].
  apply IH. by apply estrutura_run_op.
Qed.

Lemma is_file_delete_ne (d : gmap (list string) Os.node) (k k' : list string) :
  k ≠ k' → Os.is_file (delete k d) k' = Os.is_file d k'.
Proof.
  intros Hne. unfold Os.is_file, Os.node_at. destruct k'; [done|].
  by rewrite lookup_delete_ne.
Qed.

Lemma is_file_insert_file (d : gmap (list string) Os.node) (k k' : list string)
    (x : string) :
  Os.is_file d k' = true → Os.is_file (<[k := Os.File x]> d) k' = true.
Proof.
  unfold Os.is_file, Os.node_at. destruct k'; [done|].
  rewrite lookup_insert. by case_decide.
Qed.

Lemma is_file_insert_eq (d : gmap (list string) Os.node) (k : list string)
    (x : string) :
  k ≠ [] → Os.is_file (<[k := Os.File x]> d) k = true.
Proof.
  intros Hk. unfold Os.is_file, Os.node_at. destruct k; [done|].
  by rewrite lookup_insert_eq.
Qed.

Lemma sobrescreve_false (request : Request) (w : World)
    (nome cpf escola_id : string) (foto : FileStorage) :
  pedido_valido request nome cpf escola_id foto →
  sobrescreve request w = false →
  ∀ r, r ∈ professores w →
       Os.components (Professor.caminho_foto r) ≠ chave_foto escola_id cpf foto.
Proof.
  intros (_ & E2 & E3 & E4 & _ & _ & _ & Hc). unfold sobrescreve.
  rewrite E2, E3, E4.
  rewrite components_destino by done. intros Hex r Hr Heq.
  assert (existsb (λ r0, bool_decide (Os.components (Professor.caminho_foto r0)
                                      = chave_foto escola_id cpf foto))
                  (professores w) = true) as Ht; [|congruence].
  apply existsb_exists. exists r. split; [by apply list_elem_of_In|].
  by apply bool_decide_eq_true.
Qed.

(** On a structured state, only a duplicate cpf can write over a stored
    photo. *)
Lemma sobrescreve_duplicado (request : Request) (w : World)
    (nome cpf escola_id : string) (foto : FileStorage) :
  estrutura w → pedido_valido request nome cpf escola_id foto →
  sobrescreve request w = true →
  is_Some (Professor.filter_by_cpf_first (professores w) cpf).
Proof.
  intros [_ Hl _] (_ & E2 & E3 & E4 & _ & _ & _ & Hc). unfold sobrescreve.
  rewrite E2, E3, E4.
  rewrite components_destino by done. intros Hex.
  apply existsb_exists in Hex as (r & Hr & Heq).
  apply list_elem_of_In in Hr. apply bool_decide_eq_true in Heq.
  destruct (Professor.filter_by_cpf_first (professores w) cpf) eqn:E; [eauto|].
  exfalso. apply filter_by_cpf_first_None in E. apply E.
  pose proof (Hl r Hr) as Hok. pose proof Hok as (_ & _ & _ & _ & _ & _ & Hlen).
  destruct (linha_ok_chave r Hok) as (m & a & ext & _ & -> & _ & _ & Hk).
  rewrite Hk in Heq. unfold chave_foto in Heq. injection Heq as _ Hn.
  apply nome_arquivo_inj in Hn;
    [|by rewrite Hlen, (cpf_valido_length cpf Hc)].
  rewrite <- Hn. apply list_elem_of_In, in_map. by apply list_elem_of_In.
Qed.

(** A registration that does not write over a stored photo keeps every
    stored photo on disk. *)
Lemma fotos_processar (f : Faults) (request : Request) (w : World) :
  estrutura w → fotos_existem w → sobrescreve request w = false →
  fotos_existem (processar_cadastro f request w).2.
Proof.
  intros [Hd Hl Hc] Hf Hs.
  destruct (pedido_valido_dec request) as [(nome & cpf & esc & foto & Hv)|Hno].
  2:{ by rewrite (proj2 (processar_cadastro_invalido f request w Hno)). }
  pose proof (sobrescreve_false _ _ _ _ _ _ Hv Hs) as Hne.
  rewrite (processar_cadastro_valido f request w _ _ _ _ Hv Hd). cbv zeta.
  pose proof Hv as (_ & _ & _ & _ & _ & _ & _ & Hcpf).
  assert (Hpasta : ∀ r, r ∈ professores w →
            Os.is_file (com_pasta (disk w) (nome_municipio_de esc))
                       (Os.components (Professor.caminho_foto r)) = true).
  { intros r Hr. apply is_file_com_pasta; auto. }
  assert (Hdel : ∀ r, r ∈ professores w →
            Os.is_file (delete (chave_foto esc cpf foto)
                          (com_pasta (disk w) (nome_municipio_de esc)))
                       (Os.components (Professor.caminho_foto r)) = true).
  { intros r Hr. rewrite is_file_delete_ne; [auto|]. intros E. by apply (Hne r Hr). }
  destruct (upload_fails f).
  { intros r Hr. simpl. unfold resto_upload.
    destruct (upload_written f); [apply is_file_insert_file|]; by apply Hpasta. }
  rewrite armazenar_spec by done. cbv zeta.
  destruct (Professor.filter_by_cpf_first (professores w) cpf); [exact Hdel|].
  destruct (int_of_str esc) as [n|]; [|exact Hdel].
  destruct (commit_fails f); [exact Hdel|].
  intros r. simpl. rewrite elem_of_app, list_elem_of_singleton. intros [Hr| ->].
  - apply is_file_insert_file. auto.
  - simpl. rewrite components_destino by done. by apply is_file_insert_eq.
Qed.

(** A deletion whose commit succeeds keeps the photos of the other rows. *)
Lemma fotos_excluir (f : Faults) (professor_id : Z) (w : World) :
  estrutura w → fotos_existem w → commit_fails f = false →
  fotos_existem (excluir_professor f professor_id w).2.
Proof.
  intros [Hd Hl Hc] Hf Hcommit. unfold excluir_professor.
  destruct (Professor.get (professores w) professor_id) as [r|] eqn:Hg; [|done].
  apply get_Some in Hg as [Hin _]. rewrite Hcommit.
  intros r'. simpl. rewrite elem_of_delete. intros [Hr' Hid].
  assert (Hcpf : Professor.cpf r ≠ Professor.cpf r').
  { intros E. apply Hid. f_equal. symmetry.
    by apply (NoDup_map_inj Professor.cpf (professores w)). }
  pose proof (chaves_distintas r r' (Hl r Hin) (Hl r' Hr') Hcpf) as Hk.
  specialize (Hf r' Hr').
  destruct (linha_ok_chave r (Hl r Hin)) as (m & a & ext & Hp & _ & Hm & Ha & Hkr).
  destruct (linha_ok_chave r' (Hl r' Hr')) as (m' & a' & ext' & _ & _ & _ & _ & Hkr').
  rewrite Hkr in Hk. rewrite Hkr' in Hk, Hf |- *.
  rewrite Hp, apagar_foto_spec by done.
  case_bool_decide; [|done]. cbv zeta.
  case_bool_decide; rewrite ?is_file_delete_ne; done.
Qed.

Lemma fotos_run (ops : list Op) (w : World) :
  estrutura w → fotos_existem w → run_regular ops w = true →
  fotos_existem (run ops w).
Proof.
  revert w. induction ops as [|op ops IH]; intros w Hw Hf; simpl; [done|].
  rewrite andb_true_iff. intros [Hop Hr].
  apply IH; [by apply estrutura_run_op| |done].
  destruct op as [f request|f i]; simpl in *.
  - apply fotos_processar; [done..|]. by apply negb_true_iff.
  - apply fotos_excluir; [done..|]. by apply negb_true_iff.
Qed.

End Invariants.

(** * The claims *)

Import Py PyFacts PathFacts DiskFacts RouteFacts Invariants.

(** ** Duplicate registration *)

(** X10.  On a structured state where every stored photo is on disk, a
    registration with a cpf of the table, whose photo write is not refused
    and whose photo goes to another place than every stored one, is
    refused with 409, leaves the table and every stored photo as they
    were, and leaves nothing at its own destination. *)
Lemma duplicado_sem_sobrescrever (f : Faults) (request : Request) (w : World)
    (nome cpf escola_id : string) (foto : FileStorage) :
  estrutura w → fotos_existem w →
  pedido_valido request nome cpf escola_id foto →
  upload_fails f = false →
  is_Some (Professor.filter_by_cpf_first (professores w) cpf) →
  sobrescreve request w = false →
  let r := processar_cadastro f request w in
  r.1 = Jsonify [("message", JStr msg_duplicado)] 409
  ∧ professores r.2 = professores w
  ∧ fotos_existem r.2
  ∧ Os.path_exists (disk r.2) (destino escola_id cpf foto) = false.
Proof.
  intros Hw Hf Hv Hup [row Hdup] Hs r.
  pose proof (fotos_processar f request w Hw Hf Hs) as Hf'. fold r in Hf'.
  pose proof Hv as (_ & _ & _ & _ & _ & _ & _ & Hcpf).
  subst r. revert Hf'.
  rewrite (processar_cadastro_valido f request w _ _ _ _ Hv (est_arvore w Hw)).
  cbv zeta. rewrite Hup, armazenar_spec by done. cbv zeta. rewrite Hdup. simpl.
  intros Hf'. split_and!; [done..|].
  rewrite path_exists_destino by done. rewrite lookup_delete_eq.
  apply bool_decide_eq_false_2. by intros [? ?].
Qed.

(** C1 (defect in the code).  After Ana Silva registered, the same
    request again is answered 409 and the table keeps its one row, but the
    photo of that row is no longer on disk: the second request saved its
    upload over it and then removed it.  The same happens with school 102,
    which is in the same municipality, and another file name with the same
    extension. *)
Theorem c1_duplicate_removes_stored_photo :
  let segundo := processar_cadastro no_faults (pedido_ana "foto.jpg") mundo_ana in
  let outro := processar_cadastro no_faults
                 (pedido "Ana Silva" "12345678901" "102" None "outra.jpg") mundo_ana in
  map Professor.caminho_foto (professores mundo_ana)
  = ["uploads/Boa_Vista/12345678901.jpg"]
  ∧ Os.path_exists (disk mundo_ana) "uploads/Boa_Vista/12345678901.jpg" = true
  ∧ status_of segundo.1 = 409
  ∧ professores segundo.2 = professores mundo_ana
  ∧ Os.path_exists (disk segundo.2) "uploads/Boa_Vista/12345678901.jpg" = false
  ∧ status_of outro.1 = 409
  ∧ professores outro.2 = professores mundo_ana
  ∧ Os.path_exists (disk outro.2) "uploads/Boa_Vista/12345678901.jpg" = false.
Proof. vm_compute. repeat split. Qed.

(** ** Stored photos exist *)

(** A row that a registration adds has its photo on disk. *)
Lemma linha_nova_tem_foto (f : Faults) (request : Request) (w : World)
    (r : Professor.t) :
  estrutura w →
  r ∈ professores (processar_cadastro f request w).2 → r ∉ professores w →
  Os.is_file (disk (processar_cadastro f request w).2)
             (Os.components (Professor.caminho_foto r)) = true.
Proof.
  intros [Hd _ _].
  destruct (pedido_valido_dec request) as [(nome & cpf & esc & foto & Hv)|Hno].
  2:{ by rewrite (proj2 (processar_cadastro_invalido f request w Hno)). }
  rewrite (processar_cadastro_valido f request w _ _ _ _ Hv Hd). cbv zeta.
  pose proof Hv as (_ & _ & _ & _ & _ & _ & _ & Hcpf).
  destruct (upload_fails f); [done|].
  rewrite armazenar_spec by done. cbv zeta.
  destruct (Professor.filter_by_cpf_first (professores w) cpf); [done|].
  destruct (int_of_str esc) as [n|]; [|done].
  destruct (commit_fails f); [done|]. simpl.
  rewrite elem_of_app, list_elem_of_singleton. intros [Hr| ->] Hnot; [done|].
  simpl. rewrite components_destino by done. by apply is_file_insert_eq.
Qed.

(** After a deletion, committed or not, the photo of the row is gone. *)
Lemma excluir_remove_foto (f : Faults) (professor_id : Z) (w : World)
    (r : Professor.t) :
  estrutura w → Professor.get (professores w) professor_id = Some r →
  Os.path_exists (disk (excluir_professor f professor_id w).2)
                 (Professor.caminho_foto r) = false.
Proof.
  intros [Hd Hl _] Hg. unfold excluir_professor. rewrite Hg.
  apply get_Some in Hg as [Hin _].
  destruct (linha_ok_chave r (Hl r Hin)) as (m & a & ext & Hp & _ & Hm & Ha & _).
  assert (H : Os.path_exists (apagar_foto (disk w) (Professor.caminho_foto r))
                             (Professor.caminho_foto r) = false).
  { rewrite Hp. rewrite path_exists_caminho, apagar_foto_spec by done.
    apply bool_decide_eq_false_2. case_bool_decide as He; [|done]. cbv zeta.
    case_bool_decide; rewrite ?lookup_delete_ne by done;
      rewrite lookup_delete_eq; by intros [? ?]. }
  by destruct (commit_fails f).
Qed.

(** C2, the claim as stated, fails: after Ana Silva registers and the
    deletion of her row fails at the commit, the row is still in the table
    and its photo is not on disk. *)
Lemma c2_counterexample : ¬ (∀ ops, fotos_existem (run ops mundo_vazio)).
Proof.
  intros H.
  specialize (H [Register no_faults (pedido_ana "foto.jpg"); Delete commit_falha 1]).
  specialize (H (Professor.mk 1 "Ana Silva" "12345678901" 101
                              "uploads/Boa_Vista/12345678901.jpg")).
  assert (Hin : Professor.mk 1 "Ana Silva" "12345678901" 101
                             "uploads/Boa_Vista/12345678901.jpg"
                ∈ professores (run [Register no_faults (pedido_ana "foto.jpg");
                                    Delete commit_falha 1] mundo_vazio)).
  { vm_compute. left. }
  specialize (H Hin). vm_compute in H. discriminate.
Qed.

(** C2 (amended).  In every state reached from the empty one by
    registrations and deletions of which no deletion fails at its commit
    and no registration saves over the photo of a stored row, the photo of
    every row is a file on disk.  In every reachable state, whatever
    fails: a row that a registration adds has its photo on disk, and after
    a deletion of an existing row its photo is gone, committed or not. *)
Theorem c2_stored_photos_exist (ops : list Op) :
  let w := run ops mundo_vazio in
  (run_regular ops mundo_vazio = true → fotos_existem w)
  ∧ (∀ f request r,
       r ∈ professores (processar_cadastro f request w).2 → r ∉ professores w →
       Os.is_file (disk (processar_cadastro f request w).2)
                  (Os.components (Professor.caminho_foto r)) = true)
  ∧ (∀ f professor_id r,
       Professor.get (professores w) professor_id = Some r →
       Os.path_exists (disk (excluir_professor f professor_id w).2)
                      (Professor.caminho_foto r) = false).
Proof.
  intros w. assert (Hw : estrutura w) by apply estrutura_run, estrutura_vazio.
  split_and!.
  - intros Hr. apply fotos_run; [apply estrutura_vazio| |done].
    intros r Hin. by apply elem_of_nil in Hin.
  - intros f request r. by apply linha_nova_tem_foto.
  - intros f professor_id r. by apply excluir_remove_foto.
Qed.

(** The amended C2 at a run with a duplicate to another municipality, a
    failed commit of a registration and a deletion. *)
Lemma c2_stored_photos_exist_witness :
  let ops := [Register no_faults (pedido_ana "foto.jpg");
              Register no_faults (pedido "Ana Silva" "12345678901" "103" None "b.png");
              Register commit_falha (pedido "Rui Costa" "10987654321" "104" None "r.jpg");
              Register no_faults (pedido "Bia Lima" "11122233344" "101" None "bia.jpg");
              Delete no_faults 1] in
  run_regular ops mundo_vazio = true ∧ fotos_existem (run ops mundo_vazio).
Proof.
  intros ops. assert (Hr : run_regular ops mundo_vazio = true) by (by vm_compute).
  split; [exact Hr|]. exact (proj1 (c2_stored_photos_exist ops) Hr).
Defined.

(** ** The scenario of Ana Silva *)

(** C3, the claim as stated, fails: Ana Silva's registration is answered
    200 with a row for school 101, yet nothing exists at
    uploads/Boa Vista/12345678901.jpg: the folder is Boa_Vista. *)
Lemma c3_counterexample :
  let r := processar_cadastro no_faults (pedido_ana "foto.jpg") mundo_vazio in
  status_of r.1 = 200
  ∧ map Professor.escola_id (professores r.2) = [101]
  ∧ map Professor.caminho_foto (professores r.2)
    = ["uploads/Boa_Vista/12345678901.jpg"]
  ∧ Os.path_exists (disk r.2) "uploads/Boa Vista/12345678901.jpg" = false.
Proof. vm_compute. repeat split. Qed.

(** C3 (amended).  On a disk with the shape of the upload tree and a table
    without the cpf 12345678901, when neither the write nor the commit
    fails, the registration of "Ana Silva", "12345678901", school 101 with
    a photo is answered 200, adds one row with school 101 and the path
    uploads/Boa_Vista/12345678901<ext>, and the photo's bytes are the file
    at that place; <ext> is the lower-cased extension of the photo's name. *)
Theorem c3_register_ana_silva (f : Faults) (request : Request) (w : World)
    (foto : FileStorage) :
  arvore (disk w) →
  pedido_valido request "Ana Silva" "12345678901" "101" foto →
  upload_fails f = false → commit_fails f = false →
  Professor.filter_by_cpf_first (professores w) "12345678901" = None →
  let r := processar_cadastro f request w in
  let caminho := "uploads/Boa_Vista/12345678901" +:+ extensao_de foto in
  status_of r.1 = 200
  ∧ professores r.2
    = (professores w
       ++ [Professor.mk (Professor.next_id (professores w)) "Ana Silva"
                        "12345678901" 101 caminho])%list
  ∧ disk r.2 !! ["uploads"; "Boa_Vista"; "12345678901" +:+ extensao_de foto]
    = Some (Os.File (stream foto))
  ∧ Os.components caminho
    = ["uploads"; "Boa_Vista"; "12345678901" +:+ extensao_de foto].
Proof.
  intros Hd Hv Hup Hcommit Hnew r caminho. subst r.
  pose proof Hv as (_ & _ & _ & _ & _ & _ & _ & Hcpf).
  rewrite (processar_cadastro_valido f request w _ _ _ _ Hv Hd). cbv zeta.
  rewrite Hup, armazenar_spec by done. cbv zeta. rewrite Hnew, Hcommit.
  change (int_of_str "101") with (Some 101).
  assert (Hdest : destino "101" "12345678901" foto = caminho).
  { by rewrite destino_forma. }
  assert (Hkey : chave_foto "101" "12345678901" foto
                 = ["uploads"; "Boa_Vista"; "12345678901" +:+ extensao_de foto])
    by reflexivity.
  rewrite Hdest, Hkey. cbn [fst snd status_of disk professores].
  split_and!; [done|done|by rewrite lookup_insert_eq|].
  rewrite <- Hdest, <- Hkey. by apply components_destino.
Qed.

(** C3 (amended) at a state where Rui Costa is registered and a photo
    named Foto.PNG. *)
Lemma c3_register_ana_silva_witness :
  let r := processar_cadastro no_faults (pedido_ana "Foto.PNG") mundo_rui in
  status_of r.1 = 200
  ∧ map Professor.caminho_foto (professores r.2)
    = ["uploads/Rorainopolis/10987654321.jpg"; "uploads/Boa_Vista/12345678901.png"].
Proof.
  intros r.
  assert (Hd : arvore (disk mundo_rui)).
  { apply (est_arvore _ (estrutura_run
             [Register no_faults (pedido "Rui Costa" "10987654321" "104" None "r.jpg")]
             mundo_vazio estrutura_vazio)). }
  assert (Hv : pedido_valido (pedido_ana "Foto.PNG") "Ana Silva" "12345678901" "101"
                 {| filename := "Foto.PNG"; stream := "JFIF" |}).
  { by vm_compute. }
  destruct (c3_register_ana_silva no_faults (pedido_ana "Foto.PNG") mundo_rui
              {| filename := "Foto.PNG"; stream := "JFIF" |} Hd Hv
              eq_refl eq_refl eq_refl) as (H1 & H2 & _).
  split; [exact H1|]. subst r. rewrite H2. reflexivity.
Defined.

(** ** The destination of a photo *)

(** [secure_filename] itself has no fallback: a string with no letter
    and no digit is sanitised to the empty string.  No municipality of the
    school directory is such a string, as the theorem below shows. *)
Remark secure_filename_sem_letras : Werkzeug.secure_filename "!!!" = EmptyString.
Proof. reflexivity. Qed.

(** C4.  The folder name is [secure_filename] of the municipality that
    [get_info_escola] answers with.  Whatever the string,
    [secure_filename] lets through only letters, digits, "_", "." and "-",
    so no separator.  For every school id a form can carry the folder name
    is not empty, so that the case the claim gives a fallback for does not
    arise; and with a cpf that passes the check the first [try] block
    either raises or hands on uploads/<folder name>/<cpf><extension>, a
    path of exactly these three components, which is the path a row
    stores. *)
Theorem c4_destination_of_photo (municipio_ escola_id cpf : string)
    (foto : FileStorage) :
  cpf_valido cpf = true →
  let nome_municipio := nome_municipio_de escola_id in
  str_all Werkzeug.filename_char (Werkzeug.secure_filename municipio_) = true
  ∧ sem_barra (Werkzeug.secure_filename municipio_) = true
  ∧ nome_municipio ≠ EmptyString
  ∧ destino escola_id cpf foto
    = "uploads/" +:+ nome_municipio +:+ "/" +:+ cpf +:+ extensao_de foto
  ∧ Os.components (destino escola_id cpf foto)
    = ["uploads"; nome_municipio; cpf +:+ extensao_de foto]
  ∧ (∀ f d, (salvar_arquivo f escola_id cpf foto d).2 = None
            ∨ (salvar_arquivo f escola_id cpf foto d).2
              = Some (destino escola_id cpf foto)).
Proof.
  intros Hcpf nome_municipio. split_and!.
  - apply secure_filename_chars.
  - apply secure_filename_sem_barra.
  - apply (pasta_segmento (IdStr escola_id)).
  - by apply destino_forma.
  - by apply components_destino.
  - intros f d. unfold salvar_arquivo, destino.
    destruct (if negb _ then _ else _) as [d1|]; [|by left].
    destruct (save f foto d1 _) as [d2 [|]]; [by right | by left].
Qed.

(** C4 at school 103 and a photo named a.b/Retrato.JPEG. *)
Lemma c4_destination_of_photo_witness :
  cpf_valido "12345678901" = true
  ∧ Werkzeug.secure_filename (lit "São João/da Baliza") = "Sao_Joao_da_Baliza"
  ∧ destino "103" "12345678901" {| filename := "a.b/Retrato.JPEG"; stream := "JFIF" |}
    = "uploads/Caracarai/12345678901.jpeg".
Proof.
  assert (Hc : cpf_valido "12345678901" = true) by reflexivity.
  split; [exact Hc|]. split; [reflexivity|].
  destruct (c4_destination_of_photo (lit "São João/da Baliza") "103" "12345678901"
              {| filename := "a.b/Retrato.JPEG"; stream := "JFIF" |} Hc)
    as (_ & _ & _ & -> & _).
  reflexivity.
Defined.

(** ** The check of the cpf *)

(** A cpf that fails the check of the route, [len(cpf) == 11 and
    cpf.isdigit()], is answered 400 with the cpf message, and nothing
    changes. *)
Lemma cpf_invalido_rejeitado (f : Faults) (request : Request) (w : World)
    (nome cpf escola_id : string) (foto : FileStorage) :
  multidict_get (form request) "nome" = Some nome →
  multidict_get (form request) "cpf" = Some cpf →
  multidict_get (form request) "escola_id" = Some escola_id →
  multidict_get (files request) "foto" = Some foto →
  truthy nome = true → truthy cpf = true → truthy escola_id = true →
  truthy (filename foto) = true →
  cpf_valido cpf = false →
  processar_cadastro f request w = (Jsonify [("message", JStr msg_cpf)] 400, w).
Proof.
  intros E1 E2 E3 E4 H1 H2 H3 H4 Hc. unfold processar_cadastro.
  rewrite E1, E2, E3, E4. unfold campos_presentes. simpl.
  by rewrite H1, H2, H3, H4, Hc.
Qed.

(** C5 (defect in the code).  The cpf "1234567890" followed by the
    superscript two (U+00B2) has 11 characters, the last of which is no
    decimal digit; [str.isdigit] accepts it, so the registration is answered
    200, the row is added and the photo is written. *)
Theorem c5_superscript_digit_accepted :
  let cpf := lit "1234567890²" in
  let r := processar_cadastro no_faults
             (pedido "Ana Silva" cpf "101" None "foto.jpg") mundo_vazio in
  String.length cpf = 11%nat
  ∧ str_all is_ascii_digit cpf = false
  ∧ status_of r.1 = 200
  ∧ map Professor.cpf (professores r.2) = [cpf]
  ∧ Os.is_file (disk r.2) ["uploads"; "Boa_Vista"; cpf +:+ ".jpg"] = true.
Proof. vm_compute. repeat split. Qed.

(** ** A failed insert *)

Lemma mkdirs_files (d d1 : gmap (list string) Os.node) (made rest : list string) :
  Os.mkdirs d made rest = Some d1 →
  ∀ k x, d1 !! k = Some (Os.File x) → d !! k = Some (Os.File x).
Proof.
  revert d made. induction rest as [|c rest IH]; intros d made; simpl.
  - by intros [= ->].
  - destruct (d !! (made ++ [c])%list) as [[y|]|] eqn:E; [done|apply IH|].
    intros H k x Hk. specialize (IH _ _ H k x Hk).
    rewrite lookup_insert in IH. by case_decide.
Qed.

Lemma write_file_Some (d d2 : gmap (list string) Os.node) (p data : string) :
  Os.write_file d p data = Some d2 →
  truthy p = true ∧ Os.components p ≠ []
  ∧ d2 = <[Os.components p := Os.File data]> d.
Proof.
  unfold Os.write_file. destruct (Os.components p) as [|c k] eqn:E; [done|].
  destruct (_ && _); [|done]. intros [= <-]. split_and!; [|done..].
  by destruct p.
Qed.

(** What a successful first [try] block did: folders at most, then the
    photo. *)
Lemma salvar_arquivo_Some (f : Faults) (escola_id cpf : string) (foto : FileStorage)
    (d d2 : gmap (list string) Os.node) (caminho : string) :
  salvar_arquivo f escola_id cpf foto d = (d2, Some caminho) →
  ∃ d1, (∀ k x, d1 !! k = Some (Os.File x) → d !! k = Some (Os.File x))
        ∧ Os.write_file d1 caminho (stream foto) = Some d2.
Proof.
  unfold salvar_arquivo.
  destruct (negb (Os.path_exists d _)) eqn:Hex.
  - destruct (Os.makedirs d _) as [d1|] eqn:Hmk; [|done].
    unfold save. destruct (upload_fails f).
    { destruct (upload_written f); [destruct (Os.write_file d1 _ _)|]; done. }
    destruct (Os.write_file d1 _ _) as [d2'|] eqn:Hw; [|done].
    intros [= <- <-]. exists d1. split; [|done].
    unfold Os.makedirs in Hmk. destruct (_ || _); [done|].
    exact (mkdirs_files _ _ _ _ Hmk).
  - unfold save. destruct (upload_fails f).
    { destruct (upload_written f); [destruct (Os.write_file d _ _)|]; done. }
    destruct (Os.write_file d _ _) as [d2'|] eqn:Hw; [|done].
    intros [= <- <-]. by exists d.
Qed.

(** The second [except] block after a successful write. *)
Lemma erro_bd_after_write (d1 d2 : gmap (list string) Os.node)
    (tbl : list Professor.t) (caminho data : string) :
  Os.write_file d1 caminho data = Some d2 →
  erro_bd d2 tbl caminho
  = (Jsonify [("message", JStr msg_interno)] 500,
     {| disk := delete (Os.components caminho) d1; professores := tbl |}).
Proof.
  intros Hw. apply write_file_Some in Hw as (Ht & Hk & ->).
  unfold erro_bd, Os.path_exists, Os.remove, Os.is_file, Os.node_at. rewrite Ht.
  destruct (Os.components caminho) as [|c k]; [done|].
  rewrite lookup_insert_eq. cbn [andb].
  rewrite bool_decide_eq_true_2 by eauto. by rewrite delete_insert_eq.
Qed.

(** C6.  When the photo was written, no row has the cpf, and the insert
    fails (the school id is no integer, or the commit is refused), the
    route answers 500 with the message of a failed registration, the table
    is the one before the request, nothing is left at the photo's
    destination, and every file on disk was there before the request. *)
Theorem c6_failed_insert_rolls_back (f : Faults) (request : Request) (w : World)
    (nome cpf escola_id : string) (foto : FileStorage) (caminho : string) :
  pedido_valido request nome cpf escola_id foto →
  (salvar_arquivo f escola_id cpf foto (disk w)).2 = Some caminho →
  Professor.filter_by_cpf_first (professores w) cpf = None →
  int_of_str escola_id = None ∨ commit_fails f = true →
  let escrito := (salvar_arquivo f escola_id cpf foto (disk w)).1 in
  let r := processar_cadastro f request w in
  Os.is_file escrito (Os.components caminho) = true
  ∧ r.1 = Jsonify [("message", JStr msg_interno)] 500
  ∧ professores r.2 = professores w
  ∧ Os.path_exists (disk r.2) caminho = false
  ∧ (∀ k x, disk r.2 !! k = Some (Os.File x) → disk w !! k = Some (Os.File x)).
Proof.
  intros Hv Hs Hnew Hfail escrito r. subst escrito r. unfold processar_cadastro.
  rewrite (campos_presentes_valido _ _ _ _ _ Hv).
  destruct Hv as (-> & -> & -> & -> & _ & _ & _ & Hc). cbn [negb].
  rewrite Hc. cbn [negb].
  destruct (salvar_arquivo f escola_id cpf foto (disk w)) as [d2 o] eqn:Hsalvar.
  simpl in Hs. subst o. cbn [fst].
  unfold armazenar. rewrite Hnew.
  destruct (salvar_arquivo_Some _ _ _ _ _ _ _ Hsalvar) as (d1 & Hfiles & Hw).
  assert (Hr : match int_of_str escola_id with
               | Some n =>
                   if commit_fails f then erro_bd d2 (professores w) caminho
                   else (Jsonify [("message", JStr msg_sucesso); ("cpf", JStr cpf);
                                  ("nome", JStr nome);
                                  ("nome_escola",
                                   json_of (multidict_get (form request) "nome_escola"))]
                                 200,
                         {| disk := d2;
                            professores :=
                              (professores w
                               ++ [Professor.mk (Professor.next_id (professores w))
                                     nome cpf n caminho])%list |})
               | None => erro_bd d2 (professores w) caminho
               end = erro_bd d2 (professores w) caminho).
  { destruct Hfail as [-> | ->]; [done|]. by destruct (int_of_str escola_id). }
  rewrite Hr, (erro_bd_after_write _ _ _ _ _ Hw). simpl.
  pose proof (write_file_Some _ _ _ _ Hw) as (Ht & Hk & ->).
  split_and!; [|done|done| |].
  - by apply is_file_insert_eq.
  - unfold Os.path_exists. rewrite Ht. simpl.
    apply bool_decide_eq_false_2. unfold Os.node_at.
    destruct (Os.components caminho); [done|].
    rewrite lookup_delete_eq. by intros [? ?].
  - intros k x. rewrite lookup_delete. case_decide; [done|]. apply Hfiles.
Qed.

(** C6 at Ana Silva's registration when the commit is refused. *)
Lemma c6_failed_insert_rolls_back_witness :
  let r := processar_cadastro commit_falha (pedido_ana "foto.jpg") mundo_rui in
  r.1 = Jsonify [("message", JStr msg_interno)] 500
  ∧ professores r.2 = professores mundo_rui
  ∧ Os.path_exists (disk r.2) "uploads/Boa_Vista/12345678901.jpg" = false.
Proof.
  intros r.
  assert (Hv : pedido_valido (pedido_ana "foto.jpg") "Ana Silva" "12345678901" "101"
                 {| filename := "foto.jpg"; stream := "JFIF" |})
    by (vm_compute; repeat split).
  assert (Hs : (salvar_arquivo commit_falha "101" "12345678901"
                  {| filename := "foto.jpg"; stream := "JFIF" |} (disk mundo_rui)).2
               = Some "uploads/Boa_Vista/12345678901.jpg")
    by (vm_compute; reflexivity).
  assert (Hn : Professor.filter_by_cpf_first (professores mundo_rui) "12345678901" = None)
    by (vm_compute; reflexivity).
  destruct (c6_failed_insert_rolls_back commit_falha (pedido_ana "foto.jpg") mundo_rui
              _ _ _ _ _ Hv Hs Hn (or_intror eq_refl)) as (_ & H1 & H2 & H3 & _).
  split; [exact H1 | split; [exact H2 | exact H3]].
Defined.

(** ** Pruning the folder of a municipality *)





(** ** The school directory *)

(** C8, the claim as stated, fails on the values: the two placeholders
    carry the texts of the source, not "Invalid ID", "ID 9999 (not found)"
    and "Unknown". *)
Lemma c8_counterexample :
  get_info_escola (IdStr "abc") ≠ {| nome := "Invalid ID"; municipio := "Unknown" |}
  ∧ get_info_escola (IdStr "9999")
    ≠ {| nome := "ID 9999 (not found)"; municipio := "Unknown" |}
  ∧ get_info_escola (IdInt 9999)
    ≠ {| nome := "ID 9999 (not found)"; municipio := "Unknown" |}.
Proof. split_and!; intros H; vm_compute in H; discriminate H. Qed.

(** C8 (amended).  For every form text or integer, [get_info_escola]
    answers: when the value is no integer, the placeholder with the name
    "ID Inválido" and the municipality "Desconhecido"; when it is an
    integer that the table lacks, the name "ID <n> (Não encontrada)" and
    the municipality "Desconhecido" (an integer of more than 4300 digits,
    which cannot be printed, is answered as no integer); otherwise the
    entry of the table.  In each case the municipality is sanitised to a
    non-empty folder name without separator. *)
Theorem c8_lookup_is_total (escola_id : id_escola) :
  ((int escola_id = None
    ∧ get_info_escola escola_id
      = {| nome := lit "ID Inválido"; municipio := "Desconhecido" |})
   ∨ (∃ n s, int escola_id = Some n ∧ dict_get ESCOLA_MAPA n = None
             ∧ str_of_int n = Some s
             ∧ get_info_escola escola_id
               = {| nome := "ID " +:+ s +:+ lit " (Não encontrada)";
                    municipio := "Desconhecido" |})
   ∨ (∃ n, int escola_id = Some n ∧ dict_get ESCOLA_MAPA n = None
           ∧ str_of_int n = None
           ∧ get_info_escola escola_id
             = {| nome := lit "ID Inválido"; municipio := "Desconhecido" |})
   ∨ (∃ n info, int escola_id = Some n ∧ dict_get ESCOLA_MAPA n = Some info
                ∧ get_info_escola escola_id = info))
  ∧ segmento (Werkzeug.secure_filename (municipio (get_info_escola escola_id))).
Proof.
  split; [|apply pasta_segmento].
  unfold get_info_escola. destruct (int escola_id) as [n|]; [|by left].
  right. destruct (dict_get ESCOLA_MAPA n) as [info|] eqn:E.
  - right. right. by exists n, info.
  - destruct (str_of_int n) as [s|] eqn:Hs.
    + left. by exists n, s.
    + right. left. by exists n.
Qed.

(** ** A school id that is no integer *)

(** C9, the claim as stated, fails: when the cpf is already registered,
    the duplicate check comes first and the answer is 409, not 500. *)
Lemma c9_counterexample :
  let request := pedido "Ana Silva" "12345678901" "abc" None "foto.jpg" in
  int_of_str "abc" = None
  ∧ (∃ nome cpf escola_id foto, pedido_valido request nome cpf escola_id foto)
  ∧ (processar_cadastro no_faults request mundo_ana).1
    = Jsonify [("message", JStr msg_duplicado)] 409.
Proof.
  split_and!; [reflexivity| |by vm_compute].
  exists "Ana Silva", "12345678901", "abc", {| filename := "foto.jpg"; stream := "JFIF" |}.
  vm_compute. repeat split.
Qed.

(** C9 (amended).  On a disk with the shape of the upload tree, a valid
    request whose school id is no integer, whose cpf is not in the table
    and whose photo write is not refused passes the validation; the photo
    is first written to uploads/Desconhecido/<cpf><extension>; the integer
    conversion of the school id then fails and the route answers 500 with
    the message of a failed registration; afterwards the table is
    unchanged, nothing is at that place, and every file on disk was there
    before the request. *)
Theorem c9_non_integer_school_id (f : Faults) (request : Request) (w : World)
    (nome cpf escola_id : string) (foto : FileStorage) :
  arvore (disk w) →
  pedido_valido request nome cpf escola_id foto →
  int_of_str escola_id = None →
  upload_fails f = false →
  Professor.filter_by_cpf_first (professores w) cpf = None →
  let caminho := "uploads/Desconhecido/" +:+ cpf +:+ extensao_de foto in
  let chave := ["uploads"; "Desconhecido"; cpf +:+ extensao_de foto] in
  let escrito := salvar_arquivo f escola_id cpf foto (disk w) in
  let r := processar_cadastro f request w in
  escrito.2 = Some caminho
  ∧ Os.components caminho = chave
  ∧ escrito.1 !! chave = Some (Os.File (stream foto))
  ∧ r.1 = Jsonify [("message", JStr msg_interno)] 500
  ∧ professores r.2 = professores w
  ∧ Os.path_exists (disk r.2) caminho = false
  ∧ (∀ k x, disk r.2 !! k = Some (Os.File x) → disk w !! k = Some (Os.File x)).
Proof.
  intros Hd Hv Hint Hup Hnew caminho chave escrito r. subst escrito r.
  pose proof Hv as (_ & _ & _ & _ & _ & _ & _ & Hcpf).
  assert (Hm : nome_municipio_de escola_id = "Desconhecido").
  { unfold nome_municipio_de, get_info_escola. simpl. by rewrite Hint. }
  assert (Hdest : destino escola_id cpf foto = caminho).
  { rewrite destino_forma by done. by rewrite Hm. }
  assert (Hkey : chave_foto escola_id cpf foto = chave).
  { unfold chave_foto. by rewrite Hm. }
  rewrite (processar_cadastro_valido f request w _ _ _ _ Hv Hd). cbv zeta.
  rewrite salvar_arquivo_spec by done. cbv zeta.
  rewrite Hup, armazenar_spec by done. cbv zeta. rewrite Hnew, Hint, Hdest, Hkey, Hm.
  cbn [fst snd disk professores].
  split_and!; [done| |by rewrite lookup_insert_eq|done|done| |].
  - rewrite <- Hdest, <- Hkey. by apply components_destino.
  - rewrite <- Hdest, path_exists_destino, Hkey by done.
    rewrite lookup_delete_eq. apply bool_decide_eq_false_2. by intros [? ?].
  - intros k x. rewrite lookup_delete. case_decide; [done|].
    unfold com_pasta. rewrite !lookup_insert.
    repeat case_decide; done.
Qed.

(** C9 (amended) at Ana Silva's registration with the school id "abc". *)
Lemma c9_non_integer_school_id_witness :
  let request := pedido "Ana Silva" "12345678901" "abc" None "foto.jpg" in
  let r := processar_cadastro no_faults request mundo_rui in
  int_of_str "abc" = None
  ∧ r.1 = Jsonify [("message", JStr msg_interno)] 500
  ∧ professores r.2 = professores mundo_rui
  ∧ Os.path_exists (disk r.2) "uploads/Desconhecido/12345678901.jpg" = false.
Proof.
  intros request r.
  assert (Hd : arvore (disk mundo_rui)).
  { apply (est_arvore _ (estrutura_run
             [Register no_faults (pedido "Rui Costa" "10987654321" "104" None "r.jpg")]
             mundo_vazio estrutura_vazio)). }
  assert (Hv : pedido_valido request "Ana Silva" "12345678901" "abc"
                 {| filename := "foto.jpg"; stream := "JFIF" |})
    by (vm_compute; repeat split).
  assert (Hn : Professor.filter_by_cpf_first (professores mundo_rui) "12345678901" = None)
    by (vm_compute; reflexivity).
  destruct (c9_non_integer_school_id no_faults request mundo_rui _ _ _ _
              Hd Hv eq_refl eq_refl Hn) as (_ & _ & _ & H1 & H2 & H3 & _).
  split; [reflexivity | split; [exact H1 | split; [exact H2 | exact H3]]].
Defined.

(** ** The school name of the response *)

Lemma multidict_get_sem_campo (key k : string) (m : list (string * string)) :
  multidict_get (sem_campo key m) k
  = if String.eqb k key then None else multidict_get m k.
Proof.
  induction m as [|[k' v] m IH]; simpl; [by destruct (String.eqb k key)|].
  destruct (String.eqb_spec k' key) as [->|Hne]; simpl.
  - rewrite IH. destruct (String.eqb_spec k key) as [->|Hk]; [done|].
    destruct (String.eqb_spec key k); congruence.
  - rewrite IH. destruct (String.eqb_spec k' k) as [->|Hk'].
    + by destruct (String.eqb_spec k key).
    + done.
Qed.

Lemma form_com_nome_escola (x : option string) (request : Request) (k : string) :
  multidict_get (form (com_nome_escola x request)) k
  = if String.eqb k "nome_escola" then x else multidict_get (form request) k.
Proof.
  unfold com_nome_escola. destruct x as [s|]; cbn [form multidict_get].
  - rewrite multidict_get_sem_campo. rewrite (String.eqb_sym "nome_escola" k).
    by destruct (String.eqb k "nome_escola").
  - rewrite multidict_get_sem_campo. by destruct (String.eqb k "nome_escola").
Qed.

(** C10.  Replacing the school-name field of a request by any text, or
    dropping it, changes neither the status of the answer nor the resulting
    state; and when the answer is 200 its "nome_escola" is that text as it
    was sent, or null when the field was dropped. *)
Theorem c10_school_name_is_echoed (f : Faults) (request : Request) (w : World)
    (x : option string) :
  let r := processar_cadastro f request w in
  let r' := processar_cadastro f (com_nome_escola x request) w in
  status_of r'.1 = status_of r.1
  ∧ r'.2 = r.2
  ∧ (status_of r'.1 = 200 → campo r'.1 "nome_escola" = Some (json_of x)).
Proof.
  intros r r'. subst r r'. unfold processar_cadastro.
  rewrite !form_com_nome_escola. cbn [String.eqb Ascii.eqb Bool.eqb].
  change (files (com_nome_escola x request)) with (files request).
  destruct (campos_presentes _ _ _ _); [|by split_and!]. cbn [negb].
  destruct (multidict_get (form request) "nome") as [nome|]; [|by split_and!].
  destruct (multidict_get (form request) "cpf") as [cpf|]; [|by split_and!].
  destruct (multidict_get (form request) "escola_id") as [esc|]; [|by split_and!].
  destruct (multidict_get (files request) "foto") as [foto|]; [|by split_and!].
  destruct (cpf_valido cpf); [|by split_and!]. cbn [negb].
  destruct (salvar_arquivo f esc cpf foto (disk w)) as [d [caminho|]]; [|by split_and!].
  unfold armazenar, erro_bd.
  destruct (Professor.filter_by_cpf_first (professores w) cpf).
  { repeat (match goal with |- context [if ?b then _ else _] => destruct b end);
    repeat (match goal with |- context [match ?o with Some _ => _ | None => _ end] =>
                              destruct o end); by split_and!. }
  destruct (int_of_str esc) as [n|].
  2:{ repeat (match goal with |- context [if ?b then _ else _] => destruct b end);
      repeat (match goal with |- context [match ?o with Some _ => _ | None => _ end] =>
                                destruct o end); by split_and!. }
  destruct (commit_fails f).
  { repeat (match goal with |- context [if ?b then _ else _] => destruct b end);
    repeat (match goal with |- context [match ?o with Some _ => _ | None => _ end] =>
                              destruct o end); by split_and!. }
  by split_and!.
Qed.

(** C10 at Ana Silva's registration: without the field the answer carries
    null, and a name that is not the one of school 101 comes back as
    sent. *)
Lemma c10_school_name_is_echoed_witness :
  campo (processar_cadastro no_faults (com_nome_escola None (pedido_ana "foto.jpg"))
                            mundo_vazio).1 "nome_escola" = Some JNull
  ∧ campo (processar_cadastro no_faults
             (com_nome_escola (Some "Escola Que Nao Existe") (pedido_ana "foto.jpg"))
             mundo_vazio).1 "nome_escola" = Some (JStr "Escola Que Nao Existe").
Proof.
  split.
  - apply (c10_school_name_is_echoed no_faults (pedido_ana "foto.jpg") mundo_vazio None).
    vm_compute. reflexivity.
  - apply (c10_school_name_is_echoed no_faults (pedido_ana "foto.jpg") mundo_vazio
             (Some "Escola Que Nao Existe")).
    vm_compute. reflexivity.
Defined.

(** * Further properties of the routes *)

(** ** Shared facts *)

Module MoreFacts.
Import Py PyFacts PathFacts DiskFacts RouteFacts Invariants.

(** The outcomes of a registration on a well-shaped disk: nothing changes
    in the table and the disk gains at most folders and loses at most the
    destination, or keeps what a refused write left there; or one row is
    appended and its photo is written. *)
Lemma processar_cadastro_casos (f : Faults) (request : Request) (w : World) :
  arvore (disk w) →
  let r := processar_cadastro f request w in
  r.2 = w
  ∨ (∃ nome cpf escola_id foto,
       pedido_valido request nome cpf escola_id foto
       ∧ let d1 := com_pasta (disk w) (nome_municipio_de escola_id) in
         let k := chave_foto escola_id cpf foto in
         (professores r.2 = professores w
          ∧ (disk r.2 = d1 ∨ disk r.2 = delete k d1
             ∨ (upload_fails f = true ∧ disk r.2 = resto_upload f k foto d1)))
         ∨ (∃ n, int_of_str escola_id = Some n
                 ∧ Professor.filter_by_cpf_first (professores w) cpf = None
                 ∧ upload_fails f = false ∧ commit_fails f = false
                 ∧ r.1 = Jsonify [("message", JStr msg_sucesso); ("cpf", JStr cpf);
                                  ("nome", JStr nome);
                                  ("nome_escola",
                                   json_of (multidict_get (form request) "nome_escola"))]
                                 200
                 ∧ disk r.2 = <[k := Os.File (stream foto)]> d1
                 ∧ professores r.2
                   = (professores w
                      ++ [Professor.mk (Professor.next_id (professores w)) nome cpf n
                                       (destino escola_id cpf foto)])%list)).
Proof.
  intros Hd r. subst r.
  destruct (pedido_valido_dec request) as [(nome & cpf & esc & foto & Hv)|Hno].
  2:{ left. apply (processar_cadastro_invalido f request w Hno). }
  right. exists nome, cpf, esc, foto. split; [done|].
  rewrite (processar_cadastro_valido f request w _ _ _ _ Hv Hd). cbv zeta.
  pose proof Hv as (_ & _ & _ & _ & _ & _ & _ & Hcpf).
  destruct (upload_fails f) eqn:Hup; [left; simpl; auto|].
  rewrite armazenar_spec by done. cbv zeta.
  destruct (Professor.filter_by_cpf_first (professores w) cpf) eqn:Hdup;
    [left; simpl; auto|].
  destruct (int_of_str esc) as [n|] eqn:Hint; [|left; simpl; auto].
  destruct (commit_fails f) eqn:Hcommit; [left; simpl; auto|].
  right. exists n. by split_and!.
Qed.

(** A deletion of a photo only removes entries. *)
Lemma apagar_foto_subset (d : gmap (list string) Os.node) (p : string)
    (k : list string) (n : Os.node) :
  apagar_foto d p !! k = Some n → d !! k = Some n.
Proof.
  unfold apagar_foto. destruct (Os.path_exists d p); [|done].
  unfold Os.remove. destruct (_ && _); [|done].
  assert (Hdel : ∀ k0, delete k0 d !! k = Some n → d !! k = Some n).
  { intros k0. rewrite lookup_delete. by case_decide. }
  destruct (Os.listdir _ _) as [[|e es]|]; [|apply Hdel..].
  unfold Os.rmdir. destruct (Os.components (OsPath.dirname p)); [apply Hdel|].
  destruct (_ && _); [|apply Hdel].
  rewrite lookup_delete. case_decide; [done|apply Hdel].
Qed.

Lemma run_snoc (ops : list Op) (op : Op) (w : World) :
  run (ops ++ [op]) w = run_op (run ops w) op.
Proof. unfold run. by rewrite fold_left_app. Qed.

(** A property of the empty state that every request preserves, together
    with the structure, holds in every reachable state. *)
Lemma run_ind (P : World → Prop) :
  P mundo_vazio →
  (∀ w op, estrutura w → P w → P (run_op w op)) →
  ∀ ops, P (run ops mundo_vazio).
Proof.
  intros H0 Hstep ops. induction ops as [|op ops IH] using rev_ind; [done|].
  rewrite run_snoc. apply Hstep; [|done]. apply estrutura_run, estrutura_vazio.
Qed.

(** Keys of rows. *)
Lemma id_le_max (tbl : list Professor.t) (r : Professor.t) :
  r ∈ tbl → Professor.id r ≤ fold_right Z.max 0 (map Professor.id tbl).
Proof.
  induction tbl as [|x tbl IH]; simpl; [by rewrite elem_of_nil|].
  rewrite elem_of_cons. intros [->|Hr]; [lia|]. specialize (IH Hr). lia.
Qed.

Lemma id_lt_next_id (tbl : list Professor.t) (r : Professor.t) :
  r ∈ tbl → Professor.id r < Professor.next_id tbl.
Proof. intros Hr. unfold Professor.next_id. pose proof (id_le_max tbl r Hr). lia. Qed.

Lemma next_id_pos (tbl : list Professor.t) : 1 ≤ Professor.next_id tbl.
Proof.
  unfold Professor.next_id.
  assert (0 ≤ fold_right Z.max 0 (map Professor.id tbl)); [|lia].
  induction tbl; simpl; lia.
Qed.

End MoreFacts.

(** ** Invariants of the reachable states *)

Module ReachFacts.
Import Py PyFacts PathFacts DiskFacts RouteFacts Invariants MoreFacts.

Lemma ids_ok_step (w : World) (op : Op) :
  estrutura w → ids_ok w → ids_ok (run_op w op).
Proof.
  intros Hw [Hnd Hpos]. unfold ids_ok. destruct op as [f request|f i]; simpl.
  - destruct (processar_cadastro_casos f request w (est_arvore w Hw))
      as [->|(nome & cpf & esc & foto & _ & [[-> _]|(n & _ & _ & _ & _ & _ & _ & ->)])];
      [by split..|].
    split.
    + rewrite map_app. simpl. apply NoDup_app. split_and!; [done| |apply NoDup_singleton].
      intros i Hi. rewrite list_elem_of_singleton. intros ->.
      apply list_elem_of_In, in_map_iff in Hi as (r & Hid & Hr).
      apply list_elem_of_In, id_lt_next_id in Hr. lia.
    + intros r. rewrite elem_of_app, list_elem_of_singleton. intros [Hr| ->]; [auto|].
      simpl. apply next_id_pos.
  - unfold excluir_professor.
    destruct (Professor.get (professores w) i) as [r|]; [|by split].
    destruct (commit_fails f); [by split|]. split; simpl.
    + by apply NoDup_map_filter.
    + intros r'. rewrite elem_of_delete. intros [Hr' _]. auto.
Qed.

Lemma ids_ok_run (ops : list Op) : ids_ok (run ops mundo_vazio).
Proof.
  apply run_ind; [|apply ids_ok_step].
  split; [constructor|]. intros r Hr. by apply elem_of_nil in Hr.
Qed.

Lemma pastas_nome_municipio (escola_id : string) : nome_municipio_de escola_id ∈ pastas.
Proof.
  unfold pastas, nome_municipio_de. apply list_elem_of_fmap_2.
  apply get_info_escola_municipio.
Qed.

Lemma pastas_conhecidas_com_pasta (d : gmap (list string) Os.node) (escola_id : string) :
  pastas_conhecidas d → pastas_conhecidas (com_pasta d (nome_municipio_de escola_id)).
Proof.
  intros Hd m n. unfold com_pasta. rewrite lookup_insert. case_decide as E.
  - injection E as <-. intros _. apply pastas_nome_municipio.
  - rewrite lookup_insert_ne by done. apply Hd.
Qed.

Lemma linhas_pastas_run (ops : list Op) :
  linhas_validas (run ops mundo_vazio) ∧ pastas_conhecidas (disk (run ops mundo_vazio)).
Proof.
  apply (run_ind (λ w, linhas_validas w ∧ pastas_conhecidas (disk w))).
  - split; [intros r Hr; by apply elem_of_nil in Hr|].
    intros m n H. simpl in H. by rewrite lookup_empty in H.
  - intros w op Hw [Hl Hp]. destruct op as [f request|f i]; simpl.
    + destruct (processar_cadastro_casos f request w (est_arvore w Hw))
        as [->|(nome & cpf & esc & foto & Hv & Hcases)]; [by split|].
      pose proof Hv as (_ & _ & _ & _ & _ & _ & _ & Hcpf).
      pose proof (pastas_conhecidas_com_pasta _ esc Hp) as Hp1.
      assert (Hp2 : pastas_conhecidas
                      (delete (chave_foto esc cpf foto)
                              (com_pasta (disk w) (nome_municipio_de esc)))).
      { intros m n. rewrite lookup_delete_ne by done. apply Hp1. }
      destruct Hcases as [[Hrows Hdisk]|(n & _ & _ & _ & _ & _ & Hdisk & Hrows)].
      * split; [unfold linhas_validas; by rewrite Hrows|].
        destruct Hdisk as [-> | [-> | [_ ->]]]; [done..|].
        unfold resto_upload. destruct (upload_written f); [|done].
        intros m n'. rewrite lookup_insert_ne by done. apply Hp1.
      * split.
        -- unfold linhas_validas. rewrite Hrows.
           intros r. rewrite elem_of_app, list_elem_of_singleton.
           intros [Hr| ->]; [auto|]. simpl. split; [done|]. by exists esc, foto.
        -- rewrite Hdisk. intros m n'. rewrite lookup_insert_ne by done. apply Hp1.
    + unfold excluir_professor.
      destruct (Professor.get (professores w) i) as [r|]; [|by split].
      assert (Hp' : pastas_conhecidas (apagar_foto (disk w) (Professor.caminho_foto r))).
      { intros m n Hm. apply apagar_foto_subset in Hm. by apply (Hp m n). }
      destruct (commit_fails f); (split; [|done]); [done|].
      unfold linhas_validas. simpl.
      intros r'. rewrite elem_of_delete. intros [Hr' _]. auto.
Qed.

End ReachFacts.

Import MoreFacts ReachFacts.

(** X1.  In every state reached from the empty one, whatever failed on
    the way, no two rows have the same cpf, and every stored cpf passes
    the check of the registration (11 characters, [isdigit]). *)
Theorem x_cpf_unique_and_checked (ops : list Op) :
  let w := run ops mundo_vazio in
  NoDup (map Professor.cpf (professores w))
  ∧ ∀ r, r ∈ professores w → cpf_valido (Professor.cpf r) = true.
Proof.
  intros w. split.
  - apply est_cpfs, estrutura_run, estrutura_vazio.
  - intros r Hr. by apply (proj1 (linhas_pastas_run ops) r Hr).
Qed.

(** X2.  In every reachable state the keys of the rows are distinct and
    positive, and the key that the next row would get is larger than all
    of them. *)
Theorem x_ids_unique (ops : list Op) :
  let w := run ops mundo_vazio in
  NoDup (map Professor.id (professores w))
  ∧ ∀ r, r ∈ professores w →
         1 ≤ Professor.id r < Professor.next_id (professores w).
Proof.
  intros w. destruct (ids_ok_run ops) as [Hnd Hpos]. split; [done|].
  intros r Hr. split; [by apply Hpos | by apply id_lt_next_id].
Qed.

(** X3.  In every reachable state the disk holds nothing but the upload
    folder, folders of municipalities directly under it (one of Boa_Vista,
    Caracarai, Rorainopolis, Canta, Pacaraima, Desconhecido) and regular
    files directly under those; and every row stores the path
    uploads/<such a folder>/<its cpf><extension>, the extension without
    separator. *)
Theorem x_upload_tree_layout (ops : list Op) :
  let w := run ops mundo_vazio in
  pastas = ["Boa_Vista"; "Caracarai"; "Rorainopolis"; "Canta"; "Pacaraima";
            "Desconhecido"]
  ∧ (∀ k n, disk w !! k = Some n →
       (k = ["uploads"] ∧ n = Os.Dir)
       ∨ (∃ m, k = ["uploads"; m] ∧ m ∈ pastas ∧ n = Os.Dir)
       ∨ (∃ m a x, k = ["uploads"; m; a] ∧ n = Os.File x
                   ∧ disk w !! ["uploads"; m] = Some Os.Dir))
  ∧ (∀ r, r ∈ professores w →
       ∃ m ext, m ∈ pastas ∧ sem_barra ext = true
                ∧ Professor.caminho_foto r
                  = "uploads/" +:+ m +:+ "/" +:+ Professor.cpf r +:+ ext
                ∧ Os.components (Professor.caminho_foto r)
                  = ["uploads"; m; Professor.cpf r +:+ ext]).
Proof.
  intros w. destruct (linhas_pastas_run ops) as [Hl Hp]. fold w in Hl, Hp.
  assert (Hw : estrutura w) by apply estrutura_run, estrutura_vazio.
  split_and!; [reflexivity| |].
  - intros k n Hk. pose proof (est_arvore w Hw k n Hk) as Hs.
    destruct k as [|u [|m [|a [|? ?]]]]; try done.
    + left. by destruct Hs as [-> ->].
    + right. left. destruct Hs as (-> & -> & _). exists m. split_and!; [done| |done].
      by apply (Hp m Os.Dir).
    + right. right. destruct Hs as (-> & [x ->] & Hm). by exists m, a, x.
  - intros r Hr. destruct (Hl r Hr) as (Hcpf & esc & foto & Hpath).
    exists (nome_municipio_de esc), (extensao_de foto). split_and!.
    + apply pastas_nome_municipio.
    + apply extensao_sem_barra.
    + rewrite Hpath. by apply destino_forma.
    + rewrite Hpath. by apply components_destino.
Qed.

(** ** Validation and the failure of the upload *)

(** X4.  The route answers 400 exactly when a required field is missing
    or empty or the cpf fails the check; in that case the state is left
    as it was, whatever the environment would have refused. *)
Theorem x_rejected_exactly_when_not_accepted (f : Faults) (request : Request)
    (w : World) :
  let r := processar_cadastro f request w in
  (status_of r.1 = 400 ↔ pedido_aceito request = false)
  ∧ (pedido_aceito request = false →
     r.2 = w ∧ ∀ f', processar_cadastro f' request w = r).
Proof.
  intros r. subst r. unfold processar_cadastro, pedido_aceito.
  destruct (campos_presentes _ _ _ _) eqn:Hc; cbn [negb andb]; [|by split_and!].
  destruct (multidict_get (form request) "nome") as [nome|];
    [|unfold campos_presentes in Hc; simpl in Hc; discriminate].
  destruct (multidict_get (form request) "cpf") as [cpf|];
    [|unfold campos_presentes in Hc; simpl in Hc;
      rewrite ?andb_false_r in Hc; discriminate].
  destruct (multidict_get (form request) "escola_id") as [esc|];
    [|unfold campos_presentes in Hc; simpl in Hc;
      rewrite ?andb_false_r in Hc; discriminate].
  destruct (multidict_get (files request) "foto") as [foto|];
    [|unfold campos_presentes in Hc; simpl in Hc;
      rewrite ?andb_false_r in Hc; discriminate].
  destruct (cpf_valido cpf); cbn [negb]; [|by split_and!].
  split; [|done]. split; [|done]. intros H. exfalso. revert H.
  destruct (salvar_arquivo f esc cpf foto (disk w)) as [d [caminho|]]; [|done].
  unfold armazenar, erro_bd.
  repeat (match goal with
          | |- context [match ?o with Some _ => _ | None => _ end] => destruct o
          | |- context [if ?b then _ else _] => destruct b
          end); done.
Qed.

(** The regular files of a disk are those it had before the folder of a
    municipality was made. *)
Lemma com_pasta_files (d : gmap (list string) Os.node) (m : string)
    (k : list string) (x : string) :
  arvore d →
  com_pasta d m !! k = Some (Os.File x) ↔ d !! k = Some (Os.File x).
Proof.
  intros Hd. unfold com_pasta. split.
  - rewrite !lookup_insert. by repeat case_decide.
  - intros Hk. pose proof (Hd _ _ Hk) as Hs.
    destruct k as [|? [|? [|? [|? ?]]]]; try done;
      [by destruct Hs | by destruct Hs as (_ & ? & _)|].
    by rewrite !lookup_insert_ne.
Qed.

(** X5.  On a disk with the shape of the upload tree, when the photo
    write is refused a valid request is answered 500 with the upload
    message and no row is added; every regular file other than the
    destination is as it was.  When [open] itself was refused, the disk is
    the one before with the folder of the municipality.  When the write was
    refused after the destination was opened, that disk holds at the
    destination a file with the bytes copied so far, a prefix of the photo,
    whatever was there before: the route removes nothing after a failed
    save. *)
Theorem x_refused_upload_leaves_partial_file (f : Faults) (request : Request)
    (w : World) (nome cpf escola_id : string) (foto : FileStorage) :
  pedido_valido request nome cpf escola_id foto →
  arvore (disk w) →
  upload_fails f = true →
  let r := processar_cadastro f request w in
  let k := chave_foto escola_id cpf foto in
  let d1 := com_pasta (disk w) (nome_municipio_de escola_id) in
  r.1 = Jsonify [("message", JStr msg_upload)] 500
  ∧ professores r.2 = professores w
  ∧ Os.components (destino escola_id cpf foto) = k
  ∧ (∀ k' x, k' ≠ k →
       disk r.2 !! k' = Some (Os.File x) ↔ disk w !! k' = Some (Os.File x))
  ∧ (upload_written f = None → disk r.2 = d1)
  ∧ (∀ n, upload_written f = Some n →
       disk r.2 = <[k := Os.File (str_take n (stream foto))]> d1
       ∧ Os.is_file (disk r.2) k = true
       ∧ str_take n (stream foto) +:+ str_drop n (stream foto) = stream foto).
Proof.
  intros Hv Hd Hup r k d1. subst r.
  rewrite (processar_cadastro_valido f request w _ _ _ _ Hv Hd). cbv zeta.
  rewrite Hup. simpl.
  pose proof Hv as (_ & _ & _ & _ & _ & _ & _ & Hcpf).
  split_and!; [done|done|by apply components_destino| | |].
  - intros k' x Hne. unfold resto_upload.
    destruct (upload_written f); [rewrite lookup_insert_ne by done|];
      by apply com_pasta_files.
  - intros Hn. unfold resto_upload. by rewrite Hn.
  - intros n Hn. unfold resto_upload. rewrite Hn. split_and!; [done| |].
    + by apply is_file_insert_eq.
    + apply str_take_drop.
Qed.

(** X5 at Ana Silva's registration after Rui Costa's: the write refused
    after two bytes leaves the file uploads/Boa_Vista/12345678901.jpg with
    these two bytes and no row for it; a refused [open] leaves the folder
    and no file. *)
Lemma x_refused_upload_leaves_partial_file_witness :
  let r := processar_cadastro upload_falha (pedido_ana "foto.jpg") mundo_rui in
  let r' := processar_cadastro open_falha (pedido_ana "foto.jpg") mundo_rui in
  r.1 = Jsonify [("message", JStr msg_upload)] 500
  ∧ professores r.2 = professores mundo_rui
  ∧ disk r.2 !! ["uploads"; "Boa_Vista"; "12345678901.jpg"] = Some (Os.File "JF")
  ∧ map Professor.cpf (professores r.2) = ["10987654321"]
  ∧ disk r'.2 !! ["uploads"; "Boa_Vista"] = Some Os.Dir
  ∧ disk r'.2 !! ["uploads"; "Boa_Vista"; "12345678901.jpg"] = None.
Proof.
  intros r r'.
  assert (Hv : pedido_valido (pedido_ana "foto.jpg") "Ana Silva" "12345678901" "101"
                 {| filename := "foto.jpg"; stream := "JFIF" |})
    by (vm_compute; repeat split).
  assert (Hd : arvore (disk mundo_rui)).
  { apply est_arvore. unfold mundo_rui. apply estrutura_run, estrutura_vazio. }
  assert (Hup : upload_fails upload_falha = true) by reflexivity.
  destruct (x_refused_upload_leaves_partial_file upload_falha (pedido_ana "foto.jpg")
              mundo_rui _ _ _ _ Hv Hd Hup) as (H1 & H2 & _ & _ & _ & H3).
  split; [exact H1|]. split; [exact H2|].
  split; [|split; [vm_compute; reflexivity|]].
  - destruct (H3 2%nat eq_refl) as (H4 & _ & _).
    fold r in H4. rewrite H4. apply lookup_insert_eq.
  - assert (Hup' : upload_fails open_falha = true) by reflexivity.
    destruct (x_refused_upload_leaves_partial_file open_falha (pedido_ana "foto.jpg")
                mundo_rui _ _ _ _ Hv Hd Hup') as (_ & _ & _ & _ & H5 & _).
    fold r' in H5. rewrite (H5 eq_refl). split; vm_compute; reflexivity.
Defined.

(** ** A registration that succeeds *)

(** X6.  On a disk with the shape of the upload tree, a valid request
    whose school id is an integer and whose cpf is not in the table, when
    nothing is refused, is answered 200 with the cpf, the name and the
    school-name field as sent; one row is appended with the next key, that
    integer as school and the destination as path; the disk is the one
    before with the folder of the municipality and the photo's bytes at the
    destination.  A school id outside the table is registered in the same
    way, under the folder Desconhecido. *)
Theorem x_registration_succeeds (f : Faults) (request : Request) (w : World)
    (nome cpf escola_id : string) (foto : FileStorage) (n : Z) :
  arvore (disk w) →
  pedido_valido request nome cpf escola_id foto →
  int_of_str escola_id = Some n →
  Professor.filter_by_cpf_first (professores w) cpf = None →
  upload_fails f = false → commit_fails f = false →
  let r := processar_cadastro f request w in
  let caminho := destino escola_id cpf foto in
  r.1 = Jsonify [("message", JStr msg_sucesso); ("cpf", JStr cpf); ("nome", JStr nome);
                 ("nome_escola", json_of (multidict_get (form request) "nome_escola"))]
                200
  ∧ professores r.2
    = (professores w
       ++ [Professor.mk (Professor.next_id (professores w)) nome cpf n caminho])%list
  ∧ disk r.2
    = <[chave_foto escola_id cpf foto := Os.File (stream foto)]>
        (com_pasta (disk w) (nome_municipio_de escola_id))
  ∧ Os.components caminho = chave_foto escola_id cpf foto
  ∧ (dict_get ESCOLA_MAPA n = None → nome_municipio_de escola_id = "Desconhecido").
Proof.
  intros Hd Hv Hint Hnew Hup Hcommit r caminho. subst r caminho.
  pose proof Hv as (_ & _ & _ & _ & _ & _ & _ & Hcpf).
  rewrite (processar_cadastro_valido f request w _ _ _ _ Hv Hd). cbv zeta.
  rewrite Hup, armazenar_spec by done. cbv zeta. rewrite Hnew, Hint, Hcommit.
  split_and!; [done|done|done|by apply components_destino|].
  intros Hnone. unfold nome_municipio_de, get_info_escola, int.
  rewrite Hint, Hnone. by destruct (str_of_int n).
Qed.

(** X6 at a registration with the school id 9999, which the table lacks. *)
Lemma x_registration_succeeds_witness :
  let r := processar_cadastro no_faults
             (pedido "Rui Costa" "10987654321" "9999" (Some "Escola Nova") "r.JPG")
             mundo_ana in
  status_of r.1 = 200
  ∧ map Professor.caminho_foto (professores r.2)
    = ["uploads/Boa_Vista/12345678901.jpg"; "uploads/Desconhecido/10987654321.jpg"].
Proof.
  intros r.
  assert (Hd : arvore (disk mundo_ana)).
  { apply (est_arvore _ (estrutura_run [Register no_faults (pedido_ana "foto.jpg")]
                                       mundo_vazio estrutura_vazio)). }
  assert (Hv : pedido_valido
                 (pedido "Rui Costa" "10987654321" "9999" (Some "Escola Nova") "r.JPG")
                 "Rui Costa" "10987654321" "9999"
                 {| filename := "r.JPG"; stream := "JFIF" |})
    by (vm_compute; repeat split).
  assert (Hn : Professor.filter_by_cpf_first (professores mundo_ana) "10987654321" = None)
    by (vm_compute; reflexivity).
  assert (Hi : int_of_str "9999" = Some 9999) by (vm_compute; reflexivity).
  destruct (x_registration_succeeds no_faults _ mundo_ana _ _ _ _ 9999
              Hd Hv Hi Hn eq_refl eq_refl) as (H1 & H2 & _).
  split; [subst r; by rewrite H1|]. subst r. rewrite H2. vm_compute. reflexivity.
Defined.

(** ** Deletion *)


Lemma length_delete (tbl : list Professor.t) (r : Professor.t) :
  NoDup (map Professor.id tbl) → r ∈ tbl →
  (length (Professor.delete tbl r) + 1 = length tbl)%nat.
Proof.
  unfold Professor.delete.
  induction tbl as [|x tbl IH]; simpl; [by rewrite elem_of_nil|].
  rewrite NoDup_cons, elem_of_cons. intros [Hx Hnd] [->|Hr].
  - rewrite Z.eqb_refl. simpl.
    assert (Hall : List.filter (λ r', negb (Professor.id r' =? Professor.id x)) tbl = tbl).
    { apply forallb_filter_id, forallb_forall. intros y Hy.
      apply negb_true_iff, Z.eqb_neq. intros E. apply Hx. rewrite <- E.
      apply list_elem_of_In, in_map. done. }
    rewrite Hall. lia.
  - destruct (Professor.id x =? Professor.id r) eqn:E; simpl.
    + exfalso. apply Z.eqb_eq in E. apply Hx. rewrite E.
      by apply list_elem_of_In, in_map, list_elem_of_In.
    + specialize (IH Hnd Hr). lia.
Qed.



(** X8.  In a reachable state, the deletion of an existing row whose
    commit succeeds redirects to the listing and removes that row and no
    other: the table is one row shorter and keeps exactly the rows other
    than the deleted one.  When the commit fails the answer is 500 and the
    table is unchanged. *)
Theorem x_delete_removes_one_row (ops : list Op) (f : Faults) (professor_id : Z)
    (r : Professor.t) :
  let w := run ops mundo_vazio in
  Professor.get (professores w) professor_id = Some r →
  let res := excluir_professor f professor_id w in
  if commit_fails f
  then res.1 = Text "Erro interno ao deletar o cadastro." 500
       ∧ professores res.2 = professores w
  else res.1 = Redirect "listar_professores"
       ∧ (length (professores res.2) + 1 = length (professores w))%nat
       ∧ (∀ r', r' ∈ professores res.2 ↔ r' ∈ professores w ∧ r' ≠ r).
Proof.
  intros w Hg res. subst res. unfold excluir_professor. rewrite Hg.
  destruct (ids_ok_run ops) as [Hnd _]. fold w in Hnd.
  apply get_Some in Hg as [Hin _].
  destruct (commit_fails f); simpl; [done|]. split_and!; [done| |].
  - by apply length_delete.
  - intros r'. rewrite elem_of_delete. split.
    + intros [Hr' Hid]. split; [done|]. by intros ->.
    + intros [Hr' Hne]. split; [done|]. intros E. apply Hne.
      by apply (NoDup_map_inj Professor.id (professores w)).
Qed.

(** X8 at the deletion of Ana Silva while Bia Lima is registered. *)
Lemma x_delete_removes_one_row_witness :
  let res := excluir_professor no_faults 1 mundo_ana_bia in
  res.1 = Redirect "listar_professores"
  ∧ map Professor.nome (professores res.2) = ["Bia Lima"].
Proof.
  intros res.
  pose (ana := Professor.mk 1 "Ana Silva" "12345678901" 101
                            "uploads/Boa_Vista/12345678901.jpg").
  assert (G : Professor.get (professores mundo_ana_bia) 1 = Some ana)
    by (vm_compute; reflexivity).
  pose proof (x_delete_removes_one_row
                [Register no_faults (pedido_ana "foto.jpg");
                 Register no_faults (pedido "Bia Lima" "11122233344" "106" None "bia.png")]
                no_faults 1 ana G) as H.
  cbv beta zeta iota delta [commit_fails no_faults] in H.
  destruct H as (H1 & _). split; [exact H1|]. vm_compute. reflexivity.
Defined.

(** ** Registration followed by deletion *)

Lemma get_app_new (tbl : list Professor.t) (novo : Professor.t) :
  (∀ r, r ∈ tbl → Professor.id r ≠ Professor.id novo) →
  Professor.get (tbl ++ [novo]) (Professor.id novo) = Some novo.
Proof.
  unfold Professor.get. induction tbl as [|x tbl IH]; intros Hne; simpl.
  - by rewrite Z.eqb_refl.
  - destruct (Professor.id x =? Professor.id novo) eqn:E.
    + apply Z.eqb_eq in E. exfalso. apply (Hne x); [left | done].
    + apply IH. intros r Hr. apply Hne. by right.
Qed.

Lemma delete_app_new (tbl : list Professor.t) (novo : Professor.t) :
  (∀ r, r ∈ tbl → Professor.id r ≠ Professor.id novo) →
  Professor.delete (tbl ++ [novo]) novo = tbl.
Proof.
  unfold Professor.delete. induction tbl as [|x tbl IH]; intros Hne; simpl.
  - by rewrite Z.eqb_refl.
  - destruct (Professor.id x =? Professor.id novo) eqn:E; simpl.
    + apply Z.eqb_eq in E. exfalso. apply (Hne x); [left | done].
    + f_equal. apply IH. intros r Hr. apply Hne. by right.
Qed.

(** X9.  After a registration that succeeded, the deletion of the new
    row's key, when its commit succeeds, gives back the table from before
    the registration, leaves nothing at the photo's destination, and leaves
    as regular files exactly those from before the registration other than
    a file that was already at the destination. *)
Theorem x_register_then_delete (f f' : Faults) (request : Request) (w : World)
    (nome cpf escola_id : string) (foto : FileStorage) (n : Z) :
  arvore (disk w) →
  pedido_valido request nome cpf escola_id foto →
  int_of_str escola_id = Some n →
  Professor.filter_by_cpf_first (professores w) cpf = None →
  upload_fails f = false → commit_fails f = false → commit_fails f' = false →
  let w1 := (processar_cadastro f request w).2 in
  let res := excluir_professor f' (Professor.next_id (professores w)) w1 in
  res.1 = Redirect "listar_professores"
  ∧ professores res.2 = professores w
  ∧ Os.path_exists (disk res.2) (destino escola_id cpf foto) = false
  ∧ (∀ k x, disk res.2 !! k = Some (Os.File x)
            ↔ k ≠ chave_foto escola_id cpf foto ∧ disk w !! k = Some (Os.File x)).
Proof.
  intros Hd Hv Hint Hnew Hup Hcommit Hcommit' w1 res. subst res w1.
  pose proof Hv as (_ & _ & _ & _ & _ & _ & _ & Hcpf).
  rewrite (processar_cadastro_valido f request w _ _ _ _ Hv Hd). cbv zeta.
  rewrite Hup, armazenar_spec by done. cbv zeta. rewrite Hnew, Hint, Hcommit.
  set (novo := Professor.mk (Professor.next_id (professores w)) nome cpf n
                            (destino escola_id cpf foto)).
  set (m := nome_municipio_de escola_id).
  set (k := chave_foto escola_id cpf foto).
  assert (Hids : ∀ r, r ∈ professores w → Professor.id r ≠ Professor.id novo).
  { intros r Hr. apply id_lt_next_id in Hr. simpl. lia. }
  unfold excluir_professor. cbn [snd professores disk].
  change (Professor.next_id (professores w)) with (Professor.id novo).
  rewrite (get_app_new _ _ Hids), Hcommit'. cbn [fst snd professores disk].
  rewrite (delete_app_new _ _ Hids).
  assert (Hm : segmento m) by apply pasta_segmento.
  assert (Ha : segmento (cpf +:+ extensao_de foto)) by by apply nome_arquivo_segmento.
  assert (Hd1 : arvore (<[k := Os.File (stream foto)]> (com_pasta (disk w) m))).
  { apply (arvore_insert_file _ m (cpf +:+ extensao_de foto));
      [by apply arvore_com_pasta|].
    unfold com_pasta. by rewrite lookup_insert_eq. }
  change (Professor.caminho_foto novo) with (destino escola_id cpf foto).
  rewrite path_exists_destino by done. fold k.
  rewrite (destino_forma escola_id cpf foto Hcpf). fold m.
  rewrite apagar_foto_spec by done.
  change ["uploads"; m; cpf +:+ extensao_de foto] with k.
  rewrite lookup_insert_eq.
  rewrite (bool_decide_eq_true_2 (is_Some (Some (Os.File (stream foto))))) by eauto.
  cbv zeta. rewrite delete_insert_eq.
  assert (Hfile : ∀ k' x, com_pasta (disk w) m !! k' = Some (Os.File x)
                          ↔ disk w !! k' = Some (Os.File x)).
  { intros k' x. unfold com_pasta. rewrite !lookup_insert.
    repeat case_decide; subst; split; try done.
    - intros Hf. by destruct (Hd _ _ Hf) as (_ & ? & _).
    - intros Hf. by destruct (Hd _ _ Hf) as (_ & ?). }
  split_and!; [done|done| |].
  - apply bool_decide_eq_false_2.
    case_bool_decide; rewrite ?lookup_delete_ne by done;
      rewrite lookup_delete_eq; by intros [? ?].
  - intros k' x. case_bool_decide.
    + rewrite !lookup_delete. repeat case_decide; subst.
      * split; [done|]. intros [_ Hf]. by destruct (Hd _ _ Hf) as (_ & ? & _).
      * split; [done|]. by intros [? _].
      * rewrite Hfile. split; [by intros | by intros [_ ?]].
    + rewrite lookup_delete. case_decide; subst.
      * split; [done|]. by intros [? _].
      * rewrite Hfile. split; [by intros | by intros [_ ?]].
Qed.

(** X9 at Rui Costa's registration after Ana Silva's, deleted again. *)
Lemma x_register_then_delete_witness :
  let w1 := (processar_cadastro no_faults
               (pedido "Rui Costa" "10987654321" "104" None "r.jpg") mundo_ana).2 in
  let res := excluir_professor no_faults 2 w1 in
  res.1 = Redirect "listar_professores"
  ∧ professores res.2 = professores mundo_ana.
Proof.
  intros w1 res.
  assert (Hd : arvore (disk mundo_ana)).
  { apply (est_arvore _ (estrutura_run [Register no_faults (pedido_ana "foto.jpg")]
                                       mundo_vazio estrutura_vazio)). }
  assert (Hv : pedido_valido (pedido "Rui Costa" "10987654321" "104" None "r.jpg")
                 "Rui Costa" "10987654321" "104"
                 {| filename := "r.jpg"; stream := "JFIF" |})
    by (vm_compute; repeat split).
  assert (Hn : Professor.filter_by_cpf_first (professores mundo_ana) "10987654321" = None)
    by (vm_compute; reflexivity).
  assert (Hi : int_of_str "104" = Some 104) by (vm_compute; reflexivity).
  assert (Hid : Professor.next_id (professores mundo_ana) = 2)
    by (vm_compute; reflexivity).
  pose proof (x_register_then_delete no_faults no_faults _ mundo_ana _ _ _ _ 104
                Hd Hv Hi Hn eq_refl eq_refl eq_refl) as H.
  cbv zeta in H. rewrite Hid in H. destruct H as (H1 & H2 & _).
  split; [exact H1 | exact H2].
Defined.

(** ** A duplicate to another place *)

(** X10 at a second registration of Ana Silva's cpf with school 103, a
    school of another municipality. *)
Lemma duplicado_sem_sobrescrever_witness :
  let r := processar_cadastro no_faults
             (pedido "Ana Silva" "12345678901" "103" None "b.png") mundo_ana in
  r.1 = Jsonify [("message", JStr msg_duplicado)] 409
  ∧ professores r.2 = professores mundo_ana
  ∧ Os.path_exists (disk r.2) "uploads/Caracarai/12345678901.png" = false.
Proof.
  intros r.
  assert (Hw : estrutura mundo_ana).
  { exact (estrutura_run [Register no_faults (pedido_ana "foto.jpg")]
                         mundo_vazio estrutura_vazio). }
  assert (Hf : fotos_existem mundo_ana).
  { apply (fotos_run [Register no_faults (pedido_ana "foto.jpg")] mundo_vazio
                     estrutura_vazio).
    - intros x Hx. by apply elem_of_nil in Hx.
    - vm_compute. reflexivity. }
  assert (Hv : pedido_valido (pedido "Ana Silva" "12345678901" "103" None "b.png")
                 "Ana Silva" "12345678901" "103"
                 {| filename := "b.png"; stream := "JFIF" |})
    by (vm_compute; repeat split).
  assert (Hdup : is_Some (Professor.filter_by_cpf_first (professores mundo_ana)
                                                        "12345678901")).
  { eexists. vm_compute. reflexivity. }
  assert (Hs : sobrescreve (pedido "Ana Silva" "12345678901" "103" None "b.png")
                           mundo_ana = false) by (vm_compute; reflexivity).
  assert (Hdest : destino "103" "12345678901" {| filename := "b.png"; stream := "JFIF" |}
                  = "uploads/Caracarai/12345678901.png") by (vm_compute; reflexivity).
  pose proof (duplicado_sem_sobrescrever no_faults _ mundo_ana _ _ _ _
                Hw Hf Hv eq_refl Hdup Hs) as H.
  cbv zeta in H. rewrite Hdest in H. destruct H as (H1 & H2 & _ & H3).
  split; [exact H1 | split; [exact H2 | exact H3]].
Defined.

(** ** The search of schools *)

Module SearchFacts.
Import Py PyFacts PyStr.

Lemma str_prefix_spec (p s : string) :
  str_prefix p s = true ↔ ∃ post, s = p +:+ post.
Proof.
  revert s. induction p as [|a p IH]; intros s; simpl.
  - split; [intros _; by exists s | done].
  - destruct s as [|b s].
    + split; [done | intros [post H]; discriminate H].
    + rewrite andb_true_iff, IH. split.
      * intros [Hab [post ->]]. apply Ascii.eqb_eq in Hab as ->. by exists post.
      * intros [post H]. rewrite append_cons in H. injection H as -> ->.
        split; [apply Ascii.eqb_refl | by exists post].
Qed.

Lemma str_contains_spec (needle hay : string) :
  str_contains needle hay = true ↔ ∃ pre post, hay = pre +:+ needle +:+ post.
Proof.
  induction hay as [|c hay IH]; simpl.
  - rewrite orb_false_r, str_prefix_spec. split.
    + intros [post H]. by exists EmptyString, post.
    + intros (pre & post & H). destruct pre; [by exists post|discriminate H].
  - rewrite orb_true_iff, str_prefix_spec, IH. split.
    + intros [[post H]|(pre & post & ->)].
      * by exists EmptyString, post.
      * by exists (String c pre), post.
    + intros (pre & post & H). destruct pre as [|x pre].
      * left. by exists post.
      * right. rewrite append_cons in H. injection H as -> ->. by exists pre, post.
Qed.

Lemma str_contains_trans (a b c : string) :
  str_contains a b = true → str_contains b c = true → str_contains a c = true.
Proof.
  rewrite !str_contains_spec. intros (p1 & q1 & ->) (p2 & q2 & ->).
  exists (p2 +:+ p1), (q1 +:+ q2). by rewrite !append_assoc.
Qed.

Lemma str_contains_empty (s : string) : str_contains EmptyString s = true.
Proof. by destruct s. Qed.

Lemma chr_lower_idemp (c : ascii) : chr_lower (chr_lower c) = chr_lower c.
Proof. destruct c as [[] [] [] [] [] [] [] []]; reflexivity. Qed.

Lemma str_lower_idemp (s : string) : str_lower (str_lower s) = str_lower s.
Proof.
  unfold str_lower. induction s as [|c s IH]; simpl; [done|].
  by rewrite chr_lower_idemp, IH.
Qed.

(** The loop appends the matching schools to the results so far. *)
Lemma buscar_loop_filter (busca : string) (escolas resultados : list EscolaData.t) :
  buscar_loop busca escolas resultados
  = (resultados
     ++ List.filter (λ e, str_contains busca (str_lower (EscolaData.text e))) escolas)%list.
Proof.
  revert resultados. induction escolas as [|[i t m] escolas IH]; intros resultados; simpl.
  - by rewrite app_nil_r.
  - destruct (str_contains busca (str_lower t)); [|apply IH].
    rewrite IH. by rewrite <- app_assoc.
Qed.

Lemma buscar_escolas_query (q : string) :
  buscar_escolas [("busca", q)]
  = List.filter (λ e, str_contains (str_lower q) (str_lower (EscolaData.text e)))
                ESCOLA_DATA.
Proof.
  unfold buscar_escolas.
  change (multidict_get [("busca", q)] "busca") with (Some q).
  by rewrite buscar_loop_filter.
Qed.

End SearchFacts.

Import SearchFacts.

(** X11.  The search answers with the schools of the table whose
    lower-cased name contains the lower-cased query, in the order of the
    table and each once; without a query, or with an empty one, it answers
    with the whole table. *)
Theorem x_search_filters_by_name (args : list (string * string)) :
  let busca := str_lower (default EmptyString (multidict_get args "busca")) in
  buscar_escolas args
  = List.filter (λ e, PyStr.str_contains busca (str_lower (EscolaData.text e)))
                ESCOLA_DATA
  ∧ buscar_escolas [] = ESCOLA_DATA
  ∧ buscar_escolas [("busca", EmptyString)] = ESCOLA_DATA
  ∧ map EscolaData.id ESCOLA_DATA = map fst ESCOLA_MAPA.
Proof.
  intros busca. split_and!.
  - unfold buscar_escolas. fold busca. by rewrite buscar_loop_filter.
  - vm_compute. reflexivity.
  - vm_compute. reflexivity.
  - vm_compute. reflexivity.
Qed.

(** X12.  The search does not distinguish upper and lower case in the
    query: a query and its lower-cased form give the same answer, and so do
    any two queries with the same lower-cased form. *)
Theorem x_search_ignores_case (q q' : string) :
  buscar_escolas [("busca", str_lower q)] = buscar_escolas [("busca", q)]
  ∧ (str_lower q = str_lower q' →
     buscar_escolas [("busca", q)] = buscar_escolas [("busca", q')]).
Proof.
  rewrite !buscar_escolas_query, str_lower_idemp. split; [done|].
  by intros ->.
Qed.

(** X13.  A query that contains another one, case apart, is answered with
    a part of the other's answer. *)
Theorem x_search_narrows (q1 q2 : string) (e : EscolaData.t) :
  PyStr.str_contains (str_lower q1) (str_lower q2) = true →
  e ∈ buscar_escolas [("busca", q2)] → e ∈ buscar_escolas [("busca", q1)].
Proof.
  intros Hq. rewrite !buscar_escolas_query.
  rewrite !list_elem_of_In, !filter_In. intros [Hin Hc]. split; [done|].
  by apply (str_contains_trans _ (str_lower q2)).
Qed.

(** X13 at the queries "escola" and "Escola M". *)
Lemma x_search_narrows_witness :
  map EscolaData.id (buscar_escolas [("busca", "Escola M")]) = [105]
  ∧ EscolaData.mk 105 "Escola Municipal Teste B" (lit "Cantá")
    ∈ buscar_escolas [("busca", "escola")].
Proof.
  split; [vm_compute; reflexivity|].
  apply (x_search_narrows "escola" "Escola M"); [vm_compute; reflexivity|].
  vm_compute. left.
Defined.

(** X14.  Every school in an answer of the search is in the directory
    under its id with the same name and municipality, so that the lookup by
    that id, as an integer or as the text of a form, gives them back. *)
Theorem x_search_results_resolve (args : list (string * string)) (e : EscolaData.t) :
  e ∈ buscar_escolas args →
  dict_get ESCOLA_MAPA (EscolaData.id e)
  = Some {| nome := EscolaData.text e; municipio := EscolaData.municipio e |}
  ∧ get_info_escola (IdInt (EscolaData.id e))
    = {| nome := EscolaData.text e; municipio := EscolaData.municipio e |}
  ∧ get_nome_escola (IdInt (EscolaData.id e)) = EscolaData.text e
  ∧ get_info_escola (IdStr (pretty (EscolaData.id e)))
    = {| nome := EscolaData.text e; municipio := EscolaData.municipio e |}.
Proof.
  unfold buscar_escolas. rewrite buscar_loop_filter, app_nil_l.
  rewrite list_elem_of_In, filter_In. intros [Hin _].
  assert (He : Forall (λ e, dict_get ESCOLA_MAPA (EscolaData.id e)
                            = Some {| nome := EscolaData.text e;
                                      municipio := EscolaData.municipio e |}
                            ∧ int_of_str (pretty (EscolaData.id e))
                              = Some (EscolaData.id e)) ESCOLA_DATA).
  { apply Forall_forall. intros x Hx. apply list_elem_of_In in Hx.
    vm_compute in Hx.
    repeat (destruct Hx as [<-|Hx]; [split; vm_compute; reflexivity|]). destruct Hx. }
  rewrite Forall_forall in He. destruct (He e (proj2 (list_elem_of_In _ _) Hin)) as [Hd Hi].
  unfold get_nome_escola, get_info_escola, int. rewrite Hi, Hd. by split_and!.
Qed.

(** X14 at the answer to the query "xyz". *)
Lemma x_search_results_resolve_witness :
  get_nome_escola (IdInt 107) = "Escola de Fronteira XYZ".
Proof.
  apply (x_search_results_resolve [("busca", "xyz")]
           (EscolaData.mk 107 "Escola de Fronteira XYZ" "Pacaraima")).
  vm_compute. left.
Defined.

(** ** The listing *)

Module ListFacts.
Import Py PyFacts PathFacts RouteFacts PyStr SearchFacts.

Lemma str_prefix_append (p r : string) : str_prefix p (p +:+ r) = true.
Proof. apply str_prefix_spec. by exists r. Qed.

Lemma str_drop_append (p r : string) : str_drop (String.length p) (p +:+ r) = r.
Proof. induction p as [|c p IH]; [by destruct r | by rewrite append_cons]. Qed.

Lemma str_replace_first_prefix (old new r : string) :
  str_replace_first old new (old +:+ r) = new +:+ r.
Proof.
  assert (H : ∀ s, str_prefix old s = true →
                   str_replace_first old new s = new +:+ str_drop (String.length old) s).
  { intros s Hs. destruct s; simpl; by rewrite Hs. }
  rewrite H by apply str_prefix_append. by rewrite str_drop_append.
Qed.

Lemma join_upload_folder (x : string) :
  str_startswith "/" x = false → OsPath.join UPLOAD_FOLDER x = "uploads/" +:+ x.
Proof. intros H. unfold OsPath.join. by rewrite H. Qed.

(** The file name that the listing passes to [url_for] for a path that a
    registration computed. *)
Lemma caminho_relativo_destino (escola_id cpf : string) (foto : FileStorage) :
  cpf_valido cpf = true →
  let relativo := nome_municipio_de escola_id +:+ "/" +:+ cpf +:+ extensao_de foto in
  str_replace_first UPLOAD_FOLDER EmptyString (destino escola_id cpf foto) = relativo
  ∧ OsPath.join UPLOAD_FOLDER relativo = destino escola_id cpf foto.
Proof.
  intros Hcpf relativo. rewrite destino_forma by done. fold relativo. split.
  - apply (str_replace_first_prefix "uploads/" EmptyString relativo).
  - apply join_upload_folder. subst relativo.
    destruct (pasta_segmento (IdStr escola_id)) as [Hne Hs].
    fold (nome_municipio_de escola_id) in Hne, Hs.
    destruct (nome_municipio_de escola_id) as [|c m]; [done|].
    rewrite append_cons. unfold sem_barra in Hs. simpl in Hs.
    apply andb_true_iff in Hs as [Hc _]. simpl. by apply negb_true_iff in Hc.
Qed.

End ListFacts.

Import ListFacts.

(** X15.  In every reachable state the listing has one entry per row, in
    the order of the table, with the row's key, name and cpf and the name
    that the directory gives for the row's school; the file name given to
    [url_for] is <folder>/<cpf><extension>, the stored path without the
    upload folder, and joining it to the upload folder gives the stored
    path back. *)
Theorem x_listing_follows_table (ops : list Op) :
  let w := run ops mundo_vazio in
  Forall2 (λ r item,
             Listagem.id item = Professor.id r
             ∧ Listagem.nome item = Professor.nome r
             ∧ Listagem.cpf item = Professor.cpf r
             ∧ Listagem.escola_nome item
               = nome (get_info_escola (IdInt (Professor.escola_id r)))
             ∧ ∃ m ext,
                 m ∈ pastas
                 ∧ Listagem.url_foto item
                   = UrlFor "uploaded_file" (m +:+ "/" +:+ Professor.cpf r +:+ ext)
                 ∧ OsPath.join UPLOAD_FOLDER (m +:+ "/" +:+ Professor.cpf r +:+ ext)
                   = Professor.caminho_foto r)
          (professores w) (listar_professores w).
Proof.
  intros w. destruct (linhas_pastas_run ops) as [Hl _]. fold w in Hl.
  unfold listar_professores. unfold linhas_validas in Hl. revert Hl.
  generalize (professores w). intros l. induction l as [|r l IH]; intros Hl; simpl.
  - constructor.
  - constructor.
    + split_and!; try done.
      destruct (Hl r) as (Hcpf & esc & foto & Hp); [left|].
      exists (nome_municipio_de esc), (extensao_de foto).
      destruct (caminho_relativo_destino esc (Professor.cpf r) foto Hcpf) as [H1 H2].
      split_and!; [apply pastas_nome_municipio| |by rewrite Hp]. by rewrite Hp, H1.
    + apply IH. intros r' Hr'. apply Hl. by right.
Qed.

(** X16.  After a registration that succeeded, the listing is the one
    from before followed by one entry: the new key, the name and cpf as
    sent, the name that the directory gives for the school id of the form,
    and the file name <folder>/<cpf><extension>. *)
Theorem x_register_then_list (f : Faults) (request : Request) (w : World)
    (nome_ cpf escola_id : string) (foto : FileStorage) (n : Z) :
  arvore (disk w) →
  pedido_valido request nome_ cpf escola_id foto →
  int_of_str escola_id = Some n →
  Professor.filter_by_cpf_first (professores w) cpf = None →
  upload_fails f = false → commit_fails f = false →
  listar_professores (processar_cadastro f request w).2
  = (listar_professores w
     ++ [Listagem.mk (Professor.next_id (professores w)) nome_ cpf
           (nome (get_info_escola (IdStr escola_id)))
           (UrlFor "uploaded_file"
                   (nome_municipio_de escola_id +:+ "/" +:+ cpf
                    +:+ extensao_de foto))])%list.
Proof.
  intros Hd Hv Hint Hnew Hup Hcommit.
  pose proof Hv as (_ & _ & _ & _ & _ & _ & _ & Hcpf).
  rewrite (processar_cadastro_valido f request w _ _ _ _ Hv Hd). cbv zeta.
  rewrite Hup, armazenar_spec by done. cbv zeta. rewrite Hnew, Hint, Hcommit.
  unfold listar_professores. cbn [snd professores]. rewrite map_app. f_equal.
  cbn [map Professor.id Professor.nome Professor.cpf Professor.escola_id
       Professor.caminho_foto].
  destruct (caminho_relativo_destino escola_id cpf foto Hcpf) as [-> _].
  unfold get_nome_escola, get_info_escola, int. by rewrite Hint.
Qed.

(** X16 at Rui Costa's registration after Ana Silva's. *)
Lemma x_register_then_list_witness :
  map Listagem.url_foto
      (listar_professores
         (processar_cadastro no_faults
            (pedido "Rui Costa" "10987654321" "104" None "r.JPG") mundo_ana).2)
  = [UrlFor "uploaded_file" "Boa_Vista/12345678901.jpg";
     UrlFor "uploaded_file" "Rorainopolis/10987654321.jpg"].
Proof.
  assert (Hd : arvore (disk mundo_ana)).
  { apply (est_arvore _ (estrutura_run [Register no_faults (pedido_ana "foto.jpg")]
                                       mundo_vazio estrutura_vazio)). }
  assert (Hv : pedido_valido (pedido "Rui Costa" "10987654321" "104" None "r.JPG")
                 "Rui Costa" "10987654321" "104"
                 {| filename := "r.JPG"; stream := "JFIF" |})
    by (vm_compute; repeat split).
  assert (Hn : Professor.filter_by_cpf_first (professores mundo_ana) "10987654321" = None)
    by (vm_compute; reflexivity).
  assert (Hi : int_of_str "104" = Some 104) by (vm_compute; reflexivity).
  rewrite (x_register_then_list no_faults _ mundo_ana _ _ _ _ 104
             Hd Hv Hi Hn eq_refl eq_refl).
  vm_compute. reflexivity.
Defined.

(** ** The database URI *)

(** X17.  The configured database URI never begins with "postgres://":
    a DATABASE_URL with that scheme gets the scheme
    "postgresql+psycopg2://" and keeps the rest, later occurrences of
    "postgres://" included; any other non-empty DATABASE_URL is taken as it
    is; without one, or with an empty one, the URI is the SQLite file. *)
Theorem x_database_uri (DATABASE_URL : option string) (rest : string) :
  PyStr.str_prefix "postgres://" (SQLALCHEMY_DATABASE_URI DATABASE_URL) = false
  ∧ SQLALCHEMY_DATABASE_URI (Some ("postgres://" +:+ rest))
    = "postgresql+psycopg2://" +:+ rest
  ∧ (PyStr.str_prefix "postgres://" rest = false → rest ≠ EmptyString →
     SQLALCHEMY_DATABASE_URI (Some rest) = rest)
  ∧ SQLALCHEMY_DATABASE_URI None = "sqlite:///professores.db"
  ∧ SQLALCHEMY_DATABASE_URI (Some EmptyString) = "sqlite:///professores.db".
Proof.
  split_and!.
  - unfold SQLALCHEMY_DATABASE_URI. destruct DATABASE_URL as [uri|]; [|reflexivity].
    cbn [truthy_str]. change (default EmptyString (Some uri)) with uri.
    destruct (truthy uri); [|reflexivity]. cbv zeta.
    destruct (PyStr.str_prefix "postgres://" uri) eqn:Hp; [|done].
    apply SearchFacts.str_prefix_spec in Hp as [post ->].
    by rewrite str_replace_first_prefix.
  - unfold SQLALCHEMY_DATABASE_URI. cbn [truthy_str].
    change (default EmptyString (Some ("postgres://" +:+ rest)))
      with ("postgres://" +:+ rest).
    change (truthy ("postgres://" +:+ rest)) with true. cbv zeta.
    rewrite str_prefix_append. apply str_replace_first_prefix.
  - intros Hp Hne. unfold SQLALCHEMY_DATABASE_URI. cbn [truthy_str].
    change (default EmptyString (Some rest)) with rest. cbv zeta. rewrite Hp.
    by destruct rest.
  - reflexivity.
  - reflexivity.
Qed.

(** ** What a registration answers, and files without a row *)

Module AnswerFacts.
Import Py PyFacts PathFacts DiskFacts RouteFacts Invariants MoreFacts ReachFacts.

Lemma pedido_valido_aceito (request : Request) (nome cpf escola_id : string)
    (foto : FileStorage) :
  pedido_valido request nome cpf escola_id foto → pedido_aceito request = true.
Proof.
  intros Hv. unfold pedido_aceito. rewrite (campos_presentes_valido _ _ _ _ _ Hv).
  destruct Hv as (_ & -> & _ & _ & _ & _ & _ & Hc). by rewrite Hc.
Qed.

Lemma com_pasta_file (d : gmap (list string) Os.node) (m : string)
    (k : list string) (x : string) :
  com_pasta d m !! k = Some (Os.File x) → d !! k = Some (Os.File x).
Proof. unfold com_pasta. rewrite !lookup_insert. by repeat case_decide. Qed.

Lemma sem_orfaos_mono (ops : list Op) (op : Op) (d : gmap (list string) Os.node)
    (tbl : list Professor.t) (w : World) :
  sem_orfaos ops w →
  (∀ k x, d !! k = Some (Os.File x) → disk w !! k = Some (Os.File x)) →
  (∀ r, r ∈ professores w → is_Some (d !! Os.components (Professor.caminho_foto r))
                            → r ∈ tbl) →
  sem_orfaos (ops ++ [op]) {| disk := d; professores := tbl |}.
Proof.
  intros Ho Hsub Hrows k x Hk. simpl in *.
  destruct (Ho k x (Hsub k x Hk)) as [(r & Hr & Hkr)|(op' & Hin & Hop)].
  - left. exists r. split; [|done]. apply Hrows; [done|]. rewrite Hkr. eauto.
  - right. exists op'. split; [|done]. apply elem_of_app. by left.
Qed.

Lemma sem_orfaos_step (ops : list Op) (w : World) (op : Op) :
  estrutura w → ids_ok w ∧ sem_orfaos ops w →
  ids_ok (run_op w op) ∧ sem_orfaos (ops ++ [op]) (run_op w op).
Proof.
  intros Hw [Hids Ho]. split; [by apply ids_ok_step|].
  destruct op as [f request|f i]; simpl.
  - destruct (processar_cadastro_casos f request w (est_arvore w Hw))
      as [->|(nome & cpf & esc & foto & Hv & Hcases)].
    { destruct w. by apply (sem_orfaos_mono ops _ _ _ _ Ho). }
    pose proof Hv as (_ & E2 & E3 & E4 & _ & _ & _ & Hcpf).
    destruct (processar_cadastro f request w) as [resp [d tbl]]. simpl in Hcases.
    destruct Hcases as [[-> Hdisk]|(n & _ & _ & _ & _ & _ & -> & ->)].
    + destruct Hdisk as [-> | [-> | [Hup ->]]].
      * apply (sem_orfaos_mono ops _ _ _ _ Ho); [|done].
        intros k x. apply com_pasta_file.
      * apply (sem_orfaos_mono ops _ _ _ _ Ho); [|done].
        intros k x. rewrite lookup_delete. case_decide; [done|]. apply com_pasta_file.
      * unfold resto_upload. destruct (upload_written f) as [n|] eqn:Hn.
        2:{ apply (sem_orfaos_mono ops _ _ _ _ Ho); [|done].
            intros k x. apply com_pasta_file. }
        intros k x. simpl. rewrite lookup_insert. case_decide as E.
        -- intros _. right. exists (Register f request).
           split; [apply elem_of_app; right; left|]. simpl.
           rewrite (pedido_valido_aceito _ _ _ _ _ Hv), Hup, Hn, E2, E3, E4.
           rewrite bool_decide_eq_true_2 by eauto. simpl. by rewrite E.
        -- intros Hk. apply com_pasta_file in Hk.
           destruct (Ho k x Hk) as [(r & Hr & Hkr)|(op' & Hin & Hop)].
           ++ left. by exists r.
           ++ right. exists op'. split; [|done]. apply elem_of_app. by left.
    + intros k x. simpl. rewrite lookup_insert. case_decide as E.
      * intros _. left. eexists. split; [apply elem_of_app; right; left|].
        simpl. rewrite <- E. by apply components_destino.
      * intros Hk. apply com_pasta_file in Hk.
        destruct (Ho k x Hk) as [(r & Hr & Hkr)|(op' & Hin & Hop)].
        -- left. exists r. split; [|done]. apply elem_of_app. by left.
        -- right. exists op'. split; [|done]. apply elem_of_app. by left.
  - pose proof (excluir_remove_foto f i w) as Hgone.
    unfold excluir_professor in *.
    destruct (Professor.get (professores w) i) as [r|] eqn:Hg.
    2:{ destruct w. by apply (sem_orfaos_mono ops _ _ _ _ Ho). }
    specialize (Hgone r Hw eq_refl). apply get_Some in Hg as [Hin _].
    destruct (commit_fails f); simpl in *.
    { apply (sem_orfaos_mono ops _ _ _ _ Ho); [|done].
      intros k x. apply apagar_foto_subset. }
    apply (sem_orfaos_mono ops _ _ _ _ Ho); [intros k x; apply apagar_foto_subset|].
    intros r' Hr' Hfile. apply elem_of_delete. split; [done|]. intros Hid.
    assert (r' = r) as ->.
    { by apply (NoDup_map_inj Professor.id (professores w)); [apply Hids|..]. }
    destruct (linha_ok_chave r (est_linhas w Hw r Hin))
      as (m & a & ext & Hp & _ & Hm & Ha & Hkey).
    rewrite Hp, path_exists_caminho in Hgone by done.
    apply bool_decide_eq_false in Hgone. apply Hgone.
    by rewrite <- Hp, <- Hkey.
Qed.

Lemma sem_orfaos_run (ops : list Op) :
  ids_ok (run ops mundo_vazio) ∧ sem_orfaos ops (run ops mundo_vazio).
Proof.
  induction ops as [|op ops IH] using rev_ind.
  - split; [split; [constructor|]; intros r Hr; by apply elem_of_nil in Hr|].
    intros k x Hk. simpl in Hk. by rewrite lookup_empty in Hk.
  - rewrite run_snoc. apply sem_orfaos_step; [|done].
    apply estrutura_run, estrutura_vazio.
Qed.

End AnswerFacts.

Import AnswerFacts.

(** X18.  In every reachable state, whatever is refused, a registration
    changes the table only when it answers 200, and then by exactly one
    row: with 200 one row is appended, with the cpf and the name of the
    form, the integer of its school id and the next key; with any other
    answer the table is the one before the request. *)
Theorem x_table_changes_only_with_200 (ops : list Op) (f : Faults) (request : Request) :
  let w := run ops mundo_vazio in
  let r := processar_cadastro f request w in
  (status_of r.1 ≠ 200 ∧ professores r.2 = professores w)
  ∨ (status_of r.1 = 200
     ∧ ∃ novo escola_id,
         professores r.2 = (professores w ++ [novo])%list
         ∧ multidict_get (form request) "cpf" = Some (Professor.cpf novo)
         ∧ multidict_get (form request) "nome" = Some (Professor.nome novo)
         ∧ multidict_get (form request) "escola_id" = Some escola_id
         ∧ int_of_str escola_id = Some (Professor.escola_id novo)
         ∧ Professor.id novo = Professor.next_id (professores w)).
Proof.
  intros w r. subst r.
  assert (Hd : arvore (disk w)) by apply est_arvore, estrutura_run, estrutura_vazio.
  destruct (pedido_valido_dec request) as [(nome & cpf & esc & foto & Hv)|Hno].
  2:{ left. destruct (processar_cadastro_invalido f request w Hno) as [-> ->]. done. }
  rewrite (processar_cadastro_valido f request w _ _ _ _ Hv Hd). cbv zeta.
  pose proof Hv as (E1 & E2 & E3 & _ & _ & _ & _ & Hcpf).
  destruct (upload_fails f); [by left|].
  rewrite armazenar_spec by done. cbv zeta.
  destruct (Professor.filter_by_cpf_first (professores w) cpf); [by left|].
  destruct (int_of_str esc) as [n|] eqn:Hint; [|by left].
  destruct (commit_fails f); [by left|].
  right. split; [done|]. eexists _, esc. simpl. by split_and!.
Qed.

(** X19.  In every reachable state, every regular file on disk is the
    stored photo of a row of the table, or lies at the destination of an
    earlier registration that passed the checks and whose photo write was
    refused after the destination had been opened.  So a duplicate, a
    failed insert, a refused [open] and a deletion leave no file without
    its row; a write refused midway is the one way a file is left. *)
Theorem x_file_has_row_or_refused_write (ops : list Op) (k : list string) (x : string) :
  let w := run ops mundo_vazio in
  disk w !! k = Some (Os.File x) →
  (∃ r, r ∈ professores w ∧ Os.components (Professor.caminho_foto r) = k)
  ∨ (∃ f request cpf escola_id foto,
       Register f request ∈ ops
       ∧ pedido_aceito request = true
       ∧ upload_fails f = true ∧ is_Some (upload_written f)
       ∧ multidict_get (form request) "cpf" = Some cpf
       ∧ multidict_get (form request) "escola_id" = Some escola_id
       ∧ multidict_get (files request) "foto" = Some foto
       ∧ k = chave_foto escola_id cpf foto).
Proof.
  intros w Hk.
  destruct (proj2 (sem_orfaos_run ops) k x Hk) as [Hrow|(op & Hin & Hop)]; [by left|].
  right. destruct op as [f request|f i]; [|done]. simpl in Hop.
  destruct (pedido_aceito request) eqn:Hok; [|done].
  destruct (upload_fails f) eqn:Hup; [|done].
  case_bool_decide as Hn; [|done]. simpl in Hop.
  destruct (multidict_get (form request) "cpf") as [cpf|] eqn:E2; [|done].
  destruct (multidict_get (form request) "escola_id") as [esc|] eqn:E3; [|done].
  destruct (multidict_get (files request) "foto") as [foto|] eqn:E4; [|done].
  injection Hop as <-. by exists f, request, cpf, esc, foto.
Qed.

(** X19 at the state after Ana Silva, a registration of Rui Costa whose
    write is refused after two bytes, a registration of Bia Lima whose
    commit fails, and the deletion of Ana Silva: the one file on disk is
    what the refused write left. *)
Lemma x_file_has_row_or_refused_write_witness :
  let ops := [Register no_faults (pedido_ana "foto.jpg");
              Register upload_falha (pedido "Rui Costa" "10987654321" "104" None "r.jpg");
              Register commit_falha (pedido "Bia Lima" "11122233344" "101" None "bia.jpg");
              Delete no_faults 1] in
  let k := ["uploads"; "Rorainopolis"; "10987654321.jpg"] in
  disk (run ops mundo_vazio) !! k = Some (Os.File "JF")
  ∧ professores (run ops mundo_vazio) = []
  ∧ ((∃ r, r ∈ professores (run ops mundo_vazio)
           ∧ Os.components (Professor.caminho_foto r) = k)
     ∨ (∃ f request cpf escola_id foto,
          Register f request ∈ ops
          ∧ pedido_aceito request = true
          ∧ upload_fails f = true ∧ is_Some (upload_written f)
          ∧ multidict_get (form request) "cpf" = Some cpf
          ∧ multidict_get (form request) "escola_id" = Some escola_id
          ∧ multidict_get (files request) "foto" = Some foto
          ∧ k = chave_foto escola_id cpf foto)).
Proof.
  intros ops k.
  assert (Hk : disk (run ops mundo_vazio) !! k = Some (Os.File "JF"))
    by (vm_compute; reflexivity).
  split; [exact Hk|]. split; [vm_compute; reflexivity|].
  exact (x_file_has_row_or_refused_write ops k "JF" Hk).
Defined.
